(** * Calendar layout of nivo (packages/calendar/src/compute.js)

    A shallow embedding of the layout engine, the data binder and the legend
    position functions of the calendar package, and the properties the
    specification states about them.

    Conventions of the embedding, and where it stops following the code.
    - JavaScript numbers are exact rationals: every finite result is the
      result of the operation in exact arithmetic, where the code rounds it
      to binary64.  An equality or a bound between computed sizes is
      therefore a fact of exact arithmetic; the statements that depend on
      it say so.
    - A value that leaves the finite numbers is the single value [NaN],
      which every arithmetic operation propagates: [undefined] converted to
      a number, but also a division by zero and [Math.max()] of no
      argument, whose infinities are not told apart from NaN.  Where the
      code divides by zero (a layout of no block) the model's [NaN] stands
      for a value the model does not determine.
    - A [Date] is its time value: milliseconds since 1970-01-01T00:00Z, an
      unbounded integer.  The code's time values end 8.64e15 milliseconds
      from the epoch, and a date beyond is invalid; [timeValue] is that
      range, and between the years -271820 and 275759 every date the block
      loops build stays inside it.
    - The host time zone is UTC, so the local accessors ([getFullYear],
      [getMonth], ...), the local constructor [new Date(y, m, d)] and the
      local intervals of d3-time coincide with the UTC ones.
    - A thrown [TypeError] and a loop that never ends are the two errors of
      the [result] monad.  The resources of an engine (memory, the call
      stack that limits the number of arguments [Math.max(...)] can be
      spread over) are not modelled.
    - The SVG path string of a month is not modelled; its bounding box is. *)

From Stdlib Require Import ZArith QArith Qminmax List String Ascii Bool Lia Lqa
  Permutation.
Import ListNotations.

(** ** JavaScript values *)

Module JS.

(** What a call can end with instead of a value. *)
Inductive error : Type :=
| TypeError (property : string)   (* Cannot read properties of undefined (reading 'property') *)
| Diverges.                       (* the loop never ends *)

Inductive result (A : Type) : Type :=
| Ok (a : A)
| Err (e : error).

Arguments Ok {A} a.
Arguments Err {A} e.

Definition bind {A B} (r : result A) (k : A -> result B) : result B :=
  match r with
  | Ok a => k a
  | Err e => Err e
  end.

(** [xs.map(f)] where [f] may throw: left to right, the first throw wins. *)
Fixpoint mapM {A B} (f : A -> result B) (xs : list A) : result (list B) :=
  match xs with
  | [] => Ok []
  | x :: xs' =>
      bind (f x) (fun y => bind (mapM f xs') (fun ys => Ok (y :: ys)))
  end.

(** [xs[i]] followed by a property read: reading a property of [undefined]
    throws. *)
Definition prop_of_index {A} (xs : list A) (i : nat) (property : string)
  : result A :=
  match nth_error xs i with
  | Some a => Ok a
  | None => Err (TypeError property)
  end.

(** A parameter the caller left out. *)
Definition undefined {A} : option A := None.

(** Numbers. *)
Inductive number : Type :=
| NaN
| Fin (q : Q).

Definition ToNumber (v : option number) : number :=
  match v with
  | Some n => n
  | None => NaN
  end.

Definition lift2 (op : Q -> Q -> Q) (a b : number) : number :=
  match a, b with
  | Fin x, Fin y => Fin (op x y)
  | _, _ => NaN
  end.

Definition add := lift2 Qplus.
Definition sub := lift2 Qminus.
Definition mul := lift2 Qmult.

Definition div (a b : number) : number :=
  match a, b with
  | Fin x, Fin y => if Qeq_bool y 0 then NaN else Fin (x / y)
  | _, _ => NaN
  end.

(** [Math.min(a, b)] and [Math.max(a, b)]. *)
Definition min := lift2 Qmin.
Definition max := lift2 Qmax.

(** [Math.max(...xs)]; of no argument it is [-Infinity], not a finite
    number. *)
Definition max_list (xs : list number) : number :=
  match xs with
  | [] => NaN
  | x :: xs' => fold_left max xs' x
  end.

Definition ofZ (z : Z) : number := Fin (inject_Z z).
Definition ofNat (n : nat) : number := ofZ (Z.of_nat n).

(** [a !== b] on numbers; [NaN] differs from everything. *)
Definition strict_neq (a b : number) : bool :=
  match a, b with
  | Fin x, Fin y => negb (Qeq_bool x y)
  | _, _ => true
  end.

(** The same number (the model's identity, under which [NaN] is [NaN]). *)
Definition same (a b : number) : Prop :=
  match a, b with
  | Fin x, Fin y => x == y
  | NaN, NaN => True
  | _, _ => False
  end.

(** [a <= b] holds between finite numbers only. *)
Definition le (a b : number) : Prop :=
  match a, b with
  | Fin x, Fin y => x <= y
  | _, _ => False
  end.

Definition sameb (a b : number) : bool :=
  match a, b with
  | Fin x, Fin y => Qeq_bool x y
  | NaN, NaN => true
  | _, _ => false
  end.

End JS.

Import JS.

Declare Scope js_scope.
Delimit Scope js_scope with js.
Bind Scope js_scope with number.
Notation "x <- c ;; k" := (bind c (fun x => k))
  (at level 61, c at next level, right associativity) : js_scope.
Infix "+" := add : js_scope.
Infix "-" := sub : js_scope.
Infix "*" := mul : js_scope.
Infix "/" := div : js_scope.
Notation "# z" := (ofZ z) (at level 5, format "# z") : js_scope.

(** ** Dates: the time values of ECMAScript, in the UTC time zone *)

Module JSDate.

Local Open Scope Z_scope.

Definition Date := Z.

Definition msPerDay : Z := 86400000.

Definition Day (t : Date) : Z := t / msPerDay.
Definition TimeWithinDay (t : Date) : Z := t mod msPerDay.

(** [MakeDay(year, month, date)]: the day number of a civil date of the
    proleptic Gregorian calendar.  [month] counts from 0 and may lie
    outside 0..11 (it carries into the year), [date] is any integer (day 0
    is the last day of the month before). *)
Definition MakeDay (year month date : Z) : Z :=
  let ym := year + month / 12 in
  let mn := month mod 12 in
  let y := if mn <? 2 then ym - 1 else ym in
  let era := y / 400 in
  let yoe := y mod 400 in
  let mp := (mn + 10) mod 12 in
  let doy := (153 * mp + 2) / 5 in
  let doe := yoe * 365 + yoe / 4 - yoe / 100 + doy in
  era * 146097 + doe - 719468 + date - 1.

(** The civil date (year, month from 0, day of month from 1) of a day
    number. *)
Definition civil (day : Z) : Z * Z * Z :=
  let z := day + 719468 in
  let era := z / 146097 in
  let doe := z mod 146097 in
  let yoe := (doe - doe / 1460 + doe / 36524 - doe / 146096) / 365 in
  let doy := doe - (365 * yoe + yoe / 4 - yoe / 100) in
  let mp := (5 * doy + 2) / 153 in
  let d := doy - (153 * mp + 2) / 5 + 1 in
  let m := if mp <? 10 then mp + 2 else mp - 10 in
  let y := yoe + era * 400 in
  (if m <? 2 then y + 1 else y, m, d).

Definition getUTCFullYear (t : Date) : Z := fst (fst (civil (Day t))).
Definition getUTCMonth (t : Date) : Z := snd (fst (civil (Day t))).
Definition getUTCDate (t : Date) : Z := snd (civil (Day t)).
(** 0 is Sunday; 1970-01-01 was a Thursday. *)
Definition getUTCDay (t : Date) : Z := (Day t + 4) mod 7.

Definition getFullYear := getUTCFullYear.
Definition getMonth := getUTCMonth.
Definition getDate := getUTCDate.
Definition getDay := getUTCDay.
Definition getTime (t : Date) : Z := t.

(** [new Date(year, month, date)]: midnight of that day; a year in 0..99
    means 1900 + year. *)
Definition newDate (year month date : Z) : Date :=
  let yr := if (0 <=? year) && (year <=? 99) then 1900 + year else year in
  MakeDay yr month date * msPerDay.

(** [d.setMonth(month)]: the time value [d] holds afterwards. *)
Definition setMonth (t : Date) (month : Z) : Date :=
  MakeDay (getFullYear t) month (getDate t) * msPerDay + TimeWithinDay t.

End JSDate.

Import JSDate.

(** ** The library calls of compute.js

    d3-time, d3-time-format and lodash are not part of the package; they are
    modelled by their documented contracts. *)

Module D3.

Local Open Scope Z_scope.

(** The integers of [a, b). *)
Definition zrange (a b : Z) : list Z :=
  map (fun i => a + Z.of_nat i) (seq 0 (Z.to_nat (b - a))).

(** Division rounding up. *)
Definition cdiv (a b : Z) : Z := - ((- a) / b).

(** [timeDays(start, stop)]: every midnight [d] with start <= d < stop. *)
Definition timeDays (start stop : Date) : list Date :=
  map (fun n => n * msPerDay) (zrange (cdiv start msPerDay) (cdiv stop msPerDay)).

(** Months are numbered through the years: month [k] is month [k mod 12]
    of year [k / 12]. *)
Definition monthIndex (t : Date) : Z := 12 * getFullYear t + getMonth t.
Definition monthStart (k : Z) : Date := MakeDay 0 k 1 * msPerDay.
(** The first month that starts at [t] or later. *)
Definition ceilMonth (t : Date) : Z :=
  let k := monthIndex t in
  if monthStart k =? t then k else k + 1.

(** [timeMonths(start, stop)]: every first-of-month midnight [m] with
    start <= m < stop. *)
Definition timeMonths (start stop : Date) : list Date :=
  map monthStart (zrange (ceilMonth start) (ceilMonth stop)).

(** Weeks start on Sunday; week [w] starts on day [7 w - 4]. *)
Definition weekIndex (t : Date) : Z := (Day t + 4) / 7.
Definition weekStart (w : Z) : Date := (7 * w - 4) * msPerDay.
Definition ceilWeek (t : Date) : Z := cdiv (t + 4 * msPerDay) (7 * msPerDay).

(** [timeWeeks(start, stop)]: every Sunday midnight [s] with
    start <= s < stop. *)
Definition timeWeeks (start stop : Date) : list Date :=
  map weekStart (zrange (ceilWeek start) (ceilWeek stop)).

(** [timeWeek.count(start, stop)]: the number of week boundaries in
    (start, stop]. *)
Definition timeWeek_count (start stop : Date) : Z :=
  weekIndex stop - weekIndex start.

(** [timeYear(date)]: the first of January, midnight, of the date's year. *)
Definition timeYear (t : Date) : Date := MakeDay (getFullYear t) 0 1 * msPerDay.

(** Decimal digits of a natural number. *)
Fixpoint digits (fuel : nat) (n : Z) (acc : string) : string :=
  match fuel with
  | O => acc
  | S fuel' =>
      let acc' := String (ascii_of_nat (48 + Z.to_nat (n mod 10))) acc in
      if n <? 10 then acc' else digits fuel' (n / 10) acc'
  end.

Definition decimal (n : Z) : string :=
  digits (S (Z.to_nat (Z.log2 n))) n EmptyString.

Fixpoint fills (fill : ascii) (n : nat) : string :=
  match n with
  | O => EmptyString
  | S n' => String fill (fills fill n')
  end.

(** d3-time-format's [pad(value, fill, width)]. *)
Definition pad (value : Z) (fill : ascii) (width : nat) : string :=
  let sign := if value <? 0 then "-"%string else EmptyString in
  let str := decimal (Z.abs value) in
  let len := String.length str in
  (sign ++ (if Nat.ltb len width then fills fill (width - len) ++ str else str))%string.

(** [timeFormat('%Y-%m-%d')]: [%Y] is the year modulo 10000 (the
    remainder of JavaScript, with the sign of the year) padded to four
    digits, [%m] and [%d] the month from 1 and the day padded to two. *)
Definition timeFormat_Y_m_d (t : Date) : string :=
  (pad (Z.rem (getFullYear t) 10000) "0" 4 ++ "-" ++
   pad (getMonth t + 1) "0" 2 ++ "-" ++
   pad (getDate t) "0" 2)%string.

End D3.

Module Lodash.

Local Open Scope Z_scope.

(** [range(start, end)]: from [start] up to, not including, [end]; it
    counts down when [end] is below [start]. *)
Definition range (start stop : Z) : list Z :=
  if start <? stop
  then map (fun i => start + Z.of_nat i) (seq 0 (Z.to_nat (stop - start)))
  else map (fun i => start - Z.of_nat i) (seq 0 (Z.to_nat (start - stop))).

End Lodash.

Import D3.

(** ** The records of compute.js *)

Module BBox.
Record t := mk { x : number; y : number; width : number; height : number }.
End BBox.

(** A record of the input data set. *)
Module Datum.
Record t := mk { day : string; value : number }.
End Datum.

(** A day cell; [color], [value] and [data] are the fields [bindDaysData]
    adds, absent until then. *)
Module DayCell.
Record t := mk {
  date : Date;
  day : string;
  size : number;
  x : number;
  y : number;
  color : option string;
  value : option number;
  data : option Datum.t
}.
End DayCell.

Module Month.
Record t := mk { date : Date; year : Z; month : Z; bbox : BBox.t }.
End Month.

Module Year.
Record t := mk { year : Date; bbox : BBox.t }.
End Year.

(** [{ ...year, x, y, rotation }] and [{ ...month, x, y, rotation }]. *)
Module YearLegend.
Record t := mk { year : Year.t; x : number; y : number; rotation : number }.
End YearLegend.

Module MonthLegend.
Record t := mk { month : Month.t; x : number; y : number; rotation : number }.
End MonthLegend.

(** The argument of [computeLayout].  [from] and [to] are dates already
    ([isDate] holds, no string is parsed); the numbers are finite. *)
Record config := {
  width : Q;
  height : Q;
  from : Date;
  to : Date;
  direction : string;
  yearSpacing : Q;
  monthSpacing : Q;
  daySpacing : Q;
  align : string;
  weekDirection : string;
  granularity : string;
  breakpoint : Z
}.

Module Layout.
Record t := mk {
  years : list Year.t;
  months : list Month.t;
  days : list DayCell.t;
  cellSize : number;
  calendarWidth : number;
  calendarHeight : number;
  originX : number;
  originY : number
}.
End Layout.

(** ** compute.js *)

Local Open Scope string_scope.
Local Open Scope js_scope.

(** *** computeDomain (lines 24-30) *)

(** [Math.min(...xs)]; of no argument it is [Infinity], not a finite
    number. *)
Definition min_list (xs : list number) : number :=
  match xs with
  | [] => NaN
  | x :: xs' => fold_left JS.min xs' x
  end.

(** A [minSpec] or [maxSpec]: the string 'auto' or a number. *)
Inductive domainSpec : Type :=
| Auto
| Given (n : number).

(** [allValues] are the values of the records, in order. *)
Definition computeDomain (data : list Datum.t) (minSpec maxSpec : domainSpec)
  : number * number :=
  let allValues := map Datum.value data in
  let minValue := match minSpec with Auto => min_list allValues | Given n => n end in
  let maxValue := match maxSpec with Auto => max_list allValues | Given n => n end in
  (minValue, maxValue).

Definition computeCellSize (width height : number) (direction : string)
  (blocks yearSpacing monthSpacing daySpacing
   maxRowsMonth maxColumnsGroup monthsPerGroup : number) : number :=
  let '(hCellSize, vCellSize) :=
    if direction =? "horizontal" then
      ((width - monthSpacing * monthsPerGroup - daySpacing * maxColumnsGroup)
         / maxColumnsGroup,
       (height - (blocks - #1) * yearSpacing - blocks * (maxRowsMonth * daySpacing))
         / (blocks * maxRowsMonth))
    else
      ((width - (blocks - #1) * yearSpacing - blocks * (maxRowsMonth * daySpacing))
         / (blocks * maxRowsMonth),
       (height - monthSpacing * monthsPerGroup - daySpacing * maxColumnsGroup)
         / maxColumnsGroup)
  in
  JS.min hCellSize vCellSize.

(** The bounding box of [monthPathAndBBox] ([xO_] and [yO_] are the source's
    [xO] and [yO]). *)
Definition monthPathAndBBox (date : Date) (cellSize yearIndex
  yearSpacing monthSpacing daySpacing : number) (direction : string)
  (originX originY : number) : BBox.t :=
  let t1 := newDate (getFullYear date) (getMonth date + 1)%Z 0 in
  let firstWeek := timeWeek_count (timeYear date) date in
  let lastWeek := timeWeek_count (timeYear t1) t1 in
  let yearOffset := yearIndex * (#7 * (cellSize + daySpacing) + yearSpacing) in
  let monthOffset := #(getMonth date) * monthSpacing in
  let '(xO_, yO_) :=
    if direction =? "horizontal"
    then (originX + monthOffset, originY + yearOffset)
    else (originX + yearOffset, originY + monthOffset) in
  if direction =? "horizontal" then
    let bx := xO_ + #firstWeek * (cellSize + daySpacing) in
    BBox.mk bx yO_
      (xO_ + #(lastWeek + 1) * (cellSize + daySpacing) - bx)
      (#7 * (cellSize + daySpacing))
  else
    let by_ := yO_ + #firstWeek * (cellSize + daySpacing) in
    BBox.mk xO_ by_
      (#7 * (cellSize + daySpacing))
      (yO_ + #(lastWeek + 1) * (cellSize + daySpacing) - by_).

(** [memoize] caches a pure function under a key made of all its
    arguments: the memoized function is the function. *)
Definition memoMonthPathAndBBox := monthPathAndBBox.

Definition getElapsedMonths (from : option Date) (to : Date) : result Z :=
  match from with
  | Some from =>
      Ok (getUTCMonth to - getUTCMonth from
          + 12 * (getUTCFullYear to - getUTCFullYear from))%Z
  | None => Err (TypeError "getUTCMonth")
  end.

Definition getWeekOfTheMonth (date : Date) : Z :=
  let firstWeekday := getDay (newDate (getUTCFullYear date) (getUTCMonth date) 1) in
  let offsetDate := (getDate date + firstWeekday - 1)%Z in
  (offsetDate / 7)%Z.

Definition getA (d : Date) (blockIndex yearSpacing daySpacing maxRowsMonth : number)
  (cellSize : option number) : number :=
  let weekOfMonth := getWeekOfTheMonth d in
  let cellSize := ToNumber cellSize in
  #weekOfMonth * (cellSize + daySpacing)
  + daySpacing / #2
  + blockIndex * (yearSpacing + maxRowsMonth * (cellSize + daySpacing)).

Definition getB (d : Date) (startDate : option Date)
  (monthSpacing daySpacing cellSize : number) : result number :=
  elapsedMonths <- getElapsedMonths startDate d ;;
  Ok (#elapsedMonths * #7 * (cellSize + daySpacing)
      + #(getDay d) * (cellSize + daySpacing)
      + daySpacing / #2
      + #elapsedMonths * monthSpacing).

Definition getC (d : Date) (blockIndex yearSpacing daySpacing maxRowsMonth
  cellSize : number) : number :=
  #(getDay d) * (cellSize + daySpacing)
  + daySpacing / #2
  + blockIndex * (yearSpacing + maxRowsMonth * (cellSize + daySpacing)).

Definition getD (d : Date) (startDate : option Date)
  (monthSpacing daySpacing cellSize : number) : result number :=
  (* timeWeek.count converts its arguments to numbers: no throw *)
  let elapsedWeeks :=
    match startDate with
    | Some s => #(timeWeek_count s d)
    | None => NaN
    end in
  elapsedMonths <- getElapsedMonths startDate d ;;
  Ok (elapsedWeeks * (cellSize + daySpacing)
      + daySpacing / #2
      + #elapsedMonths * monthSpacing).

(** The four positioning closures; each returns [(x, y)]. *)
Definition cellPositionHorizontalVertical
  (cellSize yearSpacing monthSpacing daySpacing maxRowsMonth : number)
  (originX originY : number) (d : Date) (blockIndex : number)
  (startDate : option Date) : result (number * number) :=
  dx <- getD d startDate monthSpacing daySpacing cellSize ;;
  Ok (originX + dx,
      originY + getC d blockIndex yearSpacing daySpacing maxRowsMonth cellSize).

Definition cellPositionVerticalHorizontal
  (cellSize yearSpacing monthSpacing daySpacing maxRowsMonth : number)
  (originX originY : number) (d : Date) (blockIndex : number)
  (startDate : option Date) : result (number * number) :=
  let x := originX + getC d blockIndex yearSpacing daySpacing maxRowsMonth cellSize in
  dy <- getD d startDate monthSpacing daySpacing cellSize ;;
  Ok (x, originY + dy).

Definition cellPositionVerticalVertical
  (cellSize yearSpacing monthSpacing daySpacing maxRowsMonth : number)
  (originX originY : number) (d : Date) (blockIndex : number)
  (startDate : option Date) : result (number * number) :=
  (* getA is called with five arguments: its cellSize is undefined *)
  let x := originX + getA d blockIndex yearSpacing daySpacing maxRowsMonth undefined in
  dy <- getB d startDate monthSpacing daySpacing cellSize ;;
  Ok (x, originY + dy).

Definition cellPositionHorizontalHorizontal
  (cellSize yearSpacing monthSpacing daySpacing maxRowsMonth : number)
  (originX originY : number) (d : Date) (blockIndex : number)
  (startDate : option Date) : result (number * number) :=
  dx <- getB d startDate monthSpacing daySpacing cellSize ;;
  Ok (originX + dx,
      originY + getA d blockIndex yearSpacing daySpacing maxRowsMonth undefined).

Definition dayFormat := timeFormat_Y_m_d.

(** *** computeLayout: the blocks (lines 326-365) *)

(** The [while (yearRange.length)] loop.  [splice(0, breakpoint)] takes the
    first [breakpoint] years off the range; when it takes none the range
    never shrinks. *)
Fixpoint yearBlocks (fuel : nat) (breakpoint : Z) (yearRange : list Z)
  : result (list (Date * Date)) :=
  match yearRange with
  | [] => Ok []
  | _ :: _ =>
      match fuel with
      | O => Err Diverges
      | S fuel' =>
          let arr := firstn (Z.to_nat breakpoint) yearRange in
          let yearRange := skipn (Z.to_nat breakpoint) yearRange in
          match arr with
          | [] => Err Diverges
          | first :: _ =>
              dates <- yearBlocks fuel' breakpoint yearRange ;;
              Ok ((newDate first 0 1, newDate (last arr 0 + 1)%Z 0 1) :: dates)
          end
      end
  end.

(** The inner [while (i < breakpoint)] scan for [maxRowsMonth]; [n] counts
    the iterations left, at most [breakpoint]. *)
Fixpoint scanMonths (n : nat) (i breakpoint : Z) (date aux : Date)
  (maxRowsMonth : number) : number :=
  match n with
  | O => maxRowsMonth
  | S n' =>
      if (i <? breakpoint)%Z then
        let weekDay := getUTCDay aux in
        let days := getDate (newDate (getUTCFullYear date) (getUTCMonth date + i)%Z 0) in
        if (37 <=? days + weekDay)%Z then #6
        else if (days + weekDay =? 28)%Z
             then scanMonths n' (i + 1)%Z breakpoint date aux (JS.max maxRowsMonth #4)
             else scanMonths n' (i + 1)%Z breakpoint date aux #5
      else maxRowsMonth
  end.

(** The [while (date < toDate)] loop; [maxRowsMonth] is [NaN] while it is
    [undefined] (every use converts it to a number). *)
Fixpoint monthBlocks (fuel : nat) (weekDirection : string) (breakpoint : Z)
  (toDate date aux : Date) (maxRowsMonth : number)
  : result (list (Date * Date) * number) :=
  if (date <? toDate)%Z then
    match fuel with
    | O => Err Diverges
    | S fuel' =>
        let maxRowsMonth :=
          if (weekDirection =? "horizontal") && strict_neq maxRowsMonth #6
          then scanMonths (Z.to_nat breakpoint) 0 breakpoint date aux maxRowsMonth
          else maxRowsMonth in
        let aux := setMonth aux (getMonth aux + breakpoint)%Z in
        r <- monthBlocks fuel' weekDirection breakpoint toDate aux aux maxRowsMonth ;;
        Ok ((date, aux) :: fst r, snd r)
    end
  else Ok ([], maxRowsMonth).

(** Lines 326-365: the blocks [dates] and [maxRowsMonth] as the loops leave
    it.  With [breakpoint >= 1] the month loop makes at most one step per
    day between its start and [toDate]. *)
Definition partitionDateRange (cfg : config) : result (list (Date * Date) * number) :=
  let fromDate := from cfg in
  let toDate := to cfg in
  if granularity cfg =? "year" then
    let maxRowsMonth := if weekDirection cfg =? "horizontal" then #6 else NaN in
    let yearRange :=
      Lodash.range (getUTCFullYear fromDate) (getUTCFullYear toDate + 1)%Z in
    dates <- yearBlocks (List.length yearRange) (breakpoint cfg) yearRange ;;
    Ok (dates, maxRowsMonth)
  else
    let date := newDate (getUTCFullYear fromDate) (getUTCMonth fromDate) 1 in
    let aux := getTime date in
    monthBlocks (S (Z.to_nat ((toDate - date) / msPerDay)))
      (weekDirection cfg) (breakpoint cfg) toDate date aux NaN.

(** *** computeLayout: the sizes (lines 366-411) *)

Record grid := {
  dates : list (Date * Date);
  maxRowsMonth : number;
  cellSize : number;
  calendarWidth : number;
  calendarHeight : number;
  originX : number;
  originY : number
}.

Section Engine.

(** [alignBox] of @nivo/core: the offset of the inner box in the outer
    one for an alignment keyword. *)
Variable alignBox : BBox.t -> BBox.t -> string -> number * number.

Definition layoutGrid (cfg : config) : result grid :=
  r <- partitionDateRange cfg ;;
  let dates := fst r in
  let maxRowsMonth := snd r in
  let monthsPerGroup :=
    if granularity cfg =? "year" then #(breakpoint cfg * 12) else #(breakpoint cfg) in
  let '(maxColumnsGroup, maxRowsMonth) :=
    if weekDirection cfg =? "vertical" then
      (max_list
         (map (fun date => ofNat (List.length (timeWeeks (fst date) (snd date)))) dates)
       + #1,
       #7)
    else (#7 * monthsPerGroup, maxRowsMonth) in
  let width := Fin (width cfg) in
  let height := Fin (height cfg) in
  let yearSpacing := Fin (yearSpacing cfg) in
  let monthSpacing := Fin (monthSpacing cfg) in
  let daySpacing := Fin (daySpacing cfg) in
  let blocks := ofNat (List.length dates) in
  let cellSize :=
    computeCellSize width height (direction cfg) blocks
      yearSpacing monthSpacing daySpacing
      maxRowsMonth maxColumnsGroup monthsPerGroup in
  let monthsSize :=
    cellSize * maxColumnsGroup + daySpacing * maxColumnsGroup
    + monthSpacing * monthsPerGroup in
  let yearsSize :=
    (cellSize + daySpacing) * maxRowsMonth * blocks
    + yearSpacing * (blocks - #1) in
  let calendarWidth :=
    if direction cfg =? "horizontal" then monthsSize else yearsSize in
  let calendarHeight :=
    if direction cfg =? "horizontal" then yearsSize else monthsSize in
  let '(originX, originY) :=
    alignBox (BBox.mk #0 #0 calendarWidth calendarHeight)
             (BBox.mk #0 #0 width height) (align cfg) in
  Ok {| dates := dates; maxRowsMonth := maxRowsMonth; cellSize := cellSize;
        calendarWidth := calendarWidth; calendarHeight := calendarHeight;
        originX := originX; originY := originY |}.

(** *** computeLayout: days, months and years (lines 412-475) *)

Definition cellPosition (cfg : config) (g : grid) :=
  let cellSize := cellSize g in
  let yearSpacing := Fin (yearSpacing cfg) in
  let monthSpacing := Fin (monthSpacing cfg) in
  let daySpacing := Fin (daySpacing cfg) in
  let maxRowsMonth := maxRowsMonth g in
  if direction cfg =? "horizontal" then
    if weekDirection cfg =? "horizontal"
    then cellPositionHorizontalHorizontal cellSize yearSpacing monthSpacing daySpacing maxRowsMonth
    else cellPositionHorizontalVertical cellSize yearSpacing monthSpacing daySpacing maxRowsMonth
  else
    if weekDirection cfg =? "horizontal"
    then cellPositionVerticalHorizontal cellSize yearSpacing monthSpacing daySpacing maxRowsMonth
    else cellPositionVerticalVertical cellSize yearSpacing monthSpacing daySpacing maxRowsMonth.

(** The day cells of one block; [cellPosition] is called with four
    arguments, so its [startDate] is undefined. *)
Definition blockDays (cfg : config) (g : grid) (date : Date * Date) (i : nat)
  : result (list DayCell.t) :=
  mapM (fun dayDate =>
          let day := dayFormat dayDate in
          p <- cellPosition cfg g (originX g) (originY g) dayDate (ofNat i) undefined ;;
          Ok (DayCell.mk dayDate day (cellSize g) (fst p) (snd p) None None None))
       (timeDays (fst date) (snd date)).

Definition blockMonths (cfg : config) (g : grid) (date : Date * Date) (i : nat)
  : list Month.t :=
  map (fun monthDate =>
         Month.mk monthDate (getFullYear monthDate) (getMonth monthDate)
           (memoMonthPathAndBBox monthDate (cellSize g) (ofNat i)
              (Fin (yearSpacing cfg)) (Fin (monthSpacing cfg)) (Fin (daySpacing cfg))
              (direction cfg) (originX g) (originY g)))
      (timeMonths (fst date) (snd date)).

(** The year descriptor pushed for a block: it reads the months at
    indices 0 and 11. *)
Definition blockYear (date : Date * Date) (yearMonths : list Month.t)
  : result Year.t :=
  m0 <- prop_of_index yearMonths 0 "bbox" ;;
  m11 <- prop_of_index yearMonths 11 "bbox" ;;
  let b0 := Month.bbox m0 in
  let b11 := Month.bbox m11 in
  Ok (Year.mk (fst date)
        (BBox.mk (BBox.x b0) (BBox.y b0)
           (BBox.x b11 - BBox.x b0 + BBox.width b11)
           (BBox.y b11 - BBox.y b0 + BBox.height b11))).

(** [dates.forEach((date, i) => ...)] over the blocks from index [i] on,
    with the three arrays built so far. *)
Fixpoint forEachBlock (cfg : config) (g : grid) (i : nat) (blocks : list (Date * Date))
  (years : list Year.t) (months : list Month.t) (days : list DayCell.t)
  : result (list Year.t * list Month.t * list DayCell.t) :=
  match blocks with
  | [] => Ok (years, months, days)
  | date :: rest =>
      newDays <- blockDays cfg g date i ;;
      let days := (days ++ newDays)%list in
      let yearMonths := blockMonths cfg g date i in
      let months := (months ++ yearMonths)%list in
      year <- blockYear date yearMonths ;;
      forEachBlock cfg g (S i) rest (years ++ [year])%list months days
  end.

Definition computeLayout (cfg : config) : result Layout.t :=
  g <- layoutGrid cfg ;;
  r <- forEachBlock cfg g 0 (dates g) [] [] [] ;;
  let '(years, months, days) := r in
  Ok (Layout.mk years months days (cellSize g) (calendarWidth g) (calendarHeight g)
        (originX g) (originY g)).

End Engine.

(** *** bindDaysData *)

(** The callback of [data.forEach]: a record whose [day] is the cell's key
    overwrites [value], [color] and [data]. *)
Definition bindStep (colorScale : number -> string) (day : DayCell.t)
  (dayData : Datum.t) : DayCell.t :=
  if Datum.day dayData =? DayCell.day day then
    DayCell.mk (DayCell.date day) (DayCell.day day) (DayCell.size day)
      (DayCell.x day) (DayCell.y day)
      (Some (colorScale (Datum.value dayData)))
      (Some (Datum.value dayData))
      (Some dayData)
  else day.

(** What the callback of [days.map] does to one day object.  The callback
    writes into the day object and returns it; it reads nothing of the other
    days, so the value at each index is this function of the day there,
    also when a day object occurs at several indices (a second pass over it
    resets [color] and rescans the same data). *)
Definition bindDay (data : list Datum.t) (colorScale : number -> string)
  (emptyColor : string) (day : DayCell.t) : DayCell.t :=
  let day :=
    DayCell.mk (DayCell.date day) (DayCell.day day) (DayCell.size day)
      (DayCell.x day) (DayCell.y day)
      (Some emptyColor) (DayCell.value day) (DayCell.data day) in
  fold_left (bindStep colorScale) data day.

Definition bindDaysData (days : list DayCell.t) (data : list Datum.t)
  (colorScale : number -> string) (emptyColor : string) : list DayCell.t :=
  map (bindDay data colorScale emptyColor) days.

(** *** Legend positions *)

Definition computeYearLegendPositions (years : list Year.t)
  (direction position : string) (offset : number) : list YearLegend.t :=
  map (fun year =>
         let bbox := Year.bbox year in
         if (direction =? "horizontal") && (position =? "before") then
           YearLegend.mk year
             (BBox.x bbox - offset)
             (BBox.y bbox + BBox.height bbox / #2)
             #(-90)
         else if (direction =? "horizontal") && (position =? "after") then
           YearLegend.mk year
             (BBox.x bbox + BBox.width bbox + offset)
             (BBox.y bbox + BBox.height bbox / #2)
             #(-90)
         else if (direction =? "vertical") && (position =? "before") then
           YearLegend.mk year
             (BBox.x bbox + BBox.width bbox / #2)
             (BBox.y bbox - offset)
             #0
         else
           YearLegend.mk year
             (BBox.x bbox + BBox.width bbox / #2)
             (BBox.y bbox + BBox.height bbox + offset)
             #0)
      years.

Definition computeMonthLegendPositions (months : list Month.t)
  (direction position : string) (offset : number) : list MonthLegend.t :=
  map (fun month =>
         let bbox := Month.bbox month in
         if (direction =? "horizontal") && (position =? "before") then
           MonthLegend.mk month
             (BBox.x bbox + BBox.width bbox / #2)
             (BBox.y bbox - offset)
             #0
         else if (direction =? "horizontal") && (position =? "after") then
           MonthLegend.mk month
             (BBox.x bbox + BBox.width bbox / #2)
             (BBox.y bbox + BBox.height bbox + offset)
             #0
         else if (direction =? "vertical") && (position =? "before") then
           MonthLegend.mk month
             (BBox.x bbox - offset)
             (BBox.y bbox + BBox.height bbox / #2)
             #(-90)
         else
           MonthLegend.mk month
             (BBox.x bbox + BBox.width bbox + offset)
             (BBox.y bbox + BBox.height bbox / #2)
             #(-90))
      months.

(** ** Reference data for the statements *)

(** Modelled from the spec: [alignBox] of @nivo/core is not among the
    sources; the specification says only that it takes an inner box, an
    outer box and an alignment keyword ('center', 'top-left', ...) and
    returns an offset.  This instance aligns the inner box in the outer
    one as the keyword says; the closed examples use it, the theorems hold
    for every [alignBox]. *)
Definition alignBoxCore (box container : BBox.t) (alignment : string)
  : number * number :=
  let deltaX := BBox.width container - BBox.width box in
  let deltaY := BBox.height container - BBox.height box in
  if alignment =? "center" then (deltaX / #2, deltaY / #2)
  else if alignment =? "top" then (deltaX / #2, #0)
  else if alignment =? "top-right" then (deltaX, #0)
  else if alignment =? "right" then (deltaX, deltaY / #2)
  else if alignment =? "bottom-right" then (deltaX, deltaY)
  else if alignment =? "bottom" then (deltaX / #2, deltaY)
  else if alignment =? "bottom-left" then (#0, deltaY)
  else if alignment =? "left" then (#0, deltaY / #2)
  else (#0, #0).

(** The scenario of the specification: the year 2023 in one block, weeks
    running vertically in a horizontal calendar. *)
Definition year_2023 (direction weekDirection : string) : config :=
  Build_config 800 600 (newDate 2023 0 1) (newDate 2023 11 31) direction 30 0 2
    "center" weekDirection "year" 1.

(** March and April 2023, one month per block. *)
Definition march_april_2023 : config :=
  Build_config 800 600 (newDate 2023 2 1) (newDate 2023 3 30) "horizontal" 30 0 2
    "center" "horizontal" "month" 1.

(** The first half of March 2015, one month per block: the block starts on
    a Sunday after a February of 28 days. *)
Definition march_2015 : config :=
  Build_config 800 600 (newDate 2015 2 1) (newDate 2015 2 15) "horizontal" 30 0 2
    "center" "horizontal" "month" 1.

(** Twelve months from January 2023 in one block of month granularity. *)
Definition months_2023 (direction weekDirection : string) : config :=
  Build_config 800 600 (newDate 2023 0 1) (newDate 2023 11 31) direction 30 0 2
    "center" weekDirection "month" 12.

(** A block of the month loop: [breakpoint] months from a month start. *)
Definition monthBlock (breakpoint : Z) (b : Date * Date) : Prop :=
  exists j, b = (monthStart j, monthStart (j + breakpoint)%Z).

(** One month of the 400-year cycle: its first day converts back to the
    month, and the next month starts at least 28 days later. *)
Definition month_ok (r : Z) : bool :=
  let '(y, m, d) := civil (MakeDay 0 r 1) in
  (y =? r / 12)%Z && (m =? r mod 12)%Z && (d =? 1)%Z
  && (MakeDay 0 r 1 + 28 <=? MakeDay 0 (r + 1) 1)%Z.

(** The sum the scan for [maxRowsMonth] forms at step [i]. *)
Definition scanSum (date aux : Date) (i : Z) : Z :=
  (getDate (newDate (getUTCFullYear date) (getUTCMonth date + i) 0) + getUTCDay aux)%Z.

(** What a scan step that does not stop does to [maxRowsMonth]. *)
Definition scanStep (date aux : Date) (maxRowsMonth : number) (i : Z) : number :=
  if (scanSum date aux i =? 28)%Z then JS.max maxRowsMonth #4 else #5.

(** What one turn of the block loop does to [maxRowsMonth]. *)
Definition scanBlock (weekDirection : string) (breakpoint : Z) (maxRowsMonth : number)
  (block : Date * Date) : number :=
  if (weekDirection =? "horizontal") && strict_neq maxRowsMonth #6
  then scanMonths (Z.to_nat breakpoint) 0 breakpoint (fst block) (fst block) maxRowsMonth
  else maxRowsMonth.

(** The scan as the specification words it: over the months of the first
    block, the days of the month plus the weekday of its first day. *)
Definition daysInMonth (k : Z) : Z := (Day (monthStart (k + 1)) - Day (monthStart k))%Z.

Definition firstWeekdayOfMonth (k : Z) : Z := getDay (monthStart k).

Definition runningMax (m : number) (n : Z) : number :=
  match m with
  | NaN => #n
  | Fin q => Fin (Qmax q (inject_Z n))
  end.

Fixpoint statedScan (months : list Z) (m : number) : number :=
  match months with
  | [] => m
  | k :: rest =>
      let s := (daysInMonth k + firstWeekdayOfMonth k)%Z in
      if (37 <=? s)%Z then #6
      else if (s =? 28)%Z then statedScan rest (runningMax m 4)
           else statedScan rest #5
  end.

Definition maxRowsMonth_stated (cfg : config) : number :=
  let k := monthIndex (newDate (getUTCFullYear (from cfg)) (getUTCMonth (from cfg)) 1) in
  statedScan (zrange k (k + breakpoint cfg)) NaN.

(** Configurations the code cannot tell apart: it only compares
    [direction] with 'horizontal' and [granularity] with 'year'. *)
Definition withDirection (cfg : config) (d : string) : config :=
  Build_config (width cfg) (height cfg) (from cfg) (to cfg) d
    (yearSpacing cfg) (monthSpacing cfg) (daySpacing cfg) (align cfg)
    (weekDirection cfg) (granularity cfg) (breakpoint cfg).

Definition withGranularity (cfg : config) (gr : string) : config :=
  Build_config (width cfg) (height cfg) (from cfg) (to cfg) (direction cfg)
    (yearSpacing cfg) (monthSpacing cfg) (daySpacing cfg) (align cfg)
    (weekDirection cfg) gr (breakpoint cfg).

Definition withWeekDirection (cfg : config) (wd : string) : config :=
  Build_config (width cfg) (height cfg) (from cfg) (to cfg) (direction cfg)
    (yearSpacing cfg) (monthSpacing cfg) (daySpacing cfg) (align cfg)
    wd (granularity cfg) (breakpoint cfg).

Definition sameTests (c1 c2 : config) : Prop :=
  width c1 = width c2 /\ height c1 = height c2 /\ from c1 = from c2 /\ to c1 = to c2
  /\ yearSpacing c1 = yearSpacing c2 /\ monthSpacing c1 = monthSpacing c2
  /\ daySpacing c1 = daySpacing c2 /\ align c1 = align c2
  /\ weekDirection c1 = weekDirection c2 /\ breakpoint c1 = breakpoint c2
  /\ (direction c1 =? "horizontal") = (direction c2 =? "horizontal")
  /\ (granularity c1 =? "year") = (granularity c2 =? "year").

(** A box of four finite numbers. *)
Definition finiteBBox (b : BBox.t) : Prop :=
  exists x y w h, b = BBox.mk (Fin x) (Fin y) (Fin w) (Fin h).

(** Two coordinates that mirror each other about the middle of the interval
    from [lo] to [lo + extent] and lie [2 * offset + extent] apart: the
    first is [offset] before the interval, the second [offset] after it. *)
Definition reflectedAlong (before after lo extent offset : Q) : Prop :=
  (after - before == 2 * offset + extent /\ before + after == 2 * lo + extent)%Q.

(** A coordinate in the middle of the interval from [lo] to [lo + extent]. *)
Definition centredAlong (c lo extent : Q) : Prop := (2 * c == 2 * lo + extent)%Q.

(** The 'before' and the 'after' anchor of a year: the same year and
    rotation.  For a horizontal calendar the text is turned by -90 degrees,
    the anchors mirror each other along x and the width of the box, and
    their y is the same, the middle of the box; for a vertical calendar the
    text is not turned and the axes change roles; for any other direction
    the two are one anchor. *)
Definition yearAnchors (direction : string) (offset : Q) (year : Year.t)
  (before after : YearLegend.t) : Prop :=
  YearLegend.year before = year /\ YearLegend.year after = year
  /\ YearLegend.rotation after = YearLegend.rotation before
  /\ (direction = "horizontal" ->
      YearLegend.rotation before = #(-90)
      /\ YearLegend.y after = YearLegend.y before
      /\ forall bx by_ w h,
           Year.bbox year = BBox.mk (Fin bx) (Fin by_) (Fin w) (Fin h) ->
           exists xb xa yb,
             YearLegend.x before = Fin xb /\ YearLegend.x after = Fin xa
             /\ YearLegend.y before = Fin yb
             /\ reflectedAlong xb xa bx w offset /\ centredAlong yb by_ h)
  /\ (direction = "vertical" ->
      YearLegend.rotation before = #0
      /\ YearLegend.x after = YearLegend.x before
      /\ forall bx by_ w h,
           Year.bbox year = BBox.mk (Fin bx) (Fin by_) (Fin w) (Fin h) ->
           exists yb ya xb,
             YearLegend.y before = Fin yb /\ YearLegend.y after = Fin ya
             /\ YearLegend.x before = Fin xb
             /\ reflectedAlong yb ya by_ h offset /\ centredAlong xb bx w)
  /\ (direction <> "horizontal" -> direction <> "vertical" -> after = before).

(** The same for a month, whose axes are the other way round: along y for a
    horizontal calendar, where the text is not turned, along x for a
    vertical one, where it is. *)
Definition monthAnchors (direction : string) (offset : Q) (month : Month.t)
  (before after : MonthLegend.t) : Prop :=
  MonthLegend.month before = month /\ MonthLegend.month after = month
  /\ MonthLegend.rotation after = MonthLegend.rotation before
  /\ (direction = "horizontal" ->
      MonthLegend.rotation before = #0
      /\ MonthLegend.x after = MonthLegend.x before
      /\ forall bx by_ w h,
           Month.bbox month = BBox.mk (Fin bx) (Fin by_) (Fin w) (Fin h) ->
           exists yb ya xb,
             MonthLegend.y before = Fin yb /\ MonthLegend.y after = Fin ya
             /\ MonthLegend.x before = Fin xb
             /\ reflectedAlong yb ya by_ h offset /\ centredAlong xb bx w)
  /\ (direction = "vertical" ->
      MonthLegend.rotation before = #(-90)
      /\ MonthLegend.y after = MonthLegend.y before
      /\ forall bx by_ w h,
           Month.bbox month = BBox.mk (Fin bx) (Fin by_) (Fin w) (Fin h) ->
           exists xb xa yb,
             MonthLegend.x before = Fin xb /\ MonthLegend.x after = Fin xa
             /\ MonthLegend.y before = Fin yb
             /\ reflectedAlong xb xa bx w offset /\ centredAlong yb by_ h)
  /\ (direction <> "horizontal" -> direction <> "vertical" -> after = before).

(** ** Further reference data *)

Section Checks.

Local Open Scope Z_scope.

(** [f] holds of the [n] integers from [a] on. *)
Fixpoint all_from (f : Z -> bool) (n : nat) (a : Z) : bool :=
  match n with
  | O => true
  | S n' => f a && all_from f n' (a + 1)
  end.

(** Reading a string of decimal digits back. *)
Fixpoint undigits (s : string) (acc : Z) : Z :=
  match s with
  | EmptyString => acc
  | String c s' => undigits s' (10 * acc + Z.of_nat (nat_of_ascii c) - 48)
  end.

(** [pad] writes [n] with exactly [width] digits that read back as [n]. *)
Definition pad_ok (width : nat) (n : Z) : bool :=
  (String.length (pad n "0" width) =? width)%nat && (undigits (pad n "0" width) 0 =? n).

End Checks.

(** A range that ends where it starts, one month per block. *)
Definition empty_range : config :=
  Build_config 800 600 (newDate 2023 0 1) (newDate 2023 0 1) "horizontal" 30 0 2
    "center" "vertical" "month" 1.




(** The blocks of [breakpoint] years each that cover the years [a .. b-1];
    the last block stops at year [b]. *)
Definition yearChain (a b bp : Z) : list (Date * Date) :=
  map (fun j => (newDate (a + j * bp) 0 1, newDate (Z.min (a + (j + 1) * bp) b) 0 1)%Z)
      (zrange 0 (cdiv (b - a) bp)).


(** The configuration with the two axes exchanged. *)
Definition transposed (cfg : config) : config :=
  Build_config (height cfg) (width cfg) (from cfg) (to cfg)
    (if direction cfg =? "horizontal" then "vertical" else "horizontal")
    (yearSpacing cfg) (monthSpacing cfg) (daySpacing cfg) (align cfg)
    (weekDirection cfg) (granularity cfg) (breakpoint cfg).

(** A box with its two axes exchanged. *)
Definition transposeBBox (b : BBox.t) : BBox.t :=
  BBox.mk (BBox.y b) (BBox.x b) (BBox.height b) (BBox.width b).

(** The last day of month [k]. *)
Definition monthEnd (k : Z) : Date := ((MakeDay 0 (k + 1) 1 - 1) * msPerDay)%Z.


(** The block of one calendar year. *)
Definition yearBlock (y : Z) : Date * Date := (newDate y 0 1, newDate (y + 1) 0 1).








(** The point [(x, y)] lies in the interior of the box. *)
Definition strictlyInside (x y : number) (b : BBox.t) : Prop :=
  exists px py bx by_ w h,
    x = Fin px /\ y = Fin py /\ b = BBox.mk (Fin bx) (Fin by_) (Fin w) (Fin h)
    /\ bx < px /\ px < bx + w /\ by_ < py /\ py < by_ + h.

(** The box of the year 2023 in a calendar of 14-pixel cells. *)
Definition year_box_2023 : Year.t :=
  Year.mk (newDate 2023 0 1) (BBox.mk (Fin 0) (Fin 244) (Fin 848) (Fin 112)).

(** The month of January 2023 in a calendar of 14-pixel cells. *)
Definition month_box_2023 : Month.t :=
  Month.mk (newDate 2023 0 1) 2023 0 (BBox.mk (Fin 0) (Fin 244) (Fin 80) (Fin 112)).

(** The year 50, one year per block. *)
Definition year_50 : config :=
  Build_config 800 600 (MakeDay 50 0 1 * msPerDay)%Z (MakeDay 50 11 31 * msPerDay)%Z
    "horizontal" 30 0 2 "center" "vertical" "year" 1.

(** The last record of [data] with the key [key]. *)
Fixpoint lastMatch (key : string) (data : list Datum.t) : option Datum.t :=
  match data with
  | [] => None
  | r :: rest =>
      match lastMatch key rest with
      | Some r' => Some r'
      | None => if Datum.day r =? key then Some r else None
      end
  end.

(** The cell [day] with the fields a matching record [r] writes. *)
Definition overwrite (colorScale : number -> string) (day : DayCell.t)
  (r : option Datum.t) : DayCell.t :=
  match r with
  | Some r =>
      DayCell.mk (DayCell.date day) (DayCell.day day) (DayCell.size day)
        (DayCell.x day) (DayCell.y day)
        (Some (colorScale (Datum.value r))) (Some (Datum.value r)) (Some r)
  | None => day
  end.

(** Two records of different days, and a cell of the first. *)
Definition jan_1 : Datum.t := Datum.mk "2023-01-01" (Fin 3).
Definition jan_2 : Datum.t := Datum.mk "2023-01-02" (Fin 5).
Definition cell_jan_1 : DayCell.t :=
  DayCell.mk (newDate 2023 0 1) "2023-01-01" (Fin 14) (Fin 1) (Fin 1) None None None.

(** * Properties *)

(** ** Sanity checks of the library models *)

Example civil_2023_01_01 : civil 19358 = (2023, 0, 1)%Z.
Proof. reflexivity. Qed.

Example newDate_2023_01_01 : newDate 2023 0 1 = 1672531200000%Z.
Proof. reflexivity. Qed.

Example day_zero_is_last_day_of_february : getDate (newDate 2024 2 0) = 29%Z.
Proof. reflexivity. Qed.

Example sunday_2023_01_01 : getDay (newDate 2023 0 1) = 0%Z.
Proof. reflexivity. Qed.

Example dayFormat_2023_01_01 : dayFormat (newDate 2023 0 1) = "2023-01-01".
Proof. reflexivity. Qed.

Example year_2023_has_365_days :
  List.length (timeDays (newDate 2023 0 1) (newDate 2024 0 1)) = 365%nat.
Proof. vm_compute. reflexivity. Qed.

Example year_2023_has_53_sundays :
  List.length (timeWeeks (newDate 2023 0 1) (newDate 2024 0 1)) = 53%nat.
Proof. vm_compute. reflexivity. Qed.

Example range_counts_down : Lodash.range 2023 2021 = [2023; 2022]%Z.
Proof. reflexivity. Qed.

(** ** Lists and the result monad *)

Lemma fold_left_step {A B} (f : A -> B -> A) (x : B) (l : list B) (a : A) :
  fold_left f (x :: l) a = fold_left f l (f a x).
Proof. reflexivity. Qed.

Lemma in_zrange (a b r : Z) : In r (zrange a b) <-> (a <= r < b)%Z.
Proof.
  unfold zrange. rewrite in_map_iff. split.
  - intros [i [<- Hi]]. apply in_seq in Hi. lia.
  - intros H. exists (Z.to_nat (r - a)). split; [lia|].
    apply in_seq. lia.
Qed.


Lemma zrange_cons (a b : Z) : (a < b)%Z -> zrange a b = a :: zrange (a + 1) b.
Proof.
  intros H. unfold zrange.
  replace (Z.to_nat (b - a)) with (S (Z.to_nat (b - (a + 1)))) by lia.
  cbn [seq map]. f_equal; [lia|].
  rewrite <- seq_shift, map_map. apply map_ext. intros i. lia.
Qed.

Lemma zrange_nil (a b : Z) : (b <= a)%Z -> zrange a b = [].
Proof.
  intros H. unfold zrange. replace (Z.to_nat (b - a)) with 0%nat by lia. reflexivity.
Qed.

(** ** The calendar

    [MakeDay] and [civil] repeat every 400 years (4800 months, 146097
    days); what holds for the months of one cycle holds for all. *)

Section Calendar.

Local Open Scope Z_scope.

Lemma MakeDay_era (y m d q : Z) :
  MakeDay y (m + 4800 * q) d = MakeDay y m d + 146097 * q.
Proof.
  unfold MakeDay.
  replace (m + 4800 * q) with (m + (400 * q) * 12) by lia.
  rewrite Z.div_add, Z.mod_add by lia.
  set (mn := m mod 12).
  replace ((if mn <? 2 then y + (m / 12 + 400 * q) - 1 else y + (m / 12 + 400 * q)))
    with ((if mn <? 2 then y + m / 12 - 1 else y + m / 12) + q * 400)
    by (destruct (mn <? 2); lia).
  rewrite Z.div_add, Z.mod_add by lia.
  lia.
Qed.

Lemma MakeDay_normal (y m d : Z) : MakeDay y m d = MakeDay 0 (12 * y + m) d.
Proof.
  unfold MakeDay.
  replace (12 * y + m) with (m + y * 12) by lia.
  rewrite Z.div_add, Z.mod_add by lia.
  replace (0 + (m / 12 + y)) with (y + m / 12) by lia. reflexivity.
Qed.

Lemma civil_era (n q : Z) :
  civil (n + 146097 * q) =
  (fst (fst (civil n)) + 400 * q, snd (fst (civil n)), snd (civil n)).
Proof.
  unfold civil.
  replace (n + 146097 * q + 719468) with (n + 719468 + q * 146097) by lia.
  rewrite Z.div_add, Z.mod_add by lia.
  cbv zeta. cbn [fst snd].
  match goal with |- context [if ?c then _ else _] => destruct c end;
  f_equal; f_equal; lia.
Qed.

Lemma months_of_era_ok : forallb month_ok (zrange 0 4800) = true.
Proof. vm_compute. reflexivity. Qed.

Lemma month_ok_all (k : Z) :
  civil (MakeDay 0 k 1) = (k / 12, k mod 12, 1)
  /\ MakeDay 0 k 1 + 28 <= MakeDay 0 (k + 1) 1.
Proof.
  pose proof (Z.div_mod k 4800 ltac:(lia)) as Hk.
  pose proof (Z.mod_pos_bound k 4800 ltac:(lia)) as Hr.
  set (r := k mod 4800) in *. set (q := k / 4800) in *.
  assert (Hok : month_ok r = true).
  { pose proof months_of_era_ok as H. rewrite forallb_forall in H.
    apply H, in_zrange. lia. }
  unfold month_ok in Hok.
  destruct (civil (MakeDay 0 r 1)) as [[y m] d] eqn:Hc.
  apply andb_prop in Hok as [Hok H4]. apply andb_prop in Hok as [Hok H3].
  apply andb_prop in Hok as [H1 H2].
  apply Z.eqb_eq in H1, H2, H3. apply Z.leb_le in H4.
  replace k with (r + 4800 * q) by lia.
  replace (r + 4800 * q + 1) with (r + 1 + 4800 * q) by lia.
  rewrite !MakeDay_era, civil_era, Hc. cbn [fst snd].
  split; [|lia].
  replace (r + 4800 * q) with (r + (400 * q) * 12) by lia.
  rewrite Z.div_add, Z.mod_add by lia. subst y m d. reflexivity.
Qed.

Lemma Day_midnight (n : Z) : Day (n * msPerDay) = n.
Proof. unfold Day. apply Z.div_mul. discriminate. Qed.

Lemma TimeWithinDay_midnight (n : Z) : TimeWithinDay (n * msPerDay) = 0.
Proof. unfold TimeWithinDay. apply Z.mod_mul. discriminate. Qed.

Lemma civil_monthStart (k : Z) : civil (Day (monthStart k)) = (k / 12, k mod 12, 1).
Proof. unfold monthStart. rewrite Day_midnight. apply month_ok_all. Qed.

Lemma monthIndex_monthStart (k : Z) : monthIndex (monthStart k) = k.
Proof.
  unfold monthIndex, getFullYear, getMonth, getUTCFullYear, getUTCMonth.
  rewrite civil_monthStart. cbn [fst snd].
  pose proof (Z.div_mod k 12 ltac:(lia)). lia.
Qed.



Lemma setMonth_monthStart (k n : Z) :
  setMonth (monthStart k) (getMonth (monthStart k) + n) = monthStart (k + n).
Proof.
  unfold setMonth, getFullYear, getMonth, getDate, getUTCFullYear, getUTCMonth, getUTCDate.
  rewrite civil_monthStart. cbn [fst snd].
  unfold monthStart at 1. rewrite TimeWithinDay_midnight.
  rewrite MakeDay_normal. unfold monthStart.
  pose proof (Z.div_mod k 12 ltac:(lia)).
  replace (12 * (k / 12) + (k mod 12 + n)) with (k + n) by lia. lia.
Qed.

Lemma newDate_monthStart (y m : Z) : exists k, newDate y m 1 = monthStart k.
Proof. unfold newDate. rewrite MakeDay_normal. eexists. reflexivity. Qed.

End Calendar.

(** ** computeLayout: the cell positions throw *)

Lemma getA_without_cellSize d blockIndex yearSpacing daySpacing maxRowsMonth :
  getA d blockIndex yearSpacing daySpacing maxRowsMonth undefined = NaN.
Proof. unfold getA. cbn [ToNumber undefined]. reflexivity. Qed.

Lemma cellPosition_without_startDate cfg g ox oy d i :
  cellPosition cfg g ox oy d i undefined = Err (TypeError "getUTCMonth").
Proof.
  unfold cellPosition.
  destruct (direction cfg =? "horizontal"), (weekDirection cfg =? "horizontal");
    reflexivity.
Qed.

Lemma blockDays_cases cfg g date i :
  (timeDays (fst date) (snd date) <> [] /\
   blockDays cfg g date i = Err (TypeError "getUTCMonth"))
  \/ (timeDays (fst date) (snd date) = [] /\ blockDays cfg g date i = Ok []).
Proof.
  unfold blockDays. destruct (timeDays (fst date) (snd date)) as [|d ds].
  - right. split; reflexivity.
  - left. split; [discriminate|]. cbn [mapM].
    rewrite cellPosition_without_startDate. reflexivity.
Qed.

Lemma forEachBlock_cons cfg g i date rest years months days :
  forEachBlock cfg g i (date :: rest) years months days =
  (newDays <- blockDays cfg g date i ;;
   year <- blockYear date (blockMonths cfg g date i) ;;
   forEachBlock cfg g (S i) rest (years ++ [year])%list
     (months ++ blockMonths cfg g date i)%list (days ++ newDays)%list).
Proof. reflexivity. Qed.

Lemma forEachBlock_first_throws cfg g i date rest years months days :
  timeDays (fst date) (snd date) <> [] ->
  forEachBlock cfg g i (date :: rest) years months days
  = Err (TypeError "getUTCMonth").
Proof.
  intros H. rewrite forEachBlock_cons.
  destruct (blockDays_cases cfg g date i) as [[_ ->] | [E _]];
    [reflexivity | contradiction].
Qed.

Section Throws.

Variable alignBox : BBox.t -> BBox.t -> string -> number * number.

Lemma layoutGrid_dates cfg g :
  layoutGrid alignBox cfg = Ok g ->
  exists m, partitionDateRange cfg = Ok (dates g, m).
Proof.
  unfold layoutGrid.
  destruct (partitionDateRange cfg) as [[ds m]|e]; cbn [bind];
    [|intros H; discriminate H].
  cbn [fst snd].
  destruct (weekDirection cfg =? "vertical");
  match goal with |- context [alignBox ?a ?b ?c] => destruct (alignBox a b c) end;
  intros [= <-]; cbn [dates]; eexists; reflexivity.
Qed.

Lemma layoutGrid_returns cfg r :
  partitionDateRange cfg = Ok r ->
  exists g, layoutGrid alignBox cfg = Ok g /\ dates g = fst r.
Proof.
  intros H. unfold layoutGrid. rewrite H. cbn [bind].
  destruct (weekDirection cfg =? "vertical");
  match goal with |- context [alignBox ?a ?b ?c] => destruct (alignBox a b c) end;
  eexists; split; reflexivity.
Qed.

(** Whenever the first block holds a day, the layout ends with the
    TypeError of the first cell position. *)
Lemma computeLayout_throws cfg date rest m :
  partitionDateRange cfg = Ok (date :: rest, m) ->
  timeDays (fst date) (snd date) <> [] ->
  computeLayout alignBox cfg = Err (TypeError "getUTCMonth").
Proof.
  intros Hp Hd. destruct (layoutGrid_returns cfg _ Hp) as [g [Hg Hdates]].
  unfold computeLayout. rewrite Hg. cbn [bind]. rewrite Hdates. cbn [fst].
  rewrite forEachBlock_first_throws by assumption. reflexivity.
Qed.

End Throws.

Lemma partition_year_2023 dir wd :
  wd <> "horizontal" ->
  partitionDateRange (year_2023 dir wd)
  = Ok ([(newDate 2023 0 1, newDate 2024 0 1)], NaN).
Proof.
  intros H. apply String.eqb_neq in H.
  unfold partitionDateRange, year_2023.
  cbn [granularity weekDirection from to breakpoint]. rewrite H.
  vm_compute. reflexivity.
Qed.

Lemma partition_year_2023_horizontal dir :
  partitionDateRange (year_2023 dir "horizontal")
  = Ok ([(newDate 2023 0 1, newDate 2024 0 1)], #6).
Proof. vm_compute. reflexivity. Qed.

Lemma partition_months_2023 dir :
  partitionDateRange (months_2023 dir "horizontal")
  = Ok ([(newDate 2023 0 1, newDate 2024 0 1)], #5).
Proof. vm_compute. reflexivity. Qed.

Lemma days_of_2023 : timeDays (newDate 2023 0 1) (newDate 2024 0 1) <> [].
Proof. vm_compute. discriminate. Qed.

(** ** Blocks of month granularity *)

Lemma monthBlocks_shape fuel : forall wd bp toDate k m r,
  monthBlocks fuel wd bp toDate (monthStart k) (monthStart k) m = Ok r ->
  Forall (monthBlock bp) (fst r).
Proof.
  induction fuel as [|fuel IH]; intros wd bp toDate k m r; cbn [monthBlocks].
  - destruct (monthStart k <? toDate)%Z; [intros H; discriminate H|].
    intros [= <-]. constructor.
  - destruct (monthStart k <? toDate)%Z; [|intros [= <-]; constructor].
    rewrite setMonth_monthStart.
    match goal with |- context [monthBlocks fuel wd bp toDate _ _ ?m'] =>
      specialize (IH wd bp toDate (k + bp)%Z m');
      destruct (monthBlocks fuel wd bp toDate (monthStart (k + bp)) (monthStart (k + bp)) m')
        as [r'|e] end; cbn [bind]; [|intros H; discriminate H].
    intros [= <-]. cbn [fst]. constructor; [exists k; reflexivity | now apply IH].
Qed.

Lemma partition_month_shape cfg r :
  (granularity cfg =? "year") = false ->
  partitionDateRange cfg = Ok r ->
  Forall (monthBlock (breakpoint cfg)) (fst r).
Proof.
  intros Hg. unfold partitionDateRange. rewrite Hg. unfold getTime.
  destruct (newDate_monthStart (getUTCFullYear (from cfg)) (getUTCMonth (from cfg)))
    as [k ->].
  apply monthBlocks_shape.
Qed.



Lemma forEachBlock_needs_years cfg g : forall blocks i years months days r,
  Forall (fun date => forall i, exists e,
            blockYear date (blockMonths cfg g date i) = Err e) blocks ->
  forEachBlock cfg g i blocks years months days = Ok r ->
  blocks = [] /\ r = (years, months, days).
Proof.
  intros [|date rest] i years months days r Hall.
  - cbn [forEachBlock]. intros [= <-]. split; reflexivity.
  - rewrite forEachBlock_cons.
    apply Forall_inv in Hall. destruct (Hall i) as [e He].
    destruct (blockDays cfg g date i); cbn [bind]; [|intros H; discriminate H].
    rewrite He. cbn [bind]. intros H; discriminate H.
Qed.

Lemma forEachBlock_fails cfg g i date rest years months days :
  (exists e, blockYear date (blockMonths cfg g date i) = Err (TypeError e)) ->
  exists p, forEachBlock cfg g i (date :: rest) years months days = Err (TypeError p).
Proof.
  intros [e He]. rewrite forEachBlock_cons.
  destruct (blockDays_cases cfg g date i) as [[_ ->] | [_ ->]]; cbn [bind].
  - eexists; reflexivity.
  - rewrite He. eexists; reflexivity.
Qed.

(** ** The block loops end

    With [breakpoint >= 1] every month block is at least 28 days long and
    every year block takes a year off the range, so the fuel the model
    gives the loops is enough. *)

Lemma monthStart_step (k : Z) : (monthStart k + 28 * msPerDay <= monthStart (k + 1))%Z.
Proof.
  unfold monthStart. pose proof (proj2 (month_ok_all k)) as H.
  unfold msPerDay. lia.
Qed.

Lemma monthStart_steps (n : nat) : forall k,
  (monthStart k + 28 * msPerDay * Z.of_nat n <= monthStart (k + Z.of_nat n))%Z.
Proof.
  induction n as [|n IH]; intros k.
  - replace (k + Z.of_nat 0)%Z with k by lia. lia.
  - pose proof (IH k) as H1. pose proof (monthStart_step (k + Z.of_nat n)) as H2.
    replace (k + Z.of_nat (S n))%Z with (k + Z.of_nat n + 1)%Z by lia.
    unfold msPerDay in *. lia.
Qed.

Lemma monthStart_lt (j k : Z) : (j < k)%Z -> (monthStart j + 28 * msPerDay <= monthStart k)%Z.
Proof.
  intros H. pose proof (monthStart_steps (Z.to_nat (k - j)) j) as S.
  replace (j + Z.of_nat (Z.to_nat (k - j)))%Z with k in S by lia.
  unfold msPerDay in *. lia.
Qed.

Lemma monthBlocks_total fuel : forall wd bp toDate k m,
  (1 <= bp)%Z ->
  ((toDate - monthStart k) / msPerDay < Z.of_nat fuel)%Z ->
  exists r, monthBlocks fuel wd bp toDate (monthStart k) (monthStart k) m = Ok r.
Proof.
  induction fuel as [|fuel IH]; intros wd bp toDate k m Hbp Hf; cbn [monthBlocks].
  - destruct (monthStart k <? toDate)%Z eqn:E; [|eexists; reflexivity].
    apply Z.ltb_lt in E. exfalso.
    assert (0 <= (toDate - monthStart k) / msPerDay)%Z
      by (apply Z.div_pos; unfold msPerDay; lia).
    lia.
  - destruct (monthStart k <? toDate)%Z eqn:E; [|eexists; reflexivity].
    apply Z.ltb_lt in E. rewrite setMonth_monthStart.
    match goal with |- context [monthBlocks fuel wd bp toDate _ _ ?m'] =>
      destruct (IH wd bp toDate (k + bp)%Z m' Hbp) as [r Hr] end.
    + pose proof (monthStart_lt k (k + bp) ltac:(lia)) as S.
      assert ((toDate - monthStart (k + bp)) / msPerDay
              <= (toDate - monthStart k - 28 * msPerDay) / msPerDay)%Z
        by (apply Z.div_le_mono; unfold msPerDay in *; lia).
      replace (toDate - monthStart k - 28 * msPerDay)%Z
        with (toDate - monthStart k + (-28) * msPerDay)%Z in H by lia.
      rewrite Z.div_add in H by (unfold msPerDay; lia). lia.
    + rewrite Hr. cbn [bind]. eexists; reflexivity.
Qed.

Lemma yearBlocks_total fuel : forall bp yearRange,
  (1 <= bp)%Z -> (List.length yearRange <= fuel)%nat ->
  exists dates, yearBlocks fuel bp yearRange = Ok dates.
Proof.
  induction fuel as [|fuel IH]; intros bp yearRange Hbp Hf.
  - destruct yearRange; [eexists; reflexivity | cbn [List.length] in Hf; lia].
  - destruct yearRange as [|y rest]; [eexists; reflexivity|].
    cbn [yearBlocks].
    destruct (Z.to_nat bp) as [|n] eqn:En; [lia|].
    cbn [firstn skipn].
    destruct (IH bp (skipn n rest) Hbp) as [dates Hd].
    { rewrite length_skipn. cbn [List.length] in Hf. lia. }
    rewrite Hd. cbn [bind]. eexists; reflexivity.
Qed.

Lemma partitionDateRange_total cfg :
  (1 <= breakpoint cfg)%Z -> exists r, partitionDateRange cfg = Ok r.
Proof.
  intros Hbp. unfold partitionDateRange.
  destruct (granularity cfg =? "year").
  - destruct (yearBlocks_total _ (breakpoint cfg)
                (Lodash.range (getUTCFullYear (from cfg)) (getUTCFullYear (to cfg) + 1))
                Hbp (le_n _)) as [dates Hd].
    rewrite Hd. cbn [bind]. eexists; reflexivity.
  - unfold getTime.
    destruct (newDate_monthStart (getUTCFullYear (from cfg)) (getUTCMonth (from cfg)))
      as [k ->].
    apply monthBlocks_total; [exact Hbp|]. lia.
Qed.

Lemma cdiv_midnight (n : Z) : cdiv (n * msPerDay) msPerDay = n.
Proof.
  unfold cdiv. replace (- (n * msPerDay))%Z with ((- n) * msPerDay)%Z by lia.
  rewrite Z.div_mul by discriminate. lia.
Qed.

Lemma timeDays_months (j k : Z) : (j < k)%Z -> timeDays (monthStart j) (monthStart k) <> [].
Proof.
  intros H. pose proof (monthStart_lt j k H) as S.
  unfold timeDays, monthStart in *. rewrite !cdiv_midnight.
  rewrite zrange_cons; [discriminate|]. unfold msPerDay in S. lia.
Qed.


Lemma range_up (a b : Z) : (a < b)%Z -> Lodash.range a b = zrange a b.
Proof. intros H. unfold Lodash.range, zrange. apply Z.ltb_lt in H. now rewrite H. Qed.


Section Always.

Variable alignBox : BBox.t -> BBox.t -> string -> number * number.

(** For every configuration with [breakpoint >= 1] whose range holds a
    day, the layout throws. *)
Lemma computeLayout_throws_month cfg :
  granularity cfg <> "year" ->
  (1 <= breakpoint cfg)%Z ->
  (newDate (getUTCFullYear (from cfg)) (getUTCMonth (from cfg)) 1 < to cfg)%Z ->
  computeLayout alignBox cfg = Err (TypeError "getUTCMonth").
Proof.
  intros Hg Hbp Hlt. apply String.eqb_neq in Hg.
  destruct (partitionDateRange_total cfg Hbp) as [[blocks m] Hp].
  pose proof (partition_month_shape cfg _ Hg Hp) as Hshape. cbn [fst] in Hshape.
  destruct blocks as [|date rest].
  - exfalso. revert Hp. unfold partitionDateRange. rewrite Hg. unfold getTime.
    apply Z.ltb_lt in Hlt. cbn [monthBlocks]. rewrite Hlt.
    match goal with |- context [bind ?x _] => destruct x end; cbn [bind];
      intros H; discriminate H.
  - apply (computeLayout_throws alignBox cfg date rest m Hp).
    apply Forall_inv in Hshape. destruct Hshape as [j ->]. cbn [fst snd].
    apply timeDays_months. lia.
Qed.



End Always.

(** ** Arithmetic of the cell size *)

Lemma min_NaN_r (a : number) : JS.min a NaN = NaN.
Proof. destruct a; reflexivity. Qed.

Lemma div_NaN_r (a : number) : a / NaN = NaN.
Proof. destruct a; reflexivity. Qed.

Lemma mul_NaN_r (a : number) : a * NaN = NaN.
Proof. destruct a; reflexivity. Qed.

Lemma computeCellSize_NaN_rows w h d b ys ms ds mcg mpg :
  computeCellSize w h d b ys ms ds NaN mcg mpg = NaN.
Proof.
  unfold computeCellSize. destruct (d =? "horizontal");
    rewrite (mul_NaN_r b), div_NaN_r; [apply min_NaN_r | reflexivity].
Qed.

Lemma Qeq_bool_pos (q : Q) : 0 < q -> Qeq_bool q 0 = false.
Proof.
  intros H. destruct (Qeq_bool q 0) eqn:E; [|reflexivity].
  apply Qeq_bool_eq in E. rewrite E in H. exfalso. apply (Qlt_irrefl 0 H).
Qed.

Lemma div_pos (a b : Q) : 0 < b -> Fin a / Fin b = Fin (a / b)%Q.
Proof. intros H. cbn [div]. now rewrite Qeq_bool_pos. Qed.

Lemma Qdiv_nonpos (a b : Q) : a <= 0 -> 0 < b -> (a / b <= 0)%Q.
Proof. intros Ha Hb. apply Qle_shift_div_r; [exact Hb|]. lra. Qed.

Lemma Qdiv_neg (a b : Q) : a < 0 -> 0 < b -> (a / b < 0)%Q.
Proof. intros Ha Hb. apply Qlt_shift_div_r; [exact Hb|]. lra. Qed.

Lemma Qle_div_mult (c a b : Q) : 0 < b -> c <= (a / b)%Q -> (c * b <= a)%Q.
Proof.
  intros Hb H. apply (Qmult_le_compat_r _ _ b) in H; [|lra].
  assert (E : ((a / b) * b == a)%Q) by (field; lra).
  rewrite E in H. exact H.
Qed.

Lemma fit_core (w h ys ms ds n rq mq pq c : Q) :
  0 < mq -> 0 < (n * rq)%Q ->
  c <= ((w - ms * pq - ds * mq) / mq)%Q ->
  c <= ((h - (n - inject_Z 1) * ys - n * (rq * ds)) / (n * rq))%Q ->
  (c * mq + ds * mq + ms * pq <= w)%Q
  /\ ((c + ds) * rq * n + ys * (n - inject_Z 1) <= h)%Q.
Proof.
  intros Hm Hn H1 H2.
  apply Qle_div_mult in H1; [|exact Hm]. apply Qle_div_mult in H2; [|exact Hn].
  split; [lra|]. unfold inject_Z in *. lra.
Qed.

Lemma div_fin (a b : number) (q : Q) :
  a / b = Fin q -> exists x y, a = Fin x /\ b = Fin y /\ ~ y == 0 /\ q = (x / y)%Q.
Proof.
  destruct a as [|x], b as [|y]; cbn [div]; try (intros H; discriminate H).
  destruct (Qeq_bool y 0) eqn:E; [intros H; discriminate H|].
  intros [= <-]. exists x, y. repeat split. intros K.
  apply Qeq_eq_bool in K. rewrite K in E. discriminate E.
Qed.

Lemma min_fin (a b : number) (q : Q) :
  JS.min a b = Fin q -> exists x y, a = Fin x /\ b = Fin y /\ q = Qmin x y.
Proof.
  destruct a as [|x], b as [|y]; cbn [JS.min lift2]; try (intros H; discriminate H).
  intros [= <-]. exists x, y. repeat split.
Qed.

Lemma mul_fin (a b : number) (q : Q) :
  a * b = Fin q -> exists x y, a = Fin x /\ b = Fin y /\ q = (x * y)%Q.
Proof.
  destruct a as [|x], b as [|y]; cbn [JS.mul lift2]; try (intros H; discriminate H).
  intros [= <-]. exists x, y. repeat split.
Qed.

Lemma computeCellSize_NaN_columns w h d b ys ms ds mrm mpg :
  computeCellSize w h d b ys ms ds mrm NaN mpg = NaN.
Proof.
  unfold computeCellSize. destruct (d =? "horizontal");
    rewrite div_NaN_r; [reflexivity | apply min_NaN_r].
Qed.

Lemma sizes_fit (w h ys ms ds n pq c : Q) (dir : string) (mrm mcg : number) :
  0 <= n ->
  (forall q, mrm = Fin q -> 0 < q) ->
  (forall q, mcg = Fin q -> 0 < q) ->
  computeCellSize (Fin w) (Fin h) dir (Fin n) (Fin ys) (Fin ms) (Fin ds) mrm mcg (Fin pq)
  = Fin c ->
  le (if dir =? "horizontal"
      then Fin c * mcg + Fin ds * mcg + Fin ms * Fin pq
      else (Fin c + Fin ds) * mrm * Fin n + Fin ys * (Fin n - #1))
     (Fin w)
  /\ le (if dir =? "horizontal"
         then (Fin c + Fin ds) * mrm * Fin n + Fin ys * (Fin n - #1)
         else Fin c * mcg + Fin ds * mcg + Fin ms * Fin pq)
        (Fin h).
Proof.
  intros Hn Hr Hm.
  destruct mrm as [|rq]; [rewrite computeCellSize_NaN_rows; intros H; discriminate H|].
  destruct mcg as [|mq]; [rewrite computeCellSize_NaN_columns; intros H; discriminate H|].
  specialize (Hr rq eq_refl). specialize (Hm mq eq_refl).
  unfold computeCellSize.
  destruct (dir =? "horizontal");
    cbn [JS.sub JS.mul JS.add lift2 ofZ]; rewrite (div_pos _ mq Hm);
    cbn [div]; destruct (Qeq_bool (n * rq) 0) eqn:E;
    cbn [JS.min lift2]; try (intros H; discriminate H);
    intros [= <-]; cbn [le];
    (assert (Hnr : 0 < (n * rq)%Q);
     [ apply Qeq_bool_neq in E;
       assert (0 <= (n * rq)%Q) by nra;
       destruct (Qlt_le_dec 0 (n * rq)) as [L|L]; [exact L|];
       exfalso; apply E; lra |]).
  - destruct (fit_core w h ys ms ds n rq mq pq
                (Qmin ((w - ms * pq - ds * mq) / mq)
                      ((h - (n - inject_Z 1) * ys - n * (rq * ds)) / (n * rq)))
                Hm Hnr (Q.le_min_l _ _) (Q.le_min_r _ _)) as [A B].
    split; assumption.
  - destruct (fit_core h w ys ms ds n rq mq pq
                (Qmin ((w - (n - inject_Z 1) * ys - n * (rq * ds)) / (n * rq))
                      ((h - ms * pq - ds * mq) / mq))
                Hm Hnr (Q.le_min_r _ _) (Q.le_min_l _ _)) as [A B].
    split; assumption.
Qed.

Lemma scanMonths_rows n : forall i bp date aux m,
  m = NaN \/ m = #5 \/ m = #6 ->
  scanMonths n i bp date aux m = NaN
  \/ scanMonths n i bp date aux m = #5
  \/ scanMonths n i bp date aux m = #6.
Proof.
  induction n as [|n IH]; intros i bp date aux m Hm; cbn [scanMonths]; [exact Hm|].
  destruct (i <? bp)%Z; [|exact Hm].
  destruct (37 <=? _)%Z; [right; right; reflexivity|].
  destruct (_ =? 28)%Z; apply IH.
  - destruct Hm as [-> | [-> | ->]]; [left | right; left | right; right]; reflexivity.
  - right; left; reflexivity.
Qed.

Lemma monthBlocks_rows fuel : forall wd bp toDate date aux m r,
  m = NaN \/ m = #5 \/ m = #6 ->
  monthBlocks fuel wd bp toDate date aux m = Ok r ->
  snd r = NaN \/ snd r = #5 \/ snd r = #6.
Proof.
  induction fuel as [|fuel IH]; intros wd bp toDate date aux m r Hm; cbn [monthBlocks].
  - destruct (date <? toDate)%Z; [intros H; discriminate H|]. now intros [= <-].
  - destruct (date <? toDate)%Z; [|now intros [= <-]].
    match goal with |- context [monthBlocks fuel wd bp toDate ?d ?a ?m'] =>
      specialize (IH wd bp toDate d a m');
      destruct (monthBlocks fuel wd bp toDate d a m') as [r'|e] end; cbn [bind];
      [|intros H; discriminate H].
    intros [= <-]. cbn [snd]. apply (IH r'); [|reflexivity].
    destruct ((wd =? "horizontal") && strict_neq m #6); [|exact Hm].
    now apply scanMonths_rows.
Qed.

Lemma partition_rows cfg r :
  partitionDateRange cfg = Ok r -> snd r = NaN \/ snd r = #5 \/ snd r = #6.
Proof.
  unfold partitionDateRange. destruct (granularity cfg =? "year").
  - destruct (yearBlocks _ _ _); cbn [bind]; [|intros H; discriminate H].
    intros [= <-]. cbn [snd].
    destruct (weekDirection cfg =? "horizontal"); [right; right | left]; reflexivity.
  - apply monthBlocks_rows. left; reflexivity.
Qed.

Lemma max_nat_fold (l : list nat) : forall q,
  0 <= q ->
  exists q', fold_left JS.max (map ofNat l) (Fin q) = Fin q' /\ 0 <= q'.
Proof.
  induction l as [|a l IH]; intros q Hq; [exists q; split; [reflexivity | exact Hq]|].
  cbn [map]. rewrite fold_left_step. cbn [JS.max lift2 ofNat ofZ].
  apply IH. apply Q.max_le_iff. left. exact Hq.
Qed.

Lemma max_list_columns (l : list nat) (q : Q) :
  max_list (map ofNat l) + #1 = Fin q -> 0 < q.
Proof.
  destruct l as [|a l]; cbn [map max_list]; [intros H; discriminate H|].
  change (ofNat a) with (Fin (inject_Z (Z.of_nat a))).
  destruct (max_nat_fold l (inject_Z (Z.of_nat a))) as (q' & -> & Hq').
  { change 0 with (inject_Z 0). rewrite <- Zle_Qle. lia. }
  cbn [JS.add lift2 ofZ]. intros [= <-]. unfold inject_Z at 1. lra.
Qed.

Section Fit.

Variable alignBox : BBox.t -> BBox.t -> string -> number * number.

(** Whenever the cell size is a finite number, the occupied extent fits
    the canvas on both axes. *)
Lemma layoutGrid_fits cfg g c :
  (1 <= breakpoint cfg)%Z ->
  layoutGrid alignBox cfg = Ok g ->
  cellSize g = Fin c ->
  le (calendarWidth g) (Fin (width cfg)) /\ le (calendarHeight g) (Fin (height cfg)).
Proof.
  intros Hbp. unfold layoutGrid.
  destruct (partitionDateRange cfg) as [r|e] eqn:Hp; cbn [bind]; [|intros H; discriminate H].
  pose proof (partition_rows cfg r Hp) as Hrows.
  set (pq := if granularity cfg =? "year"
             then inject_Z (breakpoint cfg * 12) else inject_Z (breakpoint cfg)).
  assert (Hpq : 0 < pq).
  { subst pq. destruct (granularity cfg =? "year");
      change 0 with (inject_Z 0); rewrite <- Zlt_Qlt; lia. }
  replace (if granularity cfg =? "year" then #(breakpoint cfg * 12) else #(breakpoint cfg))
    with (Fin pq) by (subst pq; destruct (granularity cfg =? "year"); reflexivity).
  assert (Hn : 0 <= inject_Z (Z.of_nat (List.length (fst r)))).
  { change 0 with (inject_Z 0). rewrite <- Zle_Qle. lia. }
  destruct (weekDirection cfg =? "vertical").
  - match goal with |- context [alignBox ?a ?b ?c] => destruct (alignBox a b c) end.
    intros [= <-]. cbn [cellSize calendarWidth calendarHeight]. intros Hc. rewrite Hc.
    apply (sizes_fit _ _ _ _ _ _ _ _ _ _ _ Hn) in Hc.
    + exact Hc.
    + intros q [= <-]. reflexivity.
    + intros q Hq. rewrite <- map_map in Hq. exact (max_list_columns _ q Hq).
  - match goal with |- context [alignBox ?a ?b ?c] => destruct (alignBox a b c) end.
    intros [= <-]. cbn [cellSize calendarWidth calendarHeight]. intros Hc. rewrite Hc.
    apply (sizes_fit _ _ _ _ _ _ _ _ _ _ _ Hn) in Hc.
    + exact Hc.
    + intros q Hq. destruct Hrows as [E | [E | E]]; rewrite E in Hq;
        [discriminate Hq | injection Hq as <-; reflexivity | injection Hq as <-; reflexivity].
    + cbn [JS.mul lift2 ofZ]. intros q [= <-]. unfold inject_Z at 1. lra.
Qed.

End Fit.

(** ** The output of computeLayout

    [computeLayout] calls [cellPosition(originX, originY, dayDate, i)]: the
    fifth parameter [startDate] of the positioning closures is undefined,
    and [getElapsedMonths(undefined, d)] throws.  The four theorems below
    evaluate the four direction x weekDirection combinations. *)

Section Output.

Variable alignBox : BBox.t -> BBox.t -> string -> number * number.

(** C1.  Day coverage: the specification's scenario (the year 2023,
    horizontal calendar, vertical weeks) has one block of 365 days, but the
    first day's position throws, so [computeLayout] returns no days
    sequence at all. *)
Theorem days_sequence_never_returned :
  let cfg := year_2023 "horizontal" "vertical" in
  let block := (newDate 2023 0 1, newDate 2024 0 1) in
  partitionDateRange cfg = Ok ([block], NaN)
  /\ List.length (timeDays (fst block) (snd block)) = 365%nat
  /\ dayFormat (newDate 2023 0 1) = "2023-01-01"
  /\ (forall g, blockDays cfg g block 0 = Err (TypeError "getUTCMonth"))
  /\ computeLayout alignBox cfg = Err (TypeError "getUTCMonth").
Proof.
  cbv zeta.
  assert (P := partition_year_2023 "horizontal" "vertical" ltac:(discriminate)).
  split; [exact P|].
  split; [vm_compute; reflexivity|].
  split; [reflexivity|].
  split.
  - intros g.
    destruct (blockDays_cases (year_2023 "horizontal" "vertical") g
                (newDate 2023 0 1, newDate 2024 0 1) 0) as [[_ H] | [H _]];
      [exact H | exfalso; exact (days_of_2023 H)].
  - exact (computeLayout_throws alignBox _ _ _ _ P days_of_2023).
Qed.

(** C2.  Cell-size fit: for the first half of March 2015 (one month per
    block, horizontal weeks) the scan takes [Math.max(undefined, 4)], so
    [maxRowsMonth], the cell size and both extents are NaN and no bound
    holds; and [computeLayout] throws before it returns them.  Where the
    cell size is a number the extents do fit (twelve months of 2023,
    [layoutGrid_fits]), but there too [computeLayout] throws. *)
Theorem sizes_nan_and_layout_throws :
  (exists g, layoutGrid alignBox march_2015 = Ok g
             /\ maxRowsMonth g = NaN /\ cellSize g = NaN
             /\ calendarWidth g = NaN /\ calendarHeight g = NaN
             /\ ~ le (calendarWidth g) (Fin (width march_2015))
             /\ ~ le (calendarHeight g) (Fin (height march_2015)))
  /\ computeLayout alignBox march_2015 = Err (TypeError "getUTCMonth")
  /\ (exists g, layoutGrid alignBox (months_2023 "vertical" "horizontal") = Ok g
                /\ le (calendarWidth g) (Fin 800)
                /\ le (calendarHeight g) (Fin 600))
  /\ computeLayout alignBox (months_2023 "vertical" "horizontal")
     = Err (TypeError "getUTCMonth").
Proof.
  split; [|split; [|split]].
  - vm_compute.
    match goal with |- context [alignBox ?a ?b ?c] => destruct (alignBox a b c) end.
    eexists. split; [reflexivity|]. repeat (split; [reflexivity|]).
    split; intros H; exact H.
  - apply computeLayout_throws_month;
      [intros H; discriminate H | reflexivity | reflexivity].
  - vm_compute.
    match goal with |- context [alignBox ?a ?b ?c] => destruct (alignBox a b c) end.
    eexists. split; [reflexivity|]. split; discriminate.
  - exact (computeLayout_throws alignBox _ _ _ _
             (partition_months_2023 "vertical") days_of_2023).
Qed.

(** C3.  Month bbox containment: in the vertical calendar with vertical
    weeks no day cell gets a position: [getB] throws on the undefined
    [startDate], so [computeLayout] produces neither day entries nor month
    descriptors; and [getA], called without its [cellSize], is NaN, so that
    even a call of the closure with a start date gives the cell no x. *)
Theorem day_cells_never_positioned :
  let cfg := year_2023 "vertical" "vertical" in
  (forall g d i,
     cellPosition cfg g (originX g) (originY g) d i undefined
     = Err (TypeError "getUTCMonth"))
  /\ (forall d i ys ds rows, getA d i ys ds rows undefined = NaN)
  /\ (forall g d i startDate,
        exists y, cellPosition cfg g (originX g) (originY g) d i (Some startDate)
                  = Ok (NaN, y))
  /\ computeLayout alignBox cfg = Err (TypeError "getUTCMonth").
Proof.
  cbv zeta. split; [|split; [|split]].
  - intros g d i. apply cellPosition_without_startDate.
  - intros. apply getA_without_cellSize.
  - intros g d i startDate. unfold cellPosition, year_2023.
    cbn [direction weekDirection].
    replace ("vertical" =? "horizontal") with false by reflexivity.
    unfold cellPositionVerticalVertical, getB, getElapsedMonths.
    rewrite getA_without_cellSize. cbn [bind].
    destruct (originX g); eexists; reflexivity.
  - exact (computeLayout_throws alignBox _ _ _ _
             (partition_year_2023 "vertical" "vertical" ltac:(discriminate))
             days_of_2023).
Qed.

(** C4.  Year bbox composition: in the horizontal calendar with horizontal
    weeks the block loop throws in its first turn, before any year
    descriptor is pushed: [computeLayout] emits no year descriptor. *)
Theorem year_descriptor_never_emitted :
  let cfg := year_2023 "horizontal" "horizontal" in
  (exists g, layoutGrid alignBox cfg = Ok g
             /\ forall years months days,
                  forEachBlock cfg g 0 (dates g) years months days
                  = Err (TypeError "getUTCMonth"))
  /\ computeLayout alignBox cfg = Err (TypeError "getUTCMonth").
Proof.
  cbv zeta. pose proof (partition_year_2023_horizontal "horizontal") as P. split.
  - destruct (layoutGrid_returns alignBox _ _ P) as [g [Hg Hd]].
    exists g. split; [exact Hg|]. intros years months days.
    rewrite Hd. cbn [fst]. apply forEachBlock_first_throws. exact days_of_2023.
  - exact (computeLayout_throws alignBox _ _ _ _ P days_of_2023).
Qed.

End Output.

(** ** bindDaysData *)

Lemma bindStep_key colorScale day r :
  DayCell.day (bindStep colorScale day r) = DayCell.day day.
Proof. unfold bindStep. destruct (_ =? _); reflexivity. Qed.

Lemma scan_key colorScale data : forall day,
  DayCell.day (fold_left (bindStep colorScale) data day) = DayCell.day day.
Proof.
  induction data as [|r data IH]; intros day; [reflexivity|].
  now rewrite fold_left_step, IH, bindStep_key.
Qed.

Lemma scan_geometry colorScale data : forall day,
  DayCell.date (fold_left (bindStep colorScale) data day) = DayCell.date day
  /\ DayCell.size (fold_left (bindStep colorScale) data day) = DayCell.size day
  /\ DayCell.x (fold_left (bindStep colorScale) data day) = DayCell.x day
  /\ DayCell.y (fold_left (bindStep colorScale) data day) = DayCell.y day.
Proof.
  induction data as [|r data IH]; intros day; [repeat split|].
  rewrite fold_left_step.
  destruct (IH (bindStep colorScale day r)) as (A & B & C & D).
  rewrite A, B, C, D. unfold bindStep. destruct (_ =? _); repeat split.
Qed.

Lemma scan_no_match colorScale data : forall day,
  (forall r, In r data -> Datum.day r <> DayCell.day day) ->
  fold_left (bindStep colorScale) data day = day.
Proof.
  induction data as [|r data IH]; intros day H; [reflexivity|].
  rewrite fold_left_step.
  assert (E : bindStep colorScale day r = day).
  { unfold bindStep. destruct (Datum.day r =? DayCell.day day) eqn:K; [|reflexivity].
    apply String.eqb_eq in K. exfalso. apply (H r); [left; reflexivity | exact K]. }
  rewrite E. apply IH. intros r' Hin. apply H. right. exact Hin.
Qed.

Lemma scan_last_match colorScale pre r post day :
  Datum.day r = DayCell.day day ->
  (forall r', In r' post -> Datum.day r' <> DayCell.day day) ->
  DayCell.color (fold_left (bindStep colorScale) (pre ++ r :: post) day)
  = Some (colorScale (Datum.value r))
  /\ DayCell.value (fold_left (bindStep colorScale) (pre ++ r :: post) day)
     = Some (Datum.value r)
  /\ DayCell.data (fold_left (bindStep colorScale) (pre ++ r :: post) day) = Some r.
Proof.
  intros Hr Hpost. rewrite fold_left_app, fold_left_step.
  set (d1 := fold_left (bindStep colorScale) pre day).
  assert (K1 : DayCell.day d1 = DayCell.day day) by apply scan_key.
  rewrite scan_no_match.
  - unfold bindStep. rewrite K1, Hr, String.eqb_refl. repeat split.
  - intros r' Hin. rewrite bindStep_key, K1. now apply Hpost.
Qed.

(** C5.  Every cell of the result is the cell of the input at the same
    index with its key and geometry unchanged; when no record has the
    cell's key its color is [emptyColor] and it gains no value or data;
    otherwise the last record with the cell's key gives the value, the
    color [colorScale value] and the attached record. *)
Theorem bindDaysData_join days data colorScale emptyColor i day :
  nth_error days i = Some day ->
  exists day',
    nth_error (bindDaysData days data colorScale emptyColor) i = Some day'
    /\ List.length (bindDaysData days data colorScale emptyColor) = List.length days
    /\ DayCell.day day' = DayCell.day day
    /\ DayCell.date day' = DayCell.date day /\ DayCell.size day' = DayCell.size day
    /\ DayCell.x day' = DayCell.x day /\ DayCell.y day' = DayCell.y day
    /\ ((forall r, In r data -> Datum.day r <> DayCell.day day) ->
        DayCell.color day' = Some emptyColor
        /\ DayCell.value day' = DayCell.value day
        /\ DayCell.data day' = DayCell.data day)
    /\ (forall pre r post,
          data = (pre ++ r :: post)%list ->
          Datum.day r = DayCell.day day ->
          (forall r', In r' post -> Datum.day r' <> DayCell.day day) ->
          DayCell.color day' = Some (colorScale (Datum.value r))
          /\ DayCell.value day' = Some (Datum.value r)
          /\ DayCell.data day' = Some r).
Proof.
  intros Hi. exists (bindDay data colorScale emptyColor day).
  unfold bindDaysData. rewrite nth_error_map, Hi, length_map.
  split; [reflexivity|]. split; [reflexivity|].
  unfold bindDay.
  split; [now rewrite scan_key|].
  destruct (scan_geometry colorScale data
              (DayCell.mk (DayCell.date day) (DayCell.day day) (DayCell.size day)
                 (DayCell.x day) (DayCell.y day)
                 (Some emptyColor) (DayCell.value day) (DayCell.data day)))
    as (A & B & C & D).
  repeat (split; [assumption|]).
  split.
  - intros Hno. rewrite scan_no_match by exact Hno. repeat split.
  - intros pre r post -> Hr Hpost. now apply scan_last_match.
Qed.

Lemma bindDaysData_join_witness :
  let cell := DayCell.mk (newDate 2023 0 1) "2023-01-01" #10 #0 #0 None None None in
  let days := [cell; DayCell.mk (newDate 2023 0 2) "2023-01-02" #10 #0 #12 None None None] in
  let data := [Datum.mk "2023-01-01" #3; Datum.mk "2023-01-05" #4; Datum.mk "2023-01-01" #7] in
  let colorScale := fun v => if sameb v #7 then "red" else "blue" in
  nth_error days 0 = Some cell
  /\ exists day',
       nth_error (bindDaysData days data colorScale "white") 0 = Some day'
       /\ DayCell.color day' = Some "red"
       /\ DayCell.value day' = Some #7.
Proof.
  cbv zeta. split; [reflexivity|].
  destruct (bindDaysData_join
              [DayCell.mk (newDate 2023 0 1) "2023-01-01" #10 #0 #0 None None None;
               DayCell.mk (newDate 2023 0 2) "2023-01-02" #10 #0 #12 None None None]
              [Datum.mk "2023-01-01" #3; Datum.mk "2023-01-05" #4; Datum.mk "2023-01-01" #7]
              (fun v => if sameb v #7 then "red" else "blue") "white" 0
              (DayCell.mk (newDate 2023 0 1) "2023-01-01" #10 #0 #0 None None None)
              eq_refl)
    as (day' & Hn & _ & _ & _ & _ & _ & _ & _ & Hlast).
  exists day'. split; [exact Hn|].
  destruct (Hlast [Datum.mk "2023-01-01" #3; Datum.mk "2023-01-05" #4]
              (Datum.mk "2023-01-01" #7) [] eq_refl eq_refl
              (fun r' (H : In r' []) => match H with end))
    as (Hc & Hv & _).
  split; [exact Hc | exact Hv].
Defined.

(** ** March and April 2023, month by month *)

Lemma partition_march_april_2023 :
  partitionDateRange march_april_2023
  = Ok ([(newDate 2023 2 1, newDate 2023 3 1); (newDate 2023 3 1, newDate 2023 4 1)], #6).
Proof. vm_compute. reflexivity. Qed.

(** ** The scan for maxRowsMonth *)

Lemma scanMonths_step n i bp date aux m :
  (i < bp)%Z ->
  scanMonths (S n) i bp date aux m =
  if (37 <=? scanSum date aux i)%Z then #6
  else scanMonths n (i + 1) bp date aux (scanStep date aux m i).
Proof.
  intros H. cbn [scanMonths]. apply Z.ltb_lt in H. rewrite H.
  unfold scanStep, scanSum.
  destruct (37 <=? _)%Z; [reflexivity|]. destruct (_ =? 28)%Z; reflexivity.
Qed.

Lemma scanMonths_six n : forall i bp date aux m,
  Z.of_nat n = Z.max 0 (bp - i) ->
  (exists j, (i <= j < bp)%Z /\ (37 <= scanSum date aux j)%Z) ->
  scanMonths n i bp date aux m = #6.
Proof.
  induction n as [|n IH]; intros i bp date aux m Hn [j [Hj Hs]]; [lia|].
  rewrite scanMonths_step by lia.
  destruct (37 <=? scanSum date aux i)%Z eqn:E; [reflexivity|].
  apply Z.leb_gt in E. apply IH; [lia|].
  exists j. split; [|exact Hs]. assert (j <> i) by (intros ->; lia). lia.
Qed.

Lemma scanMonths_no_six n : forall i bp date aux m,
  Z.of_nat n = Z.max 0 (bp - i) ->
  (forall j, (i <= j < bp)%Z -> (scanSum date aux j < 37)%Z) ->
  scanMonths n i bp date aux m = fold_left (scanStep date aux) (zrange i bp) m.
Proof.
  induction n as [|n IH]; intros i bp date aux m Hn Hs.
  - rewrite zrange_nil by lia. reflexivity.
  - rewrite scanMonths_step by lia. rewrite zrange_cons by lia.
    rewrite fold_left_step.
    pose proof (Hs i ltac:(lia)) as Hi. apply Z.leb_gt in Hi. rewrite Hi.
    apply IH; [lia|]. intros j Hj. apply Hs. lia.
Qed.

Lemma scanBlock_six wd bp block : scanBlock wd bp #6 block = #6.
Proof.
  unfold scanBlock.
  replace (strict_neq #6 #6) with false by reflexivity.
  now rewrite andb_false_r.
Qed.

Lemma scan_six_stays wd bp blocks : fold_left (scanBlock wd bp) blocks #6 = #6.
Proof.
  induction blocks as [|b blocks IH]; [reflexivity|].
  rewrite fold_left_step, scanBlock_six. exact IH.
Qed.

Lemma monthBlocks_scans fuel : forall wd bp toDate date m r,
  monthBlocks fuel wd bp toDate date date m = Ok r ->
  snd r = fold_left (scanBlock wd bp) (fst r) m.
Proof.
  induction fuel as [|fuel IH]; intros wd bp toDate date m r; cbn [monthBlocks].
  - destruct (date <? toDate)%Z; [intros H; discriminate H|]. now intros [= <-].
  - destruct (date <? toDate)%Z; [|now intros [= <-]].
    match goal with |- context [monthBlocks fuel wd bp toDate ?d ?d ?m'] =>
      specialize (IH wd bp toDate d m');
      destruct (monthBlocks fuel wd bp toDate d d m') as [r'|e] end; cbn [bind];
      [|intros H; discriminate H].
    intros [= <-]. cbn [fst snd]. rewrite fold_left_step. now apply IH.
Qed.

(** C7, as stated, fails: for March and April 2023 with one month per
    block, the first block's scan gives 5 (under the code's sum as under
    the stated one), yet [maxRowsMonth] ends as 6, because the second
    block is scanned too. *)
Lemma maxRowsMonth_not_from_first_block_only :
  partitionDateRange march_april_2023
  = Ok ([(newDate 2023 2 1, newDate 2023 3 1); (newDate 2023 3 1, newDate 2023 4 1)], #6)
  /\ maxRowsMonth_stated march_april_2023 = #5
  /\ scanBlock "horizontal" 1 NaN (newDate 2023 2 1, newDate 2023 3 1) = #5
  /\ #6 <> #5.
Proof.
  split; [exact partition_march_april_2023|].
  split; [vm_compute; reflexivity|].
  split; [vm_compute; reflexivity|].
  intros H; discriminate H.
Qed.

(** C7, amended.  With granularity 'month' and horizontal weeks,
    [maxRowsMonth] is the result of scanning every block in turn, starting
    from undefined (the loop returns whenever [breakpoint >= 1]); a block
    is scanned only while [maxRowsMonth] is not 6, so 6 is never
    recomputed; a scan that meets a sum of 37 or more within its
    [breakpoint] steps gives 6; otherwise each step takes
    [Math.max(maxRowsMonth, 4)] for a sum of exactly 28 and 5 for any other
    sum. *)
Theorem maxRowsMonth_scan cfg :
  granularity cfg = "month" ->
  weekDirection cfg = "horizontal" ->
  (forall blocks m,
     partitionDateRange cfg = Ok (blocks, m) ->
     m = fold_left (scanBlock "horizontal" (breakpoint cfg)) blocks NaN)
  /\ ((1 <= breakpoint cfg)%Z -> exists blocks m, partitionDateRange cfg = Ok (blocks, m))
  /\ (forall later, fold_left (scanBlock "horizontal" (breakpoint cfg)) later #6 = #6)
  /\ (forall block m0, strict_neq m0 #6 = true ->
        (exists i, (0 <= i < breakpoint cfg)%Z
                   /\ (37 <= scanSum (fst block) (fst block) i)%Z) ->
        scanBlock "horizontal" (breakpoint cfg) m0 block = #6)
  /\ (forall block m0, strict_neq m0 #6 = true ->
        (forall i, (0 <= i < breakpoint cfg)%Z ->
                   (scanSum (fst block) (fst block) i < 37)%Z) ->
        scanBlock "horizontal" (breakpoint cfg) m0 block
        = fold_left (scanStep (fst block) (fst block)) (zrange 0 (breakpoint cfg)) m0).
Proof.
  intros Hg Hw.
  assert (T : ("horizontal" =? "horizontal") = true) by reflexivity.
  split; [|split; [|split; [|split]]].
  - intros blocks m. unfold partitionDateRange. rewrite Hg, Hw.
    replace ("month" =? "year") with false by reflexivity.
    unfold getTime. intros Hp. apply monthBlocks_scans in Hp. exact Hp.
  - intros Hbp. destruct (partitionDateRange_total cfg Hbp) as [[blocks m] Hp].
    exists blocks, m. exact Hp.
  - intros later. apply scan_six_stays.
  - intros block m0 H6 Hex. unfold scanBlock. rewrite H6, T. cbn [andb].
    apply scanMonths_six; [lia|]. exact Hex.
  - intros block m0 H6 Hall. unfold scanBlock. rewrite H6, T. cbn [andb].
    apply scanMonths_no_six; [lia|]. exact Hall.
Qed.

Lemma maxRowsMonth_scan_witness :
  granularity march_april_2023 = "month"
  /\ weekDirection march_april_2023 = "horizontal"
  /\ #6 = fold_left (scanBlock "horizontal" 1)
            [(newDate 2023 2 1, newDate 2023 3 1); (newDate 2023 3 1, newDate 2023 4 1)] NaN
  /\ exists blocks m, partitionDateRange march_april_2023 = Ok (blocks, m).
Proof.
  split; [reflexivity|]. split; [reflexivity|].
  destruct (maxRowsMonth_scan march_april_2023 eq_refl eq_refl) as (H1 & H2 & _).
  split; [exact (H1 _ _ partition_march_april_2023)|].
  apply H2. intros H; discriminate H.
Defined.

(** ** Unrecognized configuration values *)

Lemma monthBlocks_no_scan fuel : forall wd bp toDate date aux m r,
  (wd =? "horizontal") = false ->
  monthBlocks fuel wd bp toDate date aux m = Ok r -> snd r = m.
Proof.
  induction fuel as [|fuel IH]; intros wd bp toDate date aux m r Hwd; cbn [monthBlocks].
  - destruct (date <? toDate)%Z; [intros H; discriminate H|]. now intros [= <-].
  - destruct (date <? toDate)%Z; [|now intros [= <-]].
    rewrite Hwd. cbn [andb].
    destruct (monthBlocks fuel wd bp toDate _ _ m) as [r'|e] eqn:E; cbn [bind];
      [|intros H; discriminate H].
    intros [= <-]. cbn [snd]. eapply IH; eassumption.
Qed.

Lemma forEachBlock_sameTests c1 c2 g :
  sameTests c1 c2 ->
  forall blocks i years months days,
  forEachBlock c1 g i blocks years months days
  = forEachBlock c2 g i blocks years months days.
Proof.
  intros (Hw & Hh & Hf & Ht & Hys & Hms & Hds & Ha & Hwd & Hbp & Hd & Hg).
  induction blocks as [|date rest IH]; intros i years months days; [reflexivity|].
  rewrite !forEachBlock_cons.
  assert (D : blockDays c1 g date i = blockDays c2 g date i).
  { unfold blockDays, cellPosition. now rewrite Hys, Hms, Hds, Hwd, Hd. }
  assert (M : blockMonths c1 g date i = blockMonths c2 g date i).
  { unfold blockMonths, memoMonthPathAndBBox, monthPathAndBBox.
    now rewrite Hys, Hms, Hds, Hd. }
  rewrite D, M.
  destruct (blockDays c2 g date i); cbn [bind]; [|reflexivity].
  destruct (blockYear date (blockMonths c2 g date i)); cbn [bind]; [|reflexivity].
  apply IH.
Qed.

Lemma legend_else_branch dir pos :
  (dir <> "horizontal" /\ dir <> "vertical")
  \/ (pos <> "before" /\ pos <> "after") ->
  (dir =? "horizontal") && (pos =? "before") = false
  /\ (dir =? "horizontal") && (pos =? "after") = false
  /\ (dir =? "vertical") && (pos =? "before") = false.
Proof.
  intros [[H1 H2] | [H1 H2]]; apply String.eqb_neq in H1, H2; rewrite H1, H2;
    rewrite ?andb_false_r; repeat split.
Qed.

(** C8, as stated, fails: a direction and a position that are no keywords
    are not rejected; the year legend silently takes the placement of
    'vertical' and 'after'. *)
Lemma unrecognized_legend_values_are_accepted :
  let year := Year.mk (newDate 2023 0 1) (BBox.mk #0 #0 #100 #50) in
  computeYearLegendPositions [year] "diagonal" "middle" #10
  = [YearLegend.mk year (#0 + #100 / #2) (#0 + #50 + #10) #0]
  /\ computeYearLegendPositions [year] "diagonal" "middle" #10
     = computeYearLegendPositions [year] "vertical" "after" #10.
Proof. cbv zeta. split; reflexivity. Qed.

Lemma partition_unknown_weekDirection cfg r :
  weekDirection cfg <> "horizontal" ->
  partitionDateRange cfg = Ok r -> snd r = NaN.
Proof.
  intros Hh. apply String.eqb_neq in Hh.
  unfold partitionDateRange. rewrite Hh.
  destruct (granularity cfg =? "year").
  - destruct (yearBlocks _ _ _); cbn [bind]; [|intros H; discriminate H].
    now intros [= <-].
  - now apply monthBlocks_no_scan.
Qed.

Section Fallthrough.

Variable alignBox : BBox.t -> BBox.t -> string -> number * number.

Lemma computeLayout_sameTests c1 c2 :
  sameTests c1 c2 -> computeLayout alignBox c1 = computeLayout alignBox c2.
Proof.
  intros H. pose proof (forEachBlock_sameTests c1 c2) as F.
  destruct H as (Hw & Hh & Hf & Ht & Hys & Hms & Hds & Ha & Hwd & Hbp & Hd & Hg) eqn:E.
  assert (G : layoutGrid alignBox c1 = layoutGrid alignBox c2).
  { unfold layoutGrid, partitionDateRange, computeCellSize.
    now rewrite Hw, Hh, Hf, Ht, Hys, Hms, Hds, Ha, Hwd, Hbp, Hd, Hg. }
  unfold computeLayout. rewrite G.
  destruct (layoutGrid alignBox c2) as [g|e]; cbn [bind]; [|reflexivity].
  rewrite (F g); [reflexivity|]. repeat split; assumption.
Qed.

Lemma layoutGrid_unknown_weekDirection cfg g :
  weekDirection cfg <> "horizontal" -> weekDirection cfg <> "vertical" ->
  layoutGrid alignBox cfg = Ok g ->
  maxRowsMonth g = NaN /\ cellSize g = NaN.
Proof.
  intros Hh Hv. apply String.eqb_neq in Hh, Hv.
  unfold layoutGrid. destruct (partitionDateRange cfg) as [r|e] eqn:P; cbn [bind];
    [|intros H; discriminate H].
  assert (M : snd r = NaN).
  { revert P. unfold partitionDateRange. rewrite Hh.
    destruct (granularity cfg =? "year").
    - destruct (yearBlocks _ _ _); cbn [bind]; [|intros H; discriminate H].
      now intros [= <-].
    - now apply monthBlocks_no_scan. }
  rewrite Hv, M, computeCellSize_NaN_rows.
  match goal with |- context [alignBox ?a ?b ?c] => destruct (alignBox a b c) end.
  intros [= <-]. split; reflexivity.
Qed.

Lemma layoutGrid_sameTests c1 c2 :
  sameTests c1 c2 -> layoutGrid alignBox c1 = layoutGrid alignBox c2.
Proof.
  intros (Hw & Hh & Hf & Ht & Hys & Hms & Hds & Ha & Hwd & Hbp & Hd & Hg).
  unfold layoutGrid, partitionDateRange, computeCellSize.
  now rewrite Hw, Hh, Hf, Ht, Hys, Hms, Hds, Ha, Hwd, Hbp, Hd, Hg.
Qed.

(** C8, amended.  No operation rejects an unrecognized value; each test of
    the code is an if/else whose else branch takes it.
    - The legend functions place every (direction, position) pair with an
      unrecognized member as they place ('vertical', 'after').
    - A direction other than 'horizontal' is laid out as 'vertical': the
      sizes, the day positions, the month boxes and the result of
      [computeLayout] are those of 'vertical'.
    - A granularity other than 'year' is laid out as 'month': the blocks,
      the sizes and the result are those of 'month'.
    - With a weekDirection that is neither 'horizontal' nor 'vertical',
      [maxRowsMonth] stays undefined, the cell size is NaN, and the days
      are placed by the functions of vertical weeks. *)
Theorem unrecognized_values_fall_through cfg years months dir pos offset :
  ((dir <> "horizontal" /\ dir <> "vertical")
   \/ (pos <> "before" /\ pos <> "after") ->
   computeYearLegendPositions years dir pos offset
   = computeYearLegendPositions years "vertical" "after" offset
   /\ computeMonthLegendPositions months dir pos offset
      = computeMonthLegendPositions months "vertical" "after" offset)
  /\ (direction cfg <> "horizontal" ->
      layoutGrid alignBox cfg = layoutGrid alignBox (withDirection cfg "vertical")
      /\ (forall g, cellPosition cfg g = cellPosition (withDirection cfg "vertical") g)
      /\ (forall g date i,
            blockMonths cfg g date i = blockMonths (withDirection cfg "vertical") g date i)
      /\ computeLayout alignBox cfg = computeLayout alignBox (withDirection cfg "vertical"))
  /\ (granularity cfg <> "year" ->
      partitionDateRange cfg = partitionDateRange (withGranularity cfg "month")
      /\ layoutGrid alignBox cfg = layoutGrid alignBox (withGranularity cfg "month")
      /\ computeLayout alignBox cfg = computeLayout alignBox (withGranularity cfg "month"))
  /\ (weekDirection cfg <> "horizontal" -> weekDirection cfg <> "vertical" ->
      (forall r, partitionDateRange cfg = Ok r -> snd r = NaN)
      /\ (forall g, layoutGrid alignBox cfg = Ok g ->
            maxRowsMonth g = NaN /\ cellSize g = NaN)
      /\ (forall g, cellPosition cfg g = cellPosition (withWeekDirection cfg "vertical") g)).
Proof.
  split; [|split; [|split]].
  - intros H. destruct (legend_else_branch dir pos H) as (A & B & C).
    unfold computeYearLegendPositions, computeMonthLegendPositions.
    rewrite A, B, C. split; reflexivity.
  - intros H. apply String.eqb_neq in H.
    assert (S : sameTests cfg (withDirection cfg "vertical")).
    { unfold sameTests, withDirection.
      cbn [width height from to yearSpacing monthSpacing daySpacing align
           weekDirection breakpoint direction granularity].
      rewrite H. repeat split. }
    split; [exact (layoutGrid_sameTests cfg _ S)|].
    split; [|split; [|exact (computeLayout_sameTests cfg _ S)]].
    + intros g. unfold cellPosition, withDirection.
      cbn [yearSpacing monthSpacing daySpacing weekDirection direction].
      rewrite H. reflexivity.
    + intros g date i. unfold blockMonths, memoMonthPathAndBBox, monthPathAndBBox, withDirection.
      cbn [yearSpacing monthSpacing daySpacing direction].
      rewrite H. reflexivity.
  - intros H. apply String.eqb_neq in H.
    assert (S : sameTests cfg (withGranularity cfg "month")).
    { unfold sameTests, withGranularity.
      cbn [width height from to yearSpacing monthSpacing daySpacing align
           weekDirection breakpoint direction granularity].
      rewrite H. repeat split. }
    split; [|split; [exact (layoutGrid_sameTests cfg _ S)
                    |exact (computeLayout_sameTests cfg _ S)]].
    unfold partitionDateRange, withGranularity.
    cbn [from to weekDirection breakpoint granularity].
    replace ("month" =? "year") with false by reflexivity.
    rewrite H. reflexivity.
  - intros Hh Hv. split; [|split].
    + intros r. now apply partition_unknown_weekDirection.
    + intros g Hg. now apply (layoutGrid_unknown_weekDirection cfg g).
    + intros g. apply String.eqb_neq in Hh. unfold cellPosition, withWeekDirection.
      cbn [yearSpacing monthSpacing daySpacing weekDirection direction].
      rewrite Hh. reflexivity.
Qed.

End Fallthrough.

Lemma unrecognized_values_fall_through_witness :
  computeYearLegendPositions [year_box_2023] "diagonal" "middle" #10
  = [YearLegend.mk year_box_2023 (Fin 0 + Fin 848 / #2) (Fin 244 + Fin 112 + #10) #0]
  /\ (exists g,
        layoutGrid alignBoxCore (year_2023 "diagonal" "vertical") = Ok g
        /\ dates g = [(newDate 2023 0 1, newDate 2024 0 1)]
        /\ same (cellSize g) (Fin (82 / 9)%Q)
        /\ same (calendarHeight g) #600
        /\ exists h,
             layoutGrid alignBoxCore (year_2023 "horizontal" "vertical") = Ok h
             /\ same (calendarWidth h) #800
             /\ ~ same (cellSize g) (cellSize h))
  /\ partitionDateRange (withGranularity march_april_2023 "week")
     = Ok ([(newDate 2023 2 1, newDate 2023 3 1); (newDate 2023 3 1, newDate 2023 4 1)], #6)
  /\ (exists g,
        layoutGrid alignBoxCore (year_2023 "horizontal" "sideways") = Ok g
        /\ dates g = [(newDate 2023 0 1, newDate 2024 0 1)]
        /\ maxRowsMonth g = NaN /\ cellSize g = NaN).
Proof.
  assert (D : "diagonal" <> "horizontal") by (intros H; discriminate H).
  assert (V : "diagonal" <> "vertical") by (intros H; discriminate H).
  assert (G : "week" <> "year") by (intros H; discriminate H).
  assert (S1 : "sideways" <> "horizontal") by (intros H; discriminate H).
  assert (S2 : "sideways" <> "vertical") by (intros H; discriminate H).
  split; [|split; [|split]].
  - destruct (unrecognized_values_fall_through alignBoxCore (year_2023 "diagonal" "sideways")
                [year_box_2023] [] "diagonal" "middle" #10) as (HL & _).
    rewrite (proj1 (HL (or_introl (conj D V)))). reflexivity.
  - destruct (unrecognized_values_fall_through alignBoxCore
                (year_2023 "diagonal" "vertical") [] [] "diagonal" "middle" #10)
      as (_ & HD & _).
    destruct (HD D) as (HG & _). rewrite HG.
    eexists. split; [vm_compute; reflexivity|].
    split; [vm_compute; reflexivity|].
    split; [vm_compute; reflexivity|].
    split; [vm_compute; reflexivity|].
    eexists. split; [vm_compute; reflexivity|].
    split; [vm_compute; reflexivity|].
    vm_compute. intros H; discriminate H.
  - destruct (unrecognized_values_fall_through alignBoxCore
                (withGranularity march_april_2023 "week") [] [] "diagonal" "middle" #10)
      as (_ & _ & HG & _).
    destruct (HG G) as (HP & _). rewrite HP. vm_compute. reflexivity.
  - destruct (unrecognized_values_fall_through alignBoxCore
                (year_2023 "horizontal" "sideways") [] [] "diagonal" "middle" #10)
      as (_ & _ & _ & HW).
    destruct (HW S1 S2) as (_ & HG & _).
    assert (E : exists g, layoutGrid alignBoxCore (year_2023 "horizontal" "sideways") = Ok g
                          /\ dates g = [(newDate 2023 0 1, newDate 2024 0 1)]).
    { eexists. split; vm_compute; reflexivity. }
    destruct E as (g & Eg & Ed). exists g.
    split; [exact Eg|]. split; [exact Ed|]. exact (HG g Eg).
Defined.

(** ** The cell size for a canvas without room *)

(** C9, as stated, fails: for the year 2023 on a canvas of width 0 (one
    block of 7 rows and 54 columns, day spacing 2) the cell size is -2; it
    is not clamped. *)
Lemma cellSize_negative_for_zero_width :
  same (computeCellSize #0 #600 "horizontal" #1 #30 #0 #2 #7 #54 #12) #(-2)
  /\ ~ le #0 (computeCellSize #0 #600 "horizontal" #1 #30 #0 #2 #7 #54 #12).
Proof. split; [vm_compute; reflexivity | vm_compute; intros H; apply H; reflexivity]. Qed.

(** C9, amended.  For a zero or negative width or height, non-negative
    spacings and at least one block, the cell size is a finite number (the
    divisors, [maxColumnsGroup] and [blocks * maxRowsMonth], do not depend
    on the canvas), it is the minimum of the two candidates without any
    clamp, hence zero or negative, and negative as soon as the day spacing
    is positive. *)
Theorem computeCellSize_not_clamped (width height blocks yearSpacing monthSpacing
  daySpacing maxRowsMonth maxColumnsGroup monthsPerGroup : Q) (dir : string) :
  width <= 0 \/ height <= 0 ->
  0 <= yearSpacing -> 0 <= monthSpacing -> 0 <= daySpacing ->
  1 <= blocks -> 0 < maxRowsMonth -> 0 < maxColumnsGroup -> 0 <= monthsPerGroup ->
  exists cellSize,
    computeCellSize (Fin width) (Fin height) dir (Fin blocks)
      (Fin yearSpacing) (Fin monthSpacing) (Fin daySpacing)
      (Fin maxRowsMonth) (Fin maxColumnsGroup) (Fin monthsPerGroup) = Fin cellSize
    /\ cellSize <= 0
    /\ (0 < daySpacing -> cellSize < 0).
Proof.
  intros Hwh Hys Hms Hds Hb Hr Hc Hg.
  assert (Hbr : 0 < (blocks * maxRowsMonth)%Q) by nra.
  unfold computeCellSize.
  destruct (dir =? "horizontal");
    cbn [JS.sub JS.mul JS.add lift2 ofZ];
    rewrite !div_pos by assumption; cbn [JS.min lift2];
    eexists; (split; [reflexivity|]).
  all: set (mg := (monthSpacing * monthsPerGroup)%Q).
  all: set (dc := (daySpacing * maxColumnsGroup)%Q).
  all: set (by_ := ((blocks - inject_Z 1) * yearSpacing)%Q).
  all: set (bd := (blocks * (maxRowsMonth * daySpacing))%Q).
  all: assert (0 <= mg) by (subst mg; nra).
  all: assert (0 <= dc) by (subst dc; nra).
  all: assert (0 <= by_) by (subst by_; unfold inject_Z; nra).
  all: assert (0 <= bd) by (subst bd; nra).
  all: assert (0 < daySpacing -> 0 < dc) by (intros; subst dc; nra).
  all: assert (0 < daySpacing -> 0 < bd) by (intros; subst bd; nra).
  all: destruct Hwh as [Hw | Hh].
  all: split; [| intros Hpos].
  1, 5: eapply Qle_trans; [apply Q.le_min_l | apply Qdiv_nonpos; [lra | assumption]].
  1, 4: eapply Qle_lt_trans; [apply Q.le_min_l | apply Qdiv_neg; [lra | assumption]].
  1, 3: eapply Qle_trans; [apply Q.le_min_r | apply Qdiv_nonpos; [lra | assumption]].
  1, 2: eapply Qle_lt_trans; [apply Q.le_min_r | apply Qdiv_neg; [lra | assumption]].
Qed.

Lemma computeCellSize_not_clamped_witness :
  (0 <= 0 \/ 600 <= 0)
  /\ exists cellSize,
       computeCellSize #0 #600 "horizontal" #1 #30 #0 #2 #7 #54 #12 = Fin cellSize
       /\ cellSize < 0.
Proof.
  split; [left; apply Qle_refl|].
  destruct (computeCellSize_not_clamped 0 600 1 30 0 2 7 54 12 "horizontal")
    as (c & Hc & _ & Hneg);
    try (apply Qle_refl); try reflexivity; try discriminate.
  - left. apply Qle_refl.
  - exists c. split; [exact Hc | apply Hneg; reflexivity].
Defined.

(** ** Legend anchors *)

Lemma reflected_outside (lo extent off : Q) :
  reflectedAlong (lo - off) (lo + extent + off) lo extent off.
Proof. unfold reflectedAlong. split; ring. Qed.

Lemma half_finite (x : Q) : Fin x / #2 = Fin (x / inject_Z 2).
Proof. reflexivity. Qed.

Lemma centred_half (lo extent : Q) : centredAlong (lo + extent / inject_Z 2) lo extent.
Proof. unfold centredAlong. field. Qed.

Lemma direction_cases (dir : string) :
  dir = "horizontal" \/ dir = "vertical"
  \/ (dir <> "horizontal" /\ dir <> "vertical").
Proof.
  destruct (String.eqb_spec dir "horizontal") as [-> | H]; [left; reflexivity|].
  destruct (String.eqb_spec dir "vertical") as [-> | V]; [right; left; reflexivity|].
  right. right. split; assumption.
Qed.

Lemma year_anchors dir off year :
  exists before after,
    computeYearLegendPositions [year] dir "before" (Fin off) = [before]
    /\ computeYearLegendPositions [year] dir "after" (Fin off) = [after]
    /\ yearAnchors dir off year before after.
Proof.
  do 2 eexists. split; [reflexivity|]. split; [reflexivity|].
  unfold yearAnchors.
  destruct (direction_cases dir) as [-> | [-> | [H V]]].
  - replace ("horizontal" =? "horizontal") with true by reflexivity.
    replace ("before" =? "before") with true by reflexivity.
    replace ("before" =? "after") with false by reflexivity.
    replace ("after" =? "before") with false by reflexivity.
    replace ("after" =? "after") with true by reflexivity.
    cbn [andb YearLegend.year YearLegend.x YearLegend.y YearLegend.rotation].
    repeat (split; [reflexivity|]).
    split; [|split; [intros E; discriminate E | intros E; contradiction E; reflexivity]].
    intros _. split; [reflexivity|]. split; [reflexivity|].
    intros bx by_ w h ->. cbn [BBox.x BBox.y BBox.width BBox.height].
    rewrite !half_finite. cbn [JS.add JS.sub lift2].
    do 3 eexists. split; [reflexivity|]. split; [reflexivity|]. split; [reflexivity|].
    split; [apply reflected_outside | apply centred_half].
  - replace ("vertical" =? "horizontal") with false by reflexivity.
    replace ("vertical" =? "vertical") with true by reflexivity.
    replace ("before" =? "before") with true by reflexivity.
    replace ("after" =? "before") with false by reflexivity.
    cbn [andb YearLegend.year YearLegend.x YearLegend.y YearLegend.rotation].
    repeat (split; [reflexivity|]).
    split; [intros E; discriminate E|].
    split; [|intros _ E; contradiction E; reflexivity].
    intros _. split; [reflexivity|]. split; [reflexivity|].
    intros bx by_ w h ->. cbn [BBox.x BBox.y BBox.width BBox.height].
    rewrite !half_finite. cbn [JS.add JS.sub lift2].
    do 3 eexists. split; [reflexivity|]. split; [reflexivity|]. split; [reflexivity|].
    split; [apply reflected_outside | apply centred_half].
  - pose proof H as H'. pose proof V as V'.
    apply String.eqb_neq in H', V'. rewrite H', V'. cbn [andb].
    cbn [YearLegend.year YearLegend.x YearLegend.y YearLegend.rotation].
    repeat (split; [reflexivity|]).
    split; [intros E; contradiction|]. split; [intros E; contradiction|].
    intros _ _. reflexivity.
Qed.

Lemma month_anchors dir off month :
  exists before after,
    computeMonthLegendPositions [month] dir "before" (Fin off) = [before]
    /\ computeMonthLegendPositions [month] dir "after" (Fin off) = [after]
    /\ monthAnchors dir off month before after.
Proof.
  do 2 eexists. split; [reflexivity|]. split; [reflexivity|].
  unfold monthAnchors.
  destruct (direction_cases dir) as [-> | [-> | [H V]]].
  - replace ("horizontal" =? "horizontal") with true by reflexivity.
    replace ("before" =? "before") with true by reflexivity.
    replace ("before" =? "after") with false by reflexivity.
    replace ("after" =? "before") with false by reflexivity.
    replace ("after" =? "after") with true by reflexivity.
    cbn [andb MonthLegend.month MonthLegend.x MonthLegend.y MonthLegend.rotation].
    repeat (split; [reflexivity|]).
    split; [|split; [intros E; discriminate E | intros E; contradiction E; reflexivity]].
    intros _. split; [reflexivity|]. split; [reflexivity|].
    intros bx by_ w h ->. cbn [BBox.x BBox.y BBox.width BBox.height].
    rewrite !half_finite. cbn [JS.add JS.sub lift2].
    do 3 eexists. split; [reflexivity|]. split; [reflexivity|]. split; [reflexivity|].
    split; [apply reflected_outside | apply centred_half].
  - replace ("vertical" =? "horizontal") with false by reflexivity.
    replace ("vertical" =? "vertical") with true by reflexivity.
    replace ("before" =? "before") with true by reflexivity.
    replace ("after" =? "before") with false by reflexivity.
    cbn [andb MonthLegend.month MonthLegend.x MonthLegend.y MonthLegend.rotation].
    repeat (split; [reflexivity|]).
    split; [intros E; discriminate E|].
    split; [|intros _ E; contradiction E; reflexivity].
    intros _. split; [reflexivity|]. split; [reflexivity|].
    intros bx by_ w h ->. cbn [BBox.x BBox.y BBox.width BBox.height].
    rewrite !half_finite. cbn [JS.add JS.sub lift2].
    do 3 eexists. split; [reflexivity|]. split; [reflexivity|]. split; [reflexivity|].
    split; [apply reflected_outside | apply centred_half].
  - pose proof H as H'. pose proof V as V'.
    apply String.eqb_neq in H', V'. rewrite H', V'. cbn [andb].
    cbn [MonthLegend.month MonthLegend.x MonthLegend.y MonthLegend.rotation].
    repeat (split; [reflexivity|]).
    split; [intros E; contradiction|]. split; [intros E; contradiction|].
    intros _ _. reflexivity.
Qed.

Lemma year_anchors_nth dir pos offset years i :
  nth_error (computeYearLegendPositions years dir pos offset) i
  = match nth_error years i with
    | Some year => nth_error (computeYearLegendPositions [year] dir pos offset) 0
    | None => None
    end.
Proof.
  unfold computeYearLegendPositions. rewrite nth_error_map.
  destruct (nth_error years i); reflexivity.
Qed.

Lemma month_anchors_nth dir pos offset months i :
  nth_error (computeMonthLegendPositions months dir pos offset) i
  = match nth_error months i with
    | Some month => nth_error (computeMonthLegendPositions [month] dir pos offset) 0
    | None => None
    end.
Proof.
  unfold computeMonthLegendPositions. rewrite nth_error_map.
  destruct (nth_error months i); reflexivity.
Qed.

(** C10, amended.  Both legend functions return one anchor per descriptor,
    in the order of the input.  For direction 'horizontal' or 'vertical'
    the 'before' and the 'after' anchor of a descriptor carry that
    descriptor and the same rotation (-90 where the offset runs along x, 0
    where it runs along y), have the same coordinate across the offset axis
    (the middle of the box) and, for a finite box and offset and in exact
    arithmetic, mirror each other along it: they lie [2 * offset + extent]
    apart, the one [offset] before the box and the other [offset] after it
    (the x axis and the width for a year in a horizontal calendar and a
    month in a vertical one, the y axis and the height otherwise).  For any
    other direction the two anchors are the same. *)
Theorem legend_anchor_symmetry dir off years months :
  List.length (computeYearLegendPositions years dir "before" (Fin off)) = List.length years
  /\ List.length (computeYearLegendPositions years dir "after" (Fin off)) = List.length years
  /\ (forall i year, nth_error years i = Some year ->
        exists before after,
          nth_error (computeYearLegendPositions years dir "before" (Fin off)) i = Some before
          /\ nth_error (computeYearLegendPositions years dir "after" (Fin off)) i = Some after
          /\ yearAnchors dir off year before after)
  /\ List.length (computeMonthLegendPositions months dir "before" (Fin off))
     = List.length months
  /\ List.length (computeMonthLegendPositions months dir "after" (Fin off))
     = List.length months
  /\ (forall i month, nth_error months i = Some month ->
        exists before after,
          nth_error (computeMonthLegendPositions months dir "before" (Fin off)) i
          = Some before
          /\ nth_error (computeMonthLegendPositions months dir "after" (Fin off)) i
             = Some after
          /\ monthAnchors dir off month before after).
Proof.
  split; [apply length_map|]. split; [apply length_map|].
  split; [|split; [apply length_map|split; [apply length_map|]]].
  - intros i year Hi.
    destruct (year_anchors dir off year) as (before & after & Hb & Ha & H).
    exists before, after. rewrite !year_anchors_nth, Hi, Hb, Ha.
    split; [reflexivity|]. split; [reflexivity | exact H].
  - intros i month Hi.
    destruct (month_anchors dir off month) as (before & after & Hb & Ha & H).
    exists before, after. rewrite !month_anchors_nth, Hi, Hb, Ha.
    split; [reflexivity|]. split; [reflexivity | exact H].
Qed.

Lemma legend_anchor_symmetry_witness :
  exists before after xb xa y mb ma yb ya,
    nth_error (computeYearLegendPositions [year_box_2023] "horizontal" "before" (Fin 10)) 0
    = Some before
    /\ nth_error (computeYearLegendPositions [year_box_2023] "horizontal" "after" (Fin 10)) 0
       = Some after
    /\ YearLegend.year before = year_box_2023
    /\ YearLegend.rotation before = #(-90)
    /\ YearLegend.y after = YearLegend.y before
    /\ YearLegend.x before = Fin xb /\ YearLegend.x after = Fin xa
    /\ YearLegend.y before = Fin y
    /\ (xa - xb == 2 * 10 + 848)%Q /\ (xb == 0 - 10)%Q /\ (y == 300)%Q
    /\ nth_error (computeMonthLegendPositions [month_box_2023] "horizontal" "before" (Fin 10)) 0
       = Some mb
    /\ nth_error (computeMonthLegendPositions [month_box_2023] "horizontal" "after" (Fin 10)) 0
       = Some ma
    /\ MonthLegend.y mb = Fin yb /\ MonthLegend.y ma = Fin ya
    /\ (ya - yb == 2 * 10 + 112)%Q.
Proof.
  destruct (legend_anchor_symmetry "horizontal" 10 [year_box_2023] [month_box_2023])
    as (_ & _ & HY & _ & _ & HM).
  destruct (HY 0%nat year_box_2023 eq_refl)
    as (before & after & Hb & Ha & Hyb & _ & _ & Hh & _).
  destruct (Hh eq_refl) as (Hrot & Hy & Hx).
  destruct (Hx 0 244 848 112 eq_refl) as (xb & xa & y & Exb & Exa & Ey & (R1 & R2) & C).
  destruct (HM 0%nat month_box_2023 eq_refl)
    as (mb & ma & Hmb & Hma & _ & _ & _ & Hmh & _).
  destruct (Hmh eq_refl) as (_ & _ & Hmy).
  destruct (Hmy 0 244 80 112 eq_refl) as (yb & ya & xm & Eyb & Eya & _ & (S1 & _) & _).
  unfold centredAlong in C.
  exists before, after, xb, xa, y, mb, ma, yb, ya.
  repeat (split; [assumption|]).
  split; [lra|]. split; [lra|].
  repeat (split; [assumption|]). exact S1.
Defined.

(** C10, as stated, fails for a direction that is no keyword: both
    positions take the else branch, the two anchors are the same, and their
    distance is 0, not [2 * offset + extent]. *)
Lemma anchors_coincide_for_unknown_direction :
  computeYearLegendPositions [year_box_2023] "diagonal" "before" (Fin 10)
  = [YearLegend.mk year_box_2023 (Fin 0 + Fin 848 / #2) (Fin 244 + Fin 112 + Fin 10) #0]
  /\ computeYearLegendPositions [year_box_2023] "diagonal" "after" (Fin 10)
     = [YearLegend.mk year_box_2023 (Fin 0 + Fin 848 / #2) (Fin 244 + Fin 112 + Fin 10) #0]
  /\ same (Fin 244 + Fin 112 + Fin 10 - (Fin 244 + Fin 112 + Fin 10)) #0
  /\ ~ same (Fin 244 + Fin 112 + Fin 10 - (Fin 244 + Fin 112 + Fin 10))
         (#2 * Fin 10 + Fin 112).
Proof.
  split; [reflexivity|]. split; [reflexivity|].
  split; [vm_compute; reflexivity|].
  vm_compute. intros H; discriminate H.
Qed.

(** * Further properties *)

(** ** The calendar, day by day

    [civil] inverts [MakeDay] on every day number, by the arithmetic of the
    two algorithms. *)

Section Days.

Local Open Scope Z_scope.

Lemma all_from_spec f n : forall a r,
  all_from f n a = true -> a <= r < a + Z.of_nat n -> f r = true.
Proof.
  induction n as [|n IH]; intros a r H Hr; [lia|].
  cbn [all_from] in H. apply andb_prop in H as [H0 H1].
  destruct (Z.eq_dec r a) as [->|Hne]; [exact H0|].
  apply (IH (a + 1)); [exact H1 | lia].
Qed.

Lemma MakeDay_date (y m d : Z) : MakeDay y m d = MakeDay y m 1 + d - 1.
Proof. unfold MakeDay. lia. Qed.

(** The year of the era: the year whose days hold day [doe]. *)
Lemma year_of_era (doe : Z) :
  0 <= doe <= 146096 ->
  let yoe := (doe - doe / 1460 + doe / 36524 - doe / 146096) / 365 in
  0 <= yoe <= 399
  /\ 365 * yoe + yoe / 4 - yoe / 100 <= doe
  /\ doe < (if yoe =? 399 then 146097
             else 365 * (yoe + 1) + (yoe + 1) / 4 - (yoe + 1) / 100).
Proof.
  intros H yoe. subst yoe. repeat split; try (Z.div_mod_to_equations; lia).
  match goal with |- context [?a =? 399] => destruct (a =? 399) eqn:K end;
    [lia | apply Z.eqb_neq in K; Z.div_mod_to_equations; lia].
Qed.

(** The month and day of a day of the year that starts in March. *)
Lemma month_of_year (doy : Z) :
  0 <= doy <= 365 ->
  let mp := (5 * doy + 2) / 153 in
  0 <= mp <= 11
  /\ 1 <= doy - (153 * mp + 2) / 5 + 1 <= 31
  /\ doy < (153 * (mp + 1) + 2) / 5.
Proof. intros H mp. subst mp. repeat split; Z.div_mod_to_equations; lia. Qed.

Lemma MakeDay_of_civil (era yoe mp d : Z) :
  0 <= yoe <= 399 -> 0 <= mp <= 11 ->
  MakeDay (if (if mp <? 10 then mp + 2 else mp - 10) <? 2
           then yoe + era * 400 + 1 else yoe + era * 400)
          (if mp <? 10 then mp + 2 else mp - 10) d
  = era * 146097 + (365 * yoe + yoe / 4 - yoe / 100) + (153 * mp + 2) / 5 - 719468 + d - 1.
Proof.
  intros Hy Hm. unfold MakeDay.
  destruct (mp <? 10) eqn:E; [apply Z.ltb_lt in E | apply Z.ltb_ge in E].
  - replace (mp + 2 <? 2) with false by (symmetry; apply Z.ltb_ge; lia).
    replace ((mp + 2) / 12) with 0 by (symmetry; apply Z.div_small; lia).
    replace ((mp + 2) mod 12) with (mp + 2) by (symmetry; apply Z.mod_small; lia).
    replace (mp + 2 <? 2) with false by (symmetry; apply Z.ltb_ge; lia).
    replace (yoe + era * 400 + 0) with (yoe + era * 400) by lia.
    rewrite Z.div_add, Z.mod_add by lia.
    rewrite (Z.div_small yoe 400), (Z.mod_small yoe 400) by lia.
    replace ((mp + 2 + 10) mod 12) with mp
      by (replace (mp + 2 + 10) with (mp + 1 * 12) by lia;
          rewrite Z.mod_add by lia; symmetry; apply Z.mod_small; lia).
    lia.
  - replace (mp - 10 <? 2) with true by (symmetry; apply Z.ltb_lt; lia).
    replace ((mp - 10) / 12) with 0 by (symmetry; apply Z.div_small; lia).
    replace ((mp - 10) mod 12) with (mp - 10) by (symmetry; apply Z.mod_small; lia).
    replace (mp - 10 <? 2) with true by (symmetry; apply Z.ltb_lt; lia).
    replace (yoe + era * 400 + 1 + 0 - 1) with (yoe + era * 400) by lia.
    rewrite Z.div_add, Z.mod_add by lia.
    rewrite (Z.div_small yoe 400), (Z.mod_small yoe 400) by lia.
    replace (mp - 10 + 10) with mp by lia.
    rewrite (Z.mod_small mp 12) by lia. lia.
Qed.

(** The first day of the month after. *)
Lemma MakeDay_of_next_month (era yoe mp : Z) :
  0 <= yoe <= 399 -> 0 <= mp <= 11 ->
  MakeDay (if (if mp <? 10 then mp + 2 else mp - 10) <? 2
           then yoe + era * 400 + 1 else yoe + era * 400)
          ((if mp <? 10 then mp + 2 else mp - 10) + 1) 1
  = if mp <? 11
    then era * 146097 + (365 * yoe + yoe / 4 - yoe / 100) + (153 * (mp + 1) + 2) / 5 - 719468
    else era * 146097
         + (if yoe =? 399 then 146097
            else 365 * (yoe + 1) + (yoe + 1) / 4 - (yoe + 1) / 100) - 719468.
Proof.
  intros Hy Hm.
  assert (C : mp <= 8 \/ mp = 9 \/ mp = 10 \/ mp = 11) by lia.
  destruct C as [C | [-> | [-> | ->]]].
  - replace (mp <? 10) with true by (symmetry; apply Z.ltb_lt; lia).
    replace (mp <? 11) with true by (symmetry; apply Z.ltb_lt; lia).
    replace (mp + 2 + 1) with (if mp + 1 <? 10 then mp + 1 + 2 else mp + 1 - 10)
      by (replace (mp + 1 <? 10) with true by (symmetry; apply Z.ltb_lt; lia); lia).
    replace (mp + 2 <? 2) with ((if mp + 1 <? 10 then mp + 1 + 2 else mp + 1 - 10) <? 2).
    + rewrite (MakeDay_of_civil era yoe (mp + 1) 1) by lia. lia.
    + replace (mp + 1 <? 10) with true by (symmetry; apply Z.ltb_lt; lia).
      replace (mp + 2 <? 2) with false by (symmetry; apply Z.ltb_ge; lia).
      apply Z.ltb_ge. lia.
  - (* December: the next month is January of the next civil year *)
    cbn [Z.ltb Z.compare Pos.compare Pos.compare_cont Z.add Pos.add Z.sub Z.opp Z.pos_sub
         Pos.succ Pos.pred_double Z.double Z.succ_double Z.pred_double].
    unfold MakeDay.
    replace (12 / 12) with 1 by reflexivity. replace (12 mod 12) with 0 by reflexivity.
    replace (0 <? 2) with true by reflexivity.
    replace (yoe + era * 400 + 1 - 1) with (yoe + era * 400) by lia.
    rewrite Z.div_add, Z.mod_add by lia.
    rewrite (Z.div_small yoe 400), (Z.mod_small yoe 400) by lia.
    replace ((0 + 10) mod 12) with 10 by reflexivity.
    replace ((153 * 10 + 2) / 5) with 306 by reflexivity.
    replace ((153 * (9 + 1) + 2) / 5) with 306 by reflexivity. lia.
  - (* January: the next month is February *)
    cbn [Z.ltb Z.compare Pos.compare Pos.compare_cont Z.add Pos.add Z.sub Z.opp Z.pos_sub
         Pos.succ Pos.pred_double Z.double Z.succ_double Z.pred_double].
    unfold MakeDay.
    replace (1 / 12) with 0 by reflexivity. replace (1 mod 12) with 1 by reflexivity.
    replace (1 <? 2) with true by reflexivity.
    replace (yoe + era * 400 + 1 + 0 - 1) with (yoe + era * 400) by lia.
    rewrite Z.div_add, Z.mod_add by lia.
    rewrite (Z.div_small yoe 400), (Z.mod_small yoe 400) by lia.
    replace ((1 + 10) mod 12) with 11 by reflexivity.
    replace ((153 * 11 + 2) / 5) with 337 by reflexivity.
    replace ((153 * (10 + 1) + 2) / 5) with 337 by reflexivity. lia.
  - (* February: the next month is March, where the year of the era changes *)
    cbn [Z.ltb Z.compare Pos.compare Pos.compare_cont Z.add Pos.add Z.sub Z.opp Z.pos_sub
         Pos.succ Pos.pred_double Z.double Z.succ_double Z.pred_double].
    unfold MakeDay.
    replace (2 / 12) with 0 by reflexivity. replace (2 mod 12) with 2 by reflexivity.
    replace (2 <? 2) with false by reflexivity.
    replace ((2 + 10) mod 12) with 0 by reflexivity.
    replace ((153 * 0 + 2) / 5) with 0 by reflexivity.
    replace (yoe + era * 400 + 1 + 0) with (yoe + 1 + era * 400) by lia.
    rewrite Z.div_add, Z.mod_add by lia.
    destruct (Z.eq_dec yoe 399) as [->|N].
    + replace ((399 + 1) / 400) with 1 by reflexivity.
      replace ((399 + 1) mod 400) with 0 by reflexivity.
      replace (0 / 4) with 0 by reflexivity. replace (0 / 100) with 0 by reflexivity.
      replace (399 =? 399) with true by reflexivity. lia.
    + replace (yoe =? 399) with false by (symmetry; apply Z.eqb_neq; exact N).
      rewrite (Z.div_small (yoe + 1) 400), (Z.mod_small (yoe + 1) 400) by lia. lia.
Qed.

(** The civil date of every day: it converts back to the day, its month and
    day of month are in range, and the next month starts after the day. *)
Lemma civil_spec (n : Z) :
  let '(y, m, d) := civil n in
  MakeDay y m d = n /\ 0 <= m < 12 /\ 1 <= d <= 31 /\ n < MakeDay y (m + 1) 1.
Proof.
  unfold civil.
  pose proof (Z.div_mod (n + 719468) 146097 ltac:(discriminate)) as E.
  pose proof (Z.mod_pos_bound (n + 719468) 146097 ltac:(reflexivity)) as B.
  set (era := (n + 719468) / 146097) in *. set (doe := (n + 719468) mod 146097) in *.
  destruct (year_of_era doe ltac:(lia)) as (Y1 & Y2 & Y3).
  set (yoe := (doe - doe / 1460 + doe / 36524 - doe / 146096) / 365) in *.
  set (doy := doe - (365 * yoe + yoe / 4 - yoe / 100)).
  assert (Hdoy : 0 <= doy <= 365).
  { subst doy. split; [lia|].
    destruct (yoe =? 399) eqn:K; [apply Z.eqb_eq in K | apply Z.eqb_neq in K].
    - rewrite K in *. replace (399 / 4) with 99 by reflexivity.
      replace (399 / 100) with 3 by reflexivity. lia.
    - Z.div_mod_to_equations. lia. }
  destruct (month_of_year doy Hdoy) as (M1 & M2 & M3).
  set (mp := (5 * doy + 2) / 153) in *.
  cbv zeta.
  rewrite (MakeDay_of_civil era yoe mp _ Y1 M1).
  rewrite (MakeDay_of_next_month era yoe mp Y1 M1).
  split; [subst doy; lia|]. split; [destruct (mp <? 10) eqn:K;
    [apply Z.ltb_lt in K | apply Z.ltb_ge in K]; lia|].
  split; [exact M2|].
  destruct (mp <? 11) eqn:K; [apply Z.ltb_lt in K | apply Z.ltb_ge in K].
  - subst doy. lia.
  - subst doy. destruct (yoe =? 399); lia.
Qed.

Lemma Day_bounds (t : Date) : Day t * msPerDay <= t < (Day t + 1) * msPerDay.
Proof.
  unfold Day. pose proof (Z.div_mod t msPerDay ltac:(discriminate)).
  pose proof (Z.mod_pos_bound t msPerDay ltac:(reflexivity)). lia.
Qed.

Lemma civil_Day (t : Date) :
  civil (Day t) = (getFullYear t, getMonth t, getDate t).
Proof.
  unfold getFullYear, getMonth, getDate, getUTCFullYear, getUTCMonth, getUTCDate.
  destruct (civil (Day t)) as [[y m] d]. reflexivity.
Qed.

(** Every time lies in the month its accessors name. *)
Lemma monthIndex_spec (t : Date) :
  monthStart (monthIndex t) <= t < monthStart (monthIndex t + 1).
Proof.
  pose proof (civil_spec (Day t)) as H. rewrite civil_Day in H.
  destruct H as (H1 & H2 & H3 & H4).
  unfold monthStart, monthIndex.
  rewrite (MakeDay_normal (getFullYear t) (getMonth t + 1)) in H4.
  rewrite MakeDay_date, MakeDay_normal in H1.
  replace (12 * getFullYear t + (getMonth t + 1)) with (12 * getFullYear t + getMonth t + 1)
    in H4 by lia.
  pose proof (Day_bounds t) as B. unfold msPerDay in *. lia.
Qed.

Lemma monthStart_le (j k : Z) : j <= k -> monthStart j <= monthStart k.
Proof.
  intros H. destruct (Z.eq_dec j k) as [->|N]; [lia|].
  pose proof (monthStart_lt j k ltac:(lia)). unfold msPerDay in *. lia.
Qed.

Lemma monthIndex_unique (t : Date) (k : Z) :
  monthStart k <= t < monthStart (k + 1) -> monthIndex t = k.
Proof.
  intros H. pose proof (monthIndex_spec t) as S.
  destruct (Z.lt_trichotomy (monthIndex t) k) as [L | [E | G]]; [|exact E|].
  - pose proof (monthStart_le (monthIndex t + 1) k ltac:(lia)). lia.
  - pose proof (monthStart_le (k + 1) (monthIndex t) ltac:(lia)). lia.
Qed.

Lemma monthIndex_mono (s t : Date) : s <= t -> monthIndex s <= monthIndex t.
Proof.
  intros H. pose proof (monthIndex_spec s) as Ss. pose proof (monthIndex_spec t) as St.
  destruct (Z_le_gt_dec (monthIndex s) (monthIndex t)) as [L|G]; [exact L|].
  pose proof (monthStart_le (monthIndex t + 1) (monthIndex s) ltac:(lia)). lia.
Qed.

Lemma getMonth_range (t : Date) : 0 <= getMonth t < 12.
Proof. pose proof (civil_spec (Day t)) as H. rewrite civil_Day in H. lia. Qed.

Lemma getDate_range (t : Date) : 1 <= getDate t <= 31.
Proof. pose proof (civil_spec (Day t)) as H. rewrite civil_Day in H. lia. Qed.

(** The day number of a time is the first day of its month plus its day of
    month. *)
Lemma Day_of_date (t : Date) :
  Day t = Day (monthStart (monthIndex t)) + getDate t - 1.
Proof.
  pose proof (civil_spec (Day t)) as H. rewrite civil_Day in H.
  destruct H as (H1 & _). unfold monthStart, monthIndex. rewrite Day_midnight.
  rewrite MakeDay_date, MakeDay_normal in H1. lia.
Qed.

(** [ceilMonth]: the first month starting at [t] or later. *)
Lemma ceilMonth_spec (t : Date) (k : Z) : ceilMonth t <= k <-> t <= monthStart k.
Proof.
  pose proof (monthIndex_spec t) as S. unfold ceilMonth.
  destruct (monthStart (monthIndex t) =? t) eqn:E.
  - apply Z.eqb_eq in E. split; intros H.
    + pose proof (monthStart_le (monthIndex t) k H). lia.
    + destruct (Z_le_gt_dec (monthIndex t) k) as [L|G]; [exact L|].
      pose proof (monthStart_lt k (monthIndex t) ltac:(lia)). unfold msPerDay in *. lia.
  - apply Z.eqb_neq in E. split; intros H.
    + pose proof (monthStart_le (monthIndex t + 1) k H). lia.
    + destruct (Z_le_gt_dec (monthIndex t + 1) k) as [L|G]; [exact L|].
      pose proof (monthStart_le k (monthIndex t) ltac:(lia)). lia.
Qed.

End Days.

(** ** What computeLayout returns *)

Lemma cdiv_le (a n : Z) : (a <= n * msPerDay)%Z -> (cdiv a msPerDay <= n)%Z.
Proof.
  intros H. unfold cdiv.
  assert ((- n) <= (- a) / msPerDay)%Z; [|lia].
  apply Z.div_le_lower_bound; [reflexivity|]. lia.
Qed.

Lemma cdiv_gt (b n : Z) : (n * msPerDay < b)%Z -> (n < cdiv b msPerDay)%Z.
Proof.
  intros H. unfold cdiv.
  assert ((- b) / msPerDay < - n)%Z; [|lia].
  apply Z.div_lt_upper_bound; [reflexivity|]. lia.
Qed.

Lemma timeDays_holds (start stop : Date) (n : Z) :
  (start <= n * msPerDay < stop)%Z -> In (n * msPerDay)%Z (timeDays start stop).
Proof.
  intros [H1 H2]. unfold timeDays. apply in_map_iff. exists n. split; [reflexivity|].
  apply in_zrange. split; [now apply cdiv_le | now apply cdiv_gt].
Qed.

Lemma month_between (start stop : Date) :
  (ceilMonth start < ceilMonth stop)%Z -> exists k, (start <= monthStart k < stop)%Z.
Proof.
  intros L. exists (ceilMonth start). split.
  - apply ceilMonth_spec. lia.
  - destruct (Z_lt_le_dec (monthStart (ceilMonth start)) stop) as [B|B]; [exact B|].
    apply ceilMonth_spec in B. lia.
Qed.

Lemma timeMonths_nil (start stop : Date) :
  (ceilMonth stop <= ceilMonth start)%Z -> timeMonths start stop = [].
Proof. intros G. unfold timeMonths. rewrite zrange_nil by exact G. reflexivity. Qed.

Lemma timeMonths_some (start stop : Date) :
  timeMonths start stop <> [] -> (ceilMonth start < ceilMonth stop)%Z.
Proof.
  intros H.
  destruct (Z_lt_le_dec (ceilMonth start) (ceilMonth stop)) as [L|G]; [exact L|].
  exfalso. apply H. now apply timeMonths_nil.
Qed.

Lemma timeMonths_holds_day (start stop : Date) :
  timeMonths start stop <> [] -> timeDays start stop <> [].
Proof.
  intros H. apply timeMonths_some in H. destruct (month_between start stop H) as [k Hk].
  unfold monthStart in Hk.
  pose proof (timeDays_holds start stop (MakeDay 0 k 1) Hk) as D.
  intros E. rewrite E in D. exact D.
Qed.

Lemma blockMonths_nil cfg g date i :
  timeMonths (fst date) (snd date) = [] -> blockMonths cfg g date i = [].
Proof. intros H. unfold blockMonths. rewrite H. reflexivity. Qed.

(** A turn of the block loop always throws: at the first day when the block
    holds one, and otherwise at the missing month of index 0. *)
Lemma forEachBlock_turn_throws cfg g i date rest years months days :
  exists p, forEachBlock cfg g i (date :: rest) years months days = Err (TypeError p).
Proof.
  rewrite forEachBlock_cons.
  destruct (blockDays_cases cfg g date i) as [[_ ->] | [E ->]]; cbn [bind].
  - eexists; reflexivity.
  - assert (M : timeMonths (fst date) (snd date) = []).
    { destruct (timeMonths (fst date) (snd date)) eqn:T; [reflexivity|].
      exfalso. apply (timeMonths_holds_day (fst date) (snd date)); [|exact E].
      rewrite T. discriminate. }
    rewrite (blockMonths_nil cfg g date i M). eexists; reflexivity.
Qed.

Section Empty.

Variable alignBox : BBox.t -> BBox.t -> string -> number * number.

(** X2.  Whatever the configuration, a layout that [computeLayout] returns
    is empty: it has no year, no month and no day, and the range was split
    into no block.  (A turn of the block loop always throws: at the first
    day, or, for a block without a day, at the year descriptor.) *)
Theorem computeLayout_returns_only_empty_layouts cfg l :
  computeLayout alignBox cfg = Ok l ->
  Layout.years l = [] /\ Layout.months l = [] /\ Layout.days l = []
  /\ exists m, partitionDateRange cfg = Ok ([], m).
Proof.
  unfold computeLayout.
  destruct (layoutGrid alignBox cfg) as [g|e] eqn:Hg; cbn [bind]; [|intros H; discriminate H].
  destruct (layoutGrid_dates alignBox cfg g Hg) as [m Hp].
  destruct (dates g) as [|date rest] eqn:Hd.
  - cbn [forEachBlock bind]. intros [= <-].
    cbn [Layout.years Layout.months Layout.days]. repeat split. exists m. exact Hp.
  - destruct (forEachBlock_turn_throws cfg g 0 date rest [] [] []) as [p ->].
    cbn [bind]. intros H; discriminate H.
Qed.

End Empty.

Lemma computeLayout_returns_only_empty_layouts_witness :
  exists l, computeLayout alignBoxCore empty_range = Ok l
            /\ Layout.years l = [] /\ Layout.months l = [] /\ Layout.days l = [].
Proof.
  assert (E : computeLayout alignBoxCore empty_range
              = Ok (Layout.mk [] [] [] NaN NaN NaN NaN NaN))
    by (vm_compute; reflexivity).
  eexists. split; [exact E|].
  destruct (computeLayout_returns_only_empty_layouts alignBoxCore empty_range _ E)
    as (A & B & C & _).
  repeat split; assumption.
Defined.

(** ** The blocks of month granularity *)

Lemma zrange_shift (a b c : Z) :
  zrange (a + c) (b + c) = map (fun x => (x + c)%Z) (zrange a b).
Proof.
  unfold zrange. replace (b + c - (a + c))%Z with (b - a)%Z by lia.
  rewrite map_map. apply map_ext. intros i. lia.
Qed.

Lemma seq_add_map (n s : nat) : seq s n = map (fun i => (s + i)%nat) (seq 0 n).
Proof.
  revert s. induction n as [|n IH]; intros s; [reflexivity|].
  cbn [seq map]. f_equal; [lia|].
  rewrite (IH (S s)), (IH 1%nat), map_map. apply map_ext. intros i. lia.
Qed.

Lemma zrange_app (a b c : Z) : (a <= b <= c)%Z -> (zrange a b ++ zrange b c)%list = zrange a c.
Proof.
  intros [H1 H2]. unfold zrange.
  replace (Z.to_nat (c - a)) with (Z.to_nat (b - a) + Z.to_nat (c - b))%nat by lia.
  rewrite seq_app, map_app. f_equal. cbn [Nat.add].
  rewrite (seq_add_map (Z.to_nat (c - b)) (Z.to_nat (b - a))), map_map.
  apply map_ext. intros i. lia.
Qed.











(** ** The blocks of year granularity *)

Lemma firstn_seq' (n : nat) : forall s len, firstn n (seq s len) = seq s (Nat.min n len).
Proof.
  induction n as [|n IH]; intros s len; [reflexivity|].
  destruct len as [|len]; [reflexivity|]. cbn [seq firstn Nat.min]. now rewrite IH.
Qed.

Lemma firstn_zrange (n : nat) (a b : Z) :
  firstn n (zrange a b) = zrange a (Z.min (a + Z.of_nat n) b).
Proof.
  unfold zrange. rewrite firstn_map, firstn_seq'. f_equal. f_equal. lia.
Qed.

Lemma skipn_zrange (n : nat) (a b : Z) :
  (a <= b)%Z ->
  skipn n (zrange a b) = zrange (Z.min (a + Z.of_nat n) b) b.
Proof.
  intros Hab. unfold zrange. rewrite skipn_map, skipn_seq.
  rewrite (seq_add_map _ (0 + n)), map_map.
  replace (Z.to_nat (b - Z.min (a + Z.of_nat n) b)) with (Z.to_nat (b - a) - n)%nat by lia.
  destruct (Nat.le_gt_cases (Z.to_nat (b - a)) n) as [L|L].
  - replace (Z.to_nat (b - a) - n)%nat with 0%nat by lia. reflexivity.
  - apply map_ext. intros i. lia.
Qed.

Lemma last_zrange (a b d : Z) : (a < b)%Z -> last (zrange a b) d = (b - 1)%Z.
Proof.
  intros H. replace (zrange a b) with (zrange a (b - 1)%Z ++ [(b - 1)%Z])%list.
  - apply last_last.
  - rewrite <- (zrange_app a (b - 1)%Z b) by lia. f_equal.
    rewrite zrange_cons by lia. rewrite zrange_nil by lia. reflexivity.
Qed.

Lemma cdiv_nonpos (x bp : Z) : (1 <= bp)%Z -> (x <= 0)%Z -> (cdiv x bp <= 0)%Z.
Proof.
  intros Hbp Hx. unfold cdiv.
  assert (0 <= - x / bp)%Z by (apply Z.div_pos; lia). lia.
Qed.

Lemma cdiv_small (x bp : Z) : (0 < x <= bp)%Z -> cdiv x bp = 1%Z.
Proof.
  intros H. unfold cdiv.
  assert (- x / bp = -1)%Z; [|lia].
  symmetry. apply (Z.div_unique_pos (- x) bp (-1) (bp - x)); lia.
Qed.

Lemma cdiv_step (x bp : Z) : (1 <= bp)%Z -> cdiv x bp = (1 + cdiv (x - bp) bp)%Z.
Proof.
  intros H. unfold cdiv.
  replace (- (x - bp))%Z with (- x + 1 * bp)%Z by lia.
  rewrite Z.div_add by lia. lia.
Qed.

Lemma yearChain_nil (a b bp : Z) : (1 <= bp)%Z -> (b <= a)%Z -> yearChain a b bp = [].
Proof.
  intros Hbp H. unfold yearChain. rewrite zrange_nil; [reflexivity|].
  apply cdiv_nonpos; lia.
Qed.

Lemma yearChain_cons (a b bp : Z) :
  (1 <= bp)%Z -> (a < b)%Z ->
  yearChain a b bp
  = (newDate a 0 1, newDate (Z.min (a + bp) b) 0 1) :: yearChain (Z.min (a + bp) b) b bp.
Proof.
  intros Hbp Hab. destruct (Z.le_gt_cases b (a + bp)) as [L|L].
  - rewrite (Z.min_r (a + bp) b) by lia. rewrite (yearChain_nil b b) by lia.
    unfold yearChain. rewrite cdiv_small by lia.
    rewrite zrange_cons by lia. rewrite zrange_nil by lia. cbn [map].
    f_equal. f_equal; f_equal; lia.
  - rewrite (Z.min_l (a + bp) b) by lia. unfold yearChain.
    rewrite (cdiv_step (b - a) bp) by lia.
    replace (b - (a + bp))%Z with (b - a - bp)%Z by lia.
    assert (0 <= cdiv (b - a - bp) bp)%Z.
    { unfold cdiv. assert (- (b - a - bp) / bp < 0)%Z; [|lia].
      apply Z.div_lt_upper_bound; lia. }
    rewrite (zrange_cons 0) by lia. cbn [map].
    f_equal; [f_equal; f_equal; lia|].
    replace (1 + cdiv (b - a - bp) bp)%Z with (cdiv (b - a - bp) bp + 1)%Z by lia.
    rewrite (zrange_shift 0 _ 1), map_map. apply map_ext. intros j.
    f_equal; f_equal; lia.
Qed.

Lemma yearBlocks_zrange fuel : forall bp a b,
  (1 <= bp)%Z -> (Z.to_nat (b - a) <= fuel)%nat ->
  yearBlocks fuel bp (zrange a b) = Ok (yearChain a b bp).
Proof.
  induction fuel as [|fuel IH]; intros bp a b Hbp Hf.
  - rewrite zrange_nil by lia. rewrite yearChain_nil by lia. reflexivity.
  - destruct (Z.le_gt_cases b a) as [L|L].
    + rewrite zrange_nil by lia. rewrite yearChain_nil by lia. reflexivity.
    + pose proof (firstn_zrange (Z.to_nat bp) a b) as F.
      pose proof (skipn_zrange (Z.to_nat bp) a b ltac:(lia)) as S.
      replace (a + Z.of_nat (Z.to_nat bp))%Z with (a + bp)%Z in F, S by lia.
      set (c := Z.min (a + bp) b) in *.
      assert (Hc : (a < c <= b)%Z) by (subst c; lia).
      pose proof (last_zrange a c 0 ltac:(lia)) as La.
      rewrite (zrange_cons a c) in F, La by lia.
      rewrite (yearChain_cons a b bp Hbp L). fold c.
      specialize (IH bp c b Hbp ltac:(lia)).
      revert F S La. generalize (zrange a b) as l. intros l F S La.
      destruct l as [|y l]; [destruct (Z.to_nat bp); discriminate F|].
      cbn [yearBlocks]. rewrite F, S, IH. cbn [bind].
      rewrite La. replace (c - 1 + 1)%Z with c by lia. reflexivity.
Qed.


Lemma partition_year_blocks cfg :
  granularity cfg = "year" ->
  (1 <= breakpoint cfg)%Z ->
  (getUTCFullYear (from cfg) <= getUTCFullYear (to cfg))%Z ->
  partitionDateRange cfg
  = Ok (yearChain (getUTCFullYear (from cfg)) (getUTCFullYear (to cfg) + 1) (breakpoint cfg),
        if weekDirection cfg =? "horizontal" then #6 else NaN).
Proof.
  intros Hg Hbp Hy. unfold partitionDateRange. rewrite Hg.
  replace ("year" =? "year") with true by reflexivity.
  rewrite range_up by lia. rewrite yearBlocks_zrange.
  - reflexivity.
  - exact Hbp.
  - unfold zrange. rewrite length_map, length_seq. lia.
Qed.

(** ** The cell size and the extent of the calendar *)

Lemma same_refl (a : number) : same a a.
Proof. destruct a; cbn [same]; [exact I | reflexivity]. Qed.

Lemma same_lift2 (op : Q -> Q -> Q) :
  (forall x x' y y', x == x' -> y == y' -> op x y == op x' y') ->
  forall a a' b b', same a a' -> same b b' -> same (lift2 op a b) (lift2 op a' b').
Proof.
  intros Hop a a' b b'.
  destruct a, a', b, b'; cbn [same lift2]; try tauto. apply Hop.
Qed.

Lemma same_add a a' b b' : same a a' -> same b b' -> same (a + b) (a' + b').
Proof. apply same_lift2. intros x x' y y' -> ->. reflexivity. Qed.

Lemma same_sub a a' b b' : same a a' -> same b b' -> same (a - b) (a' - b').
Proof. apply same_lift2. intros x x' y y' -> ->. reflexivity. Qed.

Lemma same_mul a a' b b' : same a a' -> same b b' -> same (a * b) (a' * b').
Proof. apply same_lift2. intros x x' y y' -> ->. reflexivity. Qed.

Lemma same_min_comm (a b : number) : same (JS.min a b) (JS.min b a).
Proof. destruct a, b; cbn [same JS.min lift2]; try exact I. apply Q.min_comm. Qed.

Lemma computeCellSize_transposed w h dir n ys ms ds mrm mcg mpg :
  same (computeCellSize h w (if dir =? "horizontal" then "vertical" else "horizontal")
          n ys ms ds mrm mcg mpg)
       (computeCellSize w h dir n ys ms ds mrm mcg mpg).
Proof.
  unfold computeCellSize. destruct (dir =? "horizontal").
  - replace ("vertical" =? "horizontal") with false by reflexivity. apply same_min_comm.
  - replace ("horizontal" =? "horizontal") with true by reflexivity. apply same_min_comm.
Qed.

Lemma partition_transposed cfg : partitionDateRange (transposed cfg) = partitionDateRange cfg.
Proof. reflexivity. Qed.

Lemma tight_core (w h ys ms ds n rq mq pq : Q) :
  0 < mq -> 0 < (n * rq)%Q ->
  let c := Qmin ((w - ms * pq - ds * mq) / mq)%Q
                ((h - (n - inject_Z 1) * ys - n * (rq * ds)) / (n * rq))%Q in
  (c * mq + ds * mq + ms * pq == w)%Q
  \/ ((c + ds) * rq * n + ys * (n - inject_Z 1) == h)%Q.
Proof.
  intros Hm Hn c. subst c.
  match goal with |- context [Qmin ?a ?b] => destruct (Q.min_spec a b) as [[_ E]|[_ E]] end;
    rewrite E; [left | right]; field.
  - lra.
  - split; intros K; rewrite K in Hn; lra.
Qed.

Lemma sizes_touch (w h ys ms ds n pq c : Q) (dir : string) (mrm mcg : number) :
  0 <= n ->
  (forall q, mrm = Fin q -> 0 < q) ->
  (forall q, mcg = Fin q -> 0 < q) ->
  computeCellSize (Fin w) (Fin h) dir (Fin n) (Fin ys) (Fin ms) (Fin ds) mrm mcg (Fin pq)
  = Fin c ->
  same (if dir =? "horizontal"
        then Fin c * mcg + Fin ds * mcg + Fin ms * Fin pq
        else (Fin c + Fin ds) * mrm * Fin n + Fin ys * (Fin n - #1))
       (Fin w)
  \/ same (if dir =? "horizontal"
           then (Fin c + Fin ds) * mrm * Fin n + Fin ys * (Fin n - #1)
           else Fin c * mcg + Fin ds * mcg + Fin ms * Fin pq)
          (Fin h).
Proof.
  intros Hn Hr Hm.
  destruct mrm as [|rq]; [rewrite computeCellSize_NaN_rows; intros H; discriminate H|].
  destruct mcg as [|mq]; [rewrite computeCellSize_NaN_columns; intros H; discriminate H|].
  specialize (Hr rq eq_refl). specialize (Hm mq eq_refl).
  unfold computeCellSize.
  destruct (dir =? "horizontal");
    cbn [JS.sub JS.mul JS.add lift2 ofZ]; rewrite (div_pos _ mq Hm);
    cbn [div]; destruct (Qeq_bool (n * rq) 0) eqn:E;
    cbn [JS.min lift2]; try (intros H; discriminate H);
    intros [= <-]; cbn [same];
    (assert (Hnr : 0 < (n * rq)%Q);
     [ apply Qeq_bool_neq in E;
       assert (0 <= (n * rq)%Q) by nra;
       destruct (Qlt_le_dec 0 (n * rq)) as [L|L]; [exact L|];
       exfalso; apply E; lra |]).
  - exact (tight_core w h ys ms ds n rq mq pq Hm Hnr).
  - rewrite Q.min_comm.
    destruct (tight_core h w ys ms ds n rq mq pq Hm Hnr) as [A|A]; [right|left]; exact A.
Qed.

Section Sizes.

Variable alignBox : BBox.t -> BBox.t -> string -> number * number.

(** X6.  In exact arithmetic: whenever [breakpoint >= 1], the range is
    split into at least one block and the cell size is a finite number, the
    calendar fits the canvas on both axes and fills it exactly on one of
    them.  (The code rounds every operation to binary64, so its sizes can
    miss these bounds by a rounding error.) *)
Theorem calendar_fits_and_fills_one_axis cfg g c :
  (1 <= breakpoint cfg)%Z ->
  layoutGrid alignBox cfg = Ok g ->
  dates g <> [] ->
  cellSize g = Fin c ->
  le (calendarWidth g) (Fin (width cfg)) /\ le (calendarHeight g) (Fin (height cfg))
  /\ (same (calendarWidth g) (Fin (width cfg)) \/ same (calendarHeight g) (Fin (height cfg))).
Proof.
  intros Hbp Hg _ Hc.
  destruct (layoutGrid_fits alignBox cfg g c Hbp Hg Hc) as [Fw Fh].
  split; [exact Fw|]. split; [exact Fh|]. clear Fw Fh.
  revert Hg Hc. unfold layoutGrid.
  destruct (partitionDateRange cfg) as [r|e] eqn:Hp; cbn [bind]; [|intros H; discriminate H].
  pose proof (partition_rows cfg r Hp) as Hrows.
  set (pq := if granularity cfg =? "year"
             then inject_Z (breakpoint cfg * 12) else inject_Z (breakpoint cfg)).
  assert (Hpq : 0 < pq).
  { subst pq. destruct (granularity cfg =? "year");
      change 0 with (inject_Z 0); rewrite <- Zlt_Qlt; lia. }
  replace (if granularity cfg =? "year" then #(breakpoint cfg * 12) else #(breakpoint cfg))
    with (Fin pq) by (subst pq; destruct (granularity cfg =? "year"); reflexivity).
  assert (Hn : 0 <= inject_Z (Z.of_nat (List.length (fst r)))).
  { change 0 with (inject_Z 0). rewrite <- Zle_Qle. lia. }
  destruct (weekDirection cfg =? "vertical").
  - match goal with |- context [alignBox ?a ?b ?c] => destruct (alignBox a b c) end.
    intros [= <-]. cbn [cellSize calendarWidth calendarHeight]. intros Hc. rewrite Hc.
    apply (sizes_touch _ _ _ _ _ _ _ _ _ _ _ Hn) in Hc.
    + exact Hc.
    + intros q [= <-]. reflexivity.
    + intros q Hq. rewrite <- map_map in Hq. exact (max_list_columns _ q Hq).
  - match goal with |- context [alignBox ?a ?b ?c] => destruct (alignBox a b c) end.
    intros [= <-]. cbn [cellSize calendarWidth calendarHeight]. intros Hc. rewrite Hc.
    apply (sizes_touch _ _ _ _ _ _ _ _ _ _ _ Hn) in Hc.
    + exact Hc.
    + intros q Hq. destruct Hrows as [E | [E | E]]; rewrite E in Hq;
        [discriminate Hq | injection Hq as <-; reflexivity | injection Hq as <-; reflexivity].
    + cbn [JS.mul lift2 ofZ]. intros q [= <-]. unfold inject_Z at 1. lra.
Qed.

(** X7.  Exchanging the two axes (width with height, horizontal with
    vertical direction) leaves the blocks and the cell size as they are and
    exchanges the calendar's width and height. *)
Theorem layoutGrid_transposed cfg g :
  layoutGrid alignBox cfg = Ok g ->
  exists g', layoutGrid alignBox (transposed cfg) = Ok g'
    /\ dates g' = dates g
    /\ maxRowsMonth g' = maxRowsMonth g
    /\ same (cellSize g') (cellSize g)
    /\ same (calendarWidth g') (calendarHeight g)
    /\ same (calendarHeight g') (calendarWidth g).
Proof.
  unfold layoutGrid. rewrite partition_transposed.
  destruct (partitionDateRange cfg) as [r|e]; cbn [bind]; [|intros H; discriminate H].
  cbn [transposed granularity breakpoint weekDirection width height yearSpacing
       monthSpacing daySpacing direction align].
  set (mpg := if granularity cfg =? "year" then #(breakpoint cfg * 12) else #(breakpoint cfg)).
  set (cm := if weekDirection cfg =? "vertical" then _ else _).
  destruct cm as [mcg mrm].
  pose proof (computeCellSize_transposed (Fin (width cfg)) (Fin (height cfg)) (direction cfg)
                (ofNat (List.length (fst r))) (Fin (yearSpacing cfg)) (Fin (monthSpacing cfg))
                (Fin (daySpacing cfg)) mrm mcg mpg) as T.
  revert T.
  generalize (computeCellSize (Fin (width cfg)) (Fin (height cfg)) (direction cfg)
                (ofNat (List.length (fst r))) (Fin (yearSpacing cfg)) (Fin (monthSpacing cfg))
                (Fin (daySpacing cfg)) mrm mcg mpg) as c.
  generalize (computeCellSize (Fin (height cfg)) (Fin (width cfg))
                (if direction cfg =? "horizontal" then "vertical" else "horizontal")
                (ofNat (List.length (fst r))) (Fin (yearSpacing cfg)) (Fin (monthSpacing cfg))
                (Fin (daySpacing cfg)) mrm mcg mpg) as c'.
  intros c' c T.
  assert (M : same (c' * mcg + Fin (daySpacing cfg) * mcg + Fin (monthSpacing cfg) * mpg)
                   (c * mcg + Fin (daySpacing cfg) * mcg + Fin (monthSpacing cfg) * mpg)).
  { repeat first [apply same_add | apply same_mul | apply same_refl | exact T]. }
  assert (Y : same ((c' + Fin (daySpacing cfg)) * mrm * ofNat (List.length (fst r))
                    + Fin (yearSpacing cfg) * (ofNat (List.length (fst r)) - #1))
                   ((c + Fin (daySpacing cfg)) * mrm * ofNat (List.length (fst r))
                    + Fin (yearSpacing cfg) * (ofNat (List.length (fst r)) - #1))).
  { repeat first [apply same_add | apply same_mul | apply same_refl | exact T]. }
  destruct (direction cfg =? "horizontal").
  - replace ("vertical" =? "horizontal") with false by reflexivity.
    do 2 match goal with |- context [alignBox ?a ?b ?c] => destruct (alignBox a b c) end.
    intros [= <-]. eexists. split; [reflexivity|].
    cbn [dates maxRowsMonth cellSize calendarWidth calendarHeight].
    repeat split; assumption.
  - replace ("horizontal" =? "horizontal") with true by reflexivity.
    do 2 match goal with |- context [alignBox ?a ?b ?c] => destruct (alignBox a b c) end.
    intros [= <-]. eexists. split; [reflexivity|].
    cbn [dates maxRowsMonth cellSize calendarWidth calendarHeight].
    repeat split; assumption.
Qed.

End Sizes.

(** X8.  A larger canvas never gives a smaller cell: with positive
    divisors the cell size grows (weakly) with width and height. *)
Theorem computeCellSize_monotone (w h w' h' n ys ms ds rq mq pq : Q) (dir : string) :
  0 < mq -> 0 < (n * rq)%Q -> w <= w' -> h <= h' ->
  le (computeCellSize (Fin w) (Fin h) dir (Fin n) (Fin ys) (Fin ms) (Fin ds)
        (Fin rq) (Fin mq) (Fin pq))
     (computeCellSize (Fin w') (Fin h') dir (Fin n) (Fin ys) (Fin ms) (Fin ds)
        (Fin rq) (Fin mq) (Fin pq)).
Proof.
  intros Hm Hn Hw Hh. unfold computeCellSize.
  assert (D : forall a b d : Q, 0 < d -> a <= b -> (a / d <= b / d)%Q).
  { intros a b d Hd Hab. apply Qle_shift_div_l; [exact Hd|].
    assert (E : ((a / d) * d == a)%Q) by (field; lra). rewrite E. exact Hab. }
  destruct (dir =? "horizontal");
    cbn [JS.sub JS.mul JS.add lift2 ofZ]; rewrite !(div_pos _ mq Hm), !(div_pos _ _ Hn);
    cbn [JS.min lift2 le]; apply Q.min_le_compat; apply D; try assumption; lra.
Qed.

Lemma calendar_fits_and_fills_one_axis_witness :
  exists g c, layoutGrid alignBoxCore march_april_2023 = Ok g
    /\ List.length (dates g) = 2%nat
    /\ cellSize g = Fin c
    /\ le (calendarWidth g) (Fin 800) /\ le (calendarHeight g) (Fin 600)
    /\ (same (calendarWidth g) (Fin 800) \/ same (calendarHeight g) (Fin 600)).
Proof.
  destruct (layoutGrid alignBoxCore march_april_2023) as [g|e] eqn:E;
    [|vm_compute in E; discriminate E].
  assert (D : List.length (dates g) = 2%nat)
    by (vm_compute in E; injection E as <-; reflexivity).
  assert (N : dates g <> []) by (intros K; rewrite K in D; discriminate D).
  destruct (cellSize g) as [|c] eqn:C;
    [vm_compute in E; injection E as <-; discriminate C|].
  exists g, c. split; [reflexivity|]. split; [exact D|]. split; [exact C|].
  exact (calendar_fits_and_fills_one_axis alignBoxCore march_april_2023 g c
           ltac:(intros H; discriminate H) E N C).
Defined.

Lemma computeCellSize_monotone_witness :
  le (computeCellSize (Fin 800) (Fin 600) "horizontal" (Fin 2) (Fin 30) (Fin 0) (Fin 2)
        (Fin 6) (Fin 7) (Fin 1))
     (computeCellSize (Fin 900) (Fin 600) "horizontal" (Fin 2) (Fin 30) (Fin 0) (Fin 2)
        (Fin 6) (Fin 7) (Fin 1)).
Proof.
  apply (computeCellSize_monotone 800 600 900 600 2 30 0 2 6 7 1 "horizontal");
    vm_compute; first [reflexivity | intros H; discriminate H].
Defined.

Lemma layoutGrid_transposed_witness :
  exists g g', layoutGrid alignBoxCore march_april_2023 = Ok g
    /\ layoutGrid alignBoxCore (transposed march_april_2023) = Ok g'
    /\ same (calendarWidth g') (calendarHeight g).
Proof.
  destruct (layoutGrid alignBoxCore march_april_2023) as [g|e] eqn:E;
    [|vm_compute in E; discriminate E].
  destruct (layoutGrid_transposed alignBoxCore march_april_2023 g E)
    as (g' & H & _ & _ & _ & W & _).
  exists g, g'. split; [reflexivity|]. split; [exact H|exact W].
Defined.

(** ** Rows per month *)

Section Rows.

Variable alignBox : BBox.t -> BBox.t -> string -> number * number.

(** X9.  The number of rows per month the layout works with is 7 for
    vertical weeks and otherwise undefined, 5 or 6: the branch
    [Math.max(maxRowsMonth, 4)] of the scan never makes it 4, because
    [maxRowsMonth] is undefined or 5 whenever the branch runs. *)
Theorem maxRowsMonth_is_never_four cfg g :
  layoutGrid alignBox cfg = Ok g ->
  (weekDirection cfg = "vertical" -> maxRowsMonth g = #7)
  /\ (weekDirection cfg <> "vertical" ->
      maxRowsMonth g = NaN \/ maxRowsMonth g = #5 \/ maxRowsMonth g = #6)
  /\ maxRowsMonth g <> #4.
Proof.
  unfold layoutGrid.
  destruct (partitionDateRange cfg) as [r|e] eqn:Hp; cbn [bind]; [|intros H; discriminate H].
  pose proof (partition_rows cfg r Hp) as Hrows.
  destruct (String.eqb_spec (weekDirection cfg) "vertical") as [E|E];
    match goal with |- context [alignBox ?a ?b ?c] => destruct (alignBox a b c) end;
    intros [= <-]; cbn [maxRowsMonth].
  - split; [reflexivity|]. split; [intros K; contradiction|]. intros K; discriminate K.
  - split; [intros K; contradiction|]. split; [intros _; exact Hrows|].
    destruct Hrows as [-> | [-> | ->]]; intros K; discriminate K.
Qed.

End Rows.

Lemma maxRowsMonth_is_never_four_witness :
  exists g, layoutGrid alignBoxCore march_2015 = Ok g /\ maxRowsMonth g = NaN.
Proof.
  destruct (layoutGrid alignBoxCore march_2015) as [g|e] eqn:E;
    [|vm_compute in E; discriminate E].
  exists g. split; [reflexivity|].
  destruct (maxRowsMonth_is_never_four alignBoxCore march_2015 g E) as (_ & H & _).
  destruct (H ltac:(intros K; discriminate K)) as [N | [N | N]]; [exact N | |];
    exfalso; vm_compute in E; injection E as <-; discriminate N.
Defined.

(** ** getElapsedMonths and getWeekOfTheMonth *)

Section Elapsed.

Local Open Scope Z_scope.

Lemma getElapsedMonths_index (a b : Date) :
  getElapsedMonths (Some a) b = Ok (monthIndex b - monthIndex a).
Proof.
  unfold getElapsedMonths, monthIndex, getFullYear, getMonth. f_equal. lia.
Qed.

(** X11.  [getElapsedMonths(from, to)] with [from <= to] returns the number
    [n >= 0] of the calendar month of [to], counted from the month of
    [from]: [to] lies in the month that starts [n] months after the start
    of the month of [from]. *)
Theorem getElapsedMonths_counts_months (a b : Date) :
  a <= b ->
  exists n, getElapsedMonths (Some a) b = Ok n
    /\ 0 <= n
    /\ monthStart (monthIndex a + n) <= b < monthStart (monthIndex a + n + 1).
Proof.
  intros H. exists (monthIndex b - monthIndex a).
  split; [apply getElapsedMonths_index|].
  pose proof (monthIndex_mono a b H). split; [lia|].
  replace (monthIndex a + (monthIndex b - monthIndex a)) with (monthIndex b) by lia.
  apply monthIndex_spec.
Qed.

Lemma getElapsedMonths_counts_months_witness :
  newDate 2023 0 31 <= newDate 2024 1 1
  /\ getElapsedMonths (Some (newDate 2023 0 31)) (newDate 2024 1 1) = Ok 13.
Proof.
  assert (H : newDate 2023 0 31 <= newDate 2024 1 1) by (vm_compute; intros K; discriminate K).
  split; [exact H|].
  destruct (getElapsedMonths_counts_months _ _ H) as (n & E & _). rewrite E.
  vm_compute in E. injection E as <-. reflexivity.
Defined.






End Elapsed.

(** ** The positioning closures, given a start date *)

Lemma half_fin (x : Q) : Fin x / #2 = Fin (x / inject_Z 2).
Proof. reflexivity. Qed.

Lemma getD_fin (d s : Date) (ms ds c : Q) :
  getD d (Some s) (Fin ms) (Fin ds) (Fin c)
  = Ok (Fin (inject_Z (timeWeek_count s d) * (c + ds) + ds / inject_Z 2
             + inject_Z (monthIndex d - monthIndex s) * ms)).
Proof. unfold getD. rewrite getElapsedMonths_index. reflexivity. Qed.

Lemma getC_fin (d : Date) (bi ys ds rq c : Q) :
  getC d (Fin bi) (Fin ys) (Fin ds) (Fin rq) (Fin c)
  = Fin (inject_Z (getDay d) * (c + ds) + ds / inject_Z 2 + bi * (ys + rq * (c + ds))).
Proof. reflexivity. Qed.




Lemma scaled_le (i j : Z) (u : Q) : (i <= j)%Z -> 0 <= u -> inject_Z i * u <= inject_Z j * u.
Proof.
  intros H Hu. assert (K : inject_Z i <= inject_Z j) by (rewrite <- Zle_Qle; exact H).
  nra.
Qed.



(** X15.  The closures for weeks along the calendar's direction call [getA]
    with five arguments, so its [cellSize] is undefined: whatever the
    arguments and the start date, the coordinate across the direction is
    not a number. *)
Theorem week_coordinate_is_not_a_number
  (cellSize ys ms ds mrm ox oy : number) (d : Date) (bi : number) (s : option Date) :
  (forall p, cellPositionVerticalVertical cellSize ys ms ds mrm ox oy d bi s = Ok p ->
             fst p = NaN)
  /\ (forall p, cellPositionHorizontalHorizontal cellSize ys ms ds mrm ox oy d bi s = Ok p ->
                snd p = NaN).
Proof.
  assert (N : forall o, o + NaN = NaN) by (intros o; destruct o; reflexivity).
  split; intros p; unfold cellPositionVerticalVertical, cellPositionHorizontalHorizontal;
    rewrite getA_without_cellSize;
    destruct (getB d s ms ds cellSize) as [b|e]; cbn [bind];
    try (intros H; discriminate H); intros [= <-]; cbn [fst snd]; apply N.
Qed.

Lemma week_coordinate_is_not_a_number_witness :
  exists y,
    cellPositionVerticalVertical (Fin 14) (Fin 30) (Fin 0) (Fin 2) (Fin 6) (Fin 0) (Fin 0)
      (newDate 2023 0 8) (Fin 0) (Some (newDate 2023 0 1)) = Ok (NaN, y).
Proof.
  destruct (cellPositionVerticalVertical (Fin 14) (Fin 30) (Fin 0) (Fin 2) (Fin 6) (Fin 0)
              (Fin 0) (newDate 2023 0 8) (Fin 0) (Some (newDate 2023 0 1))) as [[x y]|e] eqn:E;
    [|vm_compute in E; discriminate E].
  exists y. f_equal. f_equal.
  exact (proj1 (week_coordinate_is_not_a_number (Fin 14) (Fin 30) (Fin 0) (Fin 2) (Fin 6)
                  (Fin 0) (Fin 0) (newDate 2023 0 8) (Fin 0) (Some (newDate 2023 0 1)))
               (x, y) E).
Defined.

(** X16.  The closures of a vertical calendar are those of a horizontal one
    with the two axes exchanged: the same call with the origins swapped
    returns the swapped pair. *)
Theorem vertical_positions_are_transposed
  (cellSize ys ms ds mrm ox oy : number) (d : Date) (bi : number) (s : option Date) :
  cellPositionVerticalHorizontal cellSize ys ms ds mrm ox oy d bi s
  = (p <- cellPositionHorizontalVertical cellSize ys ms ds mrm oy ox d bi s ;;
     Ok (snd p, fst p))
  /\ cellPositionVerticalVertical cellSize ys ms ds mrm ox oy d bi s
     = (p <- cellPositionHorizontalHorizontal cellSize ys ms ds mrm oy ox d bi s ;;
        Ok (snd p, fst p)).
Proof.
  unfold cellPositionVerticalHorizontal, cellPositionHorizontalVertical,
    cellPositionVerticalVertical, cellPositionHorizontalHorizontal.
  split.
  - destruct (getD d s ms ds cellSize); reflexivity.
  - destruct (getB d s ms ds cellSize); reflexivity.
Qed.

(** ** monthPathAndBBox *)

Lemma year_of_index (t : Date) (k : Z) : monthIndex t = k -> getFullYear t = (k / 12)%Z.
Proof.
  intros <-. unfold monthIndex. pose proof (getMonth_range t) as R.
  apply (Z.div_unique_pos _ 12 _ (getMonth t)); lia.
Qed.

Lemma month_of_index (t : Date) (k : Z) : monthIndex t = k -> getMonth t = (k mod 12)%Z.
Proof.
  intros <-. unfold monthIndex. pose proof (getMonth_range t) as R.
  apply (Z.mod_unique_pos _ 12 (getFullYear t)); lia.
Qed.

Lemma month_length (k : Z) :
  (MakeDay 0 k 1 + 28 <= MakeDay 0 (k + 1) 1 <= MakeDay 0 k 1 + 31)%Z.
Proof.
  split; [apply month_ok_all|].
  pose proof (proj2 (month_ok_all k)) as L.
  assert (I : monthIndex (monthEnd k) = k).
  { apply monthIndex_unique. unfold monthEnd, monthStart, msPerDay. lia. }
  pose proof (Day_of_date (monthEnd k)) as D. rewrite I in D.
  unfold monthEnd at 1 in D. unfold monthStart in D. rewrite !Day_midnight in D.
  pose proof (getDate_range (monthEnd k)). lia.
Qed.

Lemma monthIndex_monthEnd (k : Z) : monthIndex (monthEnd k) = k.
Proof.
  apply monthIndex_unique. pose proof (month_length k).
  unfold monthEnd, monthStart, msPerDay. lia.
Qed.

Lemma timeYear_monthStart (t : Date) : timeYear t = monthStart (12 * getFullYear t).
Proof.
  unfold timeYear, monthStart. rewrite MakeDay_normal. f_equal. f_equal. lia.
Qed.

Lemma newDate_monthEnd (k : Z) :
  ~ (0 <= k < 1200)%Z ->
  newDate (getFullYear (monthStart k)) (getMonth (monthStart k) + 1) 0 = monthEnd k.
Proof.
  intros H.
  rewrite (year_of_index _ k (monthIndex_monthStart k)),
          (month_of_index _ k (monthIndex_monthStart k)).
  unfold newDate, monthEnd.
  pose proof (Z.div_mod k 12 ltac:(discriminate)) as E.
  pose proof (Z.mod_pos_bound k 12 ltac:(reflexivity)) as R.
  replace ((0 <=? k / 12) && (k / 12 <=? 99))%Z with false.
  - rewrite MakeDay_normal, MakeDay_date. f_equal.
    replace (12 * (k / 12) + (k mod 12 + 1))%Z with (k + 1)%Z by lia. lia.
  - symmetry. apply andb_false_iff.
    destruct (Z_le_gt_dec 0 (k / 12)) as [L|G].
    + right. apply Z.leb_gt. lia.
    + left. apply Z.leb_gt. lia.
Qed.


(** The box of month [k] in a horizontal calendar, in closed form. *)
Lemma monthBBox_horizontal (k : Z) (c yi ys ms ds ox oy : Q) :
  ~ (0 <= k < 1200)%Z ->
  monthPathAndBBox (monthStart k) (Fin c) (Fin yi) (Fin ys) (Fin ms) (Fin ds)
    "horizontal" (Fin ox) (Fin oy)
  = BBox.mk
      (Fin (ox + inject_Z (k mod 12) * ms
            + inject_Z (weekIndex (monthStart k) - weekIndex (monthStart (12 * (k / 12))))
              * (c + ds)))
      (Fin (oy + yi * (inject_Z 7 * (c + ds) + ys)))
      (Fin (ox + inject_Z (k mod 12) * ms
            + inject_Z (weekIndex (monthEnd k) - weekIndex (monthStart (12 * (k / 12))) + 1)
              * (c + ds)
            - (ox + inject_Z (k mod 12) * ms
               + inject_Z (weekIndex (monthStart k) - weekIndex (monthStart (12 * (k / 12))))
                 * (c + ds))))
      (Fin (inject_Z 7 * (c + ds))).
Proof.
  intros H. unfold monthPathAndBBox.
  rewrite (newDate_monthEnd k H).
  rewrite !timeYear_monthStart.
  rewrite (year_of_index _ k (monthIndex_monthStart k)),
          (year_of_index _ k (monthIndex_monthEnd k)),
          (month_of_index _ k (monthIndex_monthStart k)).
  unfold timeWeek_count. reflexivity.
Qed.




(** X18.  The box of a month in a vertical calendar is the box in a
    horizontal calendar with the two axes exchanged. *)
Theorem month_box_transposed (date : Date) (c yi ys ms ds ox oy : number) (dir : string) :
  dir <> "horizontal" ->
  monthPathAndBBox date c yi ys ms ds dir ox oy
  = transposeBBox (monthPathAndBBox date c yi ys ms ds "horizontal" oy ox).
Proof.
  intros H. apply String.eqb_neq in H. unfold monthPathAndBBox. rewrite H.
  replace ("horizontal" =? "horizontal") with true by reflexivity.
  reflexivity.
Qed.

Lemma month_box_transposed_witness :
  "vertical" <> "horizontal"
  /\ monthPathAndBBox (newDate 2023 1 1) (Fin 14) (Fin 0) (Fin 30) (Fin 0) (Fin 2)
       "vertical" (Fin 3) (Fin 5)
     = transposeBBox (monthPathAndBBox (newDate 2023 1 1) (Fin 14) (Fin 0) (Fin 30) (Fin 0)
                        (Fin 2) "horizontal" (Fin 5) (Fin 3)).
Proof.
  assert (H : "vertical" <> "horizontal") by (intros K; discriminate K).
  split; [exact H|]. exact (month_box_transposed _ _ _ _ _ _ _ _ _ H).
Defined.

Lemma half_bounds (x : Q) : 0 <= x -> 0 <= (x / inject_Z 2)%Q <= x.
Proof.
  intros H. split.
  - apply Qle_shift_div_l; [reflexivity|]. lra.
  - apply Qle_shift_div_r; [reflexivity|]. change (inject_Z 2) with 2. lra.
Qed.

Lemma weekIndex_mono (a b : Date) : (a <= b)%Z -> (weekIndex a <= weekIndex b)%Z.
Proof.
  intros H. unfold weekIndex, Day. apply Z.div_le_mono; [reflexivity|].
  assert (a / msPerDay <= b / msPerDay)%Z by (apply Z.div_le_mono; [reflexivity|exact H]). lia.
Qed.

(** X19.  In exact arithmetic: a day placed by
    [cellPositionHorizontalVertical] with seven rows per block, when the
    start date it is given is the first of January of the day's year, lies
    inside the box [monthPathAndBBox] gives the day's month for the same
    block index.  (Years from -271820 to 275759, whose dates are all valid,
    outside 0..99; no negative cell size or day spacing.  For any other
    start date nothing is stated: the box is measured from the first of
    January, the day from the start date.) *)
Theorem day_cell_lies_in_month_box (d : Date) (c bi ys ms ds ox oy : Q) :
  (-271820 <= getUTCFullYear d <= 275759)%Z ->
  ~ (0 <= getUTCFullYear d <= 99)%Z ->
  0 <= c -> 0 <= ds ->
  let b := monthPathAndBBox (monthStart (monthIndex d)) (Fin c) (Fin bi) (Fin ys) (Fin ms)
             (Fin ds) "horizontal" (Fin ox) (Fin oy) in
  exists x y bx by_ bw bh,
    cellPositionHorizontalVertical (Fin c) (Fin ys) (Fin ms) (Fin ds) #7
      (Fin ox) (Fin oy) d (Fin bi) (Some (timeYear d)) = Ok (Fin x, Fin y)
    /\ b = BBox.mk (Fin bx) (Fin by_) (Fin bw) (Fin bh)
    /\ bx <= x /\ x + c <= bx + bw
    /\ by_ <= y /\ y + c <= by_ + bh.
Proof.
  intros _ Hy Hc Hds. cbv zeta.
  set (k := monthIndex d).
  assert (Hk : ~ (0 <= k < 1200)%Z).
  { subst k. unfold monthIndex, getFullYear. pose proof (getMonth_range d). lia. }
  rewrite (monthBBox_horizontal k c bi ys ms ds ox oy Hk).
  unfold cellPositionHorizontalVertical.
  rewrite getD_fin. change #7 with (Fin (inject_Z 7)). rewrite getC_fin.
  cbn [bind JS.add lift2].
  do 6 eexists. split; [reflexivity|]. split; [reflexivity|].
  rewrite timeYear_monthStart, monthIndex_monthStart.
  rewrite (year_of_index d k eq_refl).
  unfold timeWeek_count.
  set (w0 := weekIndex (monthStart (12 * (k / 12)))).
  pose proof (monthIndex_spec d) as S. fold k in S.
  pose proof (weekIndex_mono _ _ (proj1 S)) as W1.
  assert (W2 : (weekIndex d <= weekIndex (monthEnd k))%Z).
  { unfold weekIndex. apply Z.div_le_mono; [reflexivity|].
    unfold monthEnd. rewrite Day_midnight.
    pose proof (Day_bounds d) as B. destruct S as [_ S2]. revert S2 B.
    unfold monthStart, msPerDay. intros S2 B. lia. }
  replace (monthIndex d - 12 * (k / 12))%Z with (k mod 12)%Z
    by (subst k; pose proof (Z.div_mod (monthIndex d) 12 ltac:(discriminate)); lia).
  pose proof (scaled_le (weekIndex (monthStart k) - w0) (weekIndex d - w0) (c + ds)
                ltac:(lia) ltac:(lra)) as A1.
  pose proof (scaled_le (weekIndex d - w0 + 1) (weekIndex (monthEnd k) - w0 + 1) (c + ds)
                ltac:(lia) ltac:(lra)) as A2.
  rewrite (inject_Z_plus (weekIndex d - w0) 1) in A2.
  assert (G : (0 <= getDay d <= 6)%Z).
  { unfold getDay, getUTCDay. pose proof (Z.mod_pos_bound (Day d + 4) 7 ltac:(reflexivity)). lia. }
  pose proof (scaled_le 0 (getDay d) (c + ds) ltac:(lia) ltac:(lra)) as A3.
  pose proof (scaled_le (getDay d) 6 (c + ds) ltac:(lia) ltac:(lra)) as A4.
  change (inject_Z 0) with 0 in A3. change (inject_Z 1) with 1 in A2.
  change (inject_Z 6) with 6 in A4. change (inject_Z 7) with 7.
  pose proof (half_bounds ds Hds) as Hh. revert Hh.
  generalize (ds / inject_Z 2)%Q as hf. intros hf Hh.
  repeat split; lra.
Qed.

Lemma day_cell_lies_in_month_box_witness :
  exists x y bx by_ bw bh,
    cellPositionHorizontalVertical (Fin 14) (Fin 30) (Fin 0) (Fin 2) #7
      (Fin 0) (Fin 0) (newDate 2023 1 28) (Fin 0) (Some (timeYear (newDate 2023 1 28)))
    = Ok (Fin x, Fin y)
    /\ monthPathAndBBox (monthStart (monthIndex (newDate 2023 1 28))) (Fin 14) (Fin 0) (Fin 30)
         (Fin 0) (Fin 2) "horizontal" (Fin 0) (Fin 0)
       = BBox.mk (Fin bx) (Fin by_) (Fin bw) (Fin bh)
    /\ bx <= x /\ x + 14 <= bx + bw
    /\ by_ <= y /\ y + 14 <= by_ + bh.
Proof.
  apply (day_cell_lies_in_month_box (newDate 2023 1 28) 14 0 30 0 2 0 0).
  - vm_compute. split; intros K; discriminate K.
  - vm_compute. intros [_ K]. apply K. reflexivity.
  - vm_compute. intros K. discriminate K.
  - vm_compute. intros K. discriminate K.
Defined.

(** ** A range that runs backwards *)




(** ** The box of a year *)









(** ** What the scan for maxRowsMonth adds up *)







(** ** Day cells and the extent of the calendar *)

Lemma cdiv_le_gen (a n b : Z) : (0 < b)%Z -> (a <= n * b)%Z -> (cdiv a b <= n)%Z.
Proof.
  intros Hb H. unfold cdiv.
  assert ((- n) <= (- a) / b)%Z; [|lia].
  apply Z.div_le_lower_bound; [exact Hb|]. lia.
Qed.



Lemma cdiv_lt_gen (a n b : Z) : (0 < b)%Z -> (n < cdiv a b)%Z -> (n * b < a)%Z.
Proof.
  intros Hb H.
  destruct (Z_lt_le_dec (n * b) a) as [L|G]; [exact L|].
  pose proof (cdiv_le_gen a n b Hb G). lia.
Qed.








Section Extent.

Variable alignBox : BBox.t -> BBox.t -> string -> number * number.



End Extent.


(** ** Legends and two-digit years *)

(** X26.  A legend never sits inside what it names: for a year or a month
    whose box is finite, whatever the direction and the position (also
    unrecognized ones), and for an offset that is not negative, the anchor
    of the legend is a finite point that does not lie in the interior of
    the box. *)
Theorem legend_anchors_stay_out_of_the_box (dir pos : string) (off : Q) :
  0 <= off ->
  (forall years l,
     In l (computeYearLegendPositions years dir pos (Fin off)) ->
     finiteBBox (Year.bbox (YearLegend.year l)) ->
     In (YearLegend.year l) years
     /\ (exists x y, YearLegend.x l = Fin x /\ YearLegend.y l = Fin y)
     /\ ~ strictlyInside (YearLegend.x l) (YearLegend.y l) (Year.bbox (YearLegend.year l)))
  /\ (forall months l,
        In l (computeMonthLegendPositions months dir pos (Fin off)) ->
        finiteBBox (Month.bbox (MonthLegend.month l)) ->
        In (MonthLegend.month l) months
        /\ (exists x y, MonthLegend.x l = Fin x /\ MonthLegend.y l = Fin y)
        /\ ~ strictlyInside (MonthLegend.x l) (MonthLegend.y l)
               (Month.bbox (MonthLegend.month l))).
Proof.
  intros Hoff. split.
  - intros years l Hl. unfold computeYearLegendPositions in Hl.
    apply in_map_iff in Hl. destruct Hl as (year & <- & Hin).
    destruct ((dir =? "horizontal") && (pos =? "before"));
      [|destruct ((dir =? "horizontal") && (pos =? "after"));
        [|destruct ((dir =? "vertical") && (pos =? "before"))]];
      cbn [YearLegend.year YearLegend.x YearLegend.y];
      intros (bx & by_ & w & h & ->); cbn [BBox.x BBox.y BBox.width BBox.height];
      rewrite ?half_fin; cbn [JS.add JS.sub lift2];
      (split; [exact Hin|]); (split; [eexists; eexists; split; reflexivity|]);
      intros (px & py & bx' & by' & w' & h' & [= <-] & [= <-] & [= <- <- <- <-] & A & B & C & D);
      lra.
  - intros months l Hl. unfold computeMonthLegendPositions in Hl.
    apply in_map_iff in Hl. destruct Hl as (month & <- & Hin).
    destruct ((dir =? "horizontal") && (pos =? "before"));
      [|destruct ((dir =? "horizontal") && (pos =? "after"));
        [|destruct ((dir =? "vertical") && (pos =? "before"))]];
      cbn [MonthLegend.month MonthLegend.x MonthLegend.y];
      intros (bx & by_ & w & h & ->); cbn [BBox.x BBox.y BBox.width BBox.height];
      rewrite ?half_fin; cbn [JS.add JS.sub lift2];
      (split; [exact Hin|]); (split; [eexists; eexists; split; reflexivity|]);
      intros (px & py & bx' & by' & w' & h' & [= <-] & [= <-] & [= <- <- <- <-] & A & B & C & D);
      lra.
Qed.

Lemma legend_anchors_stay_out_of_the_box_witness :
  exists l,
    computeYearLegendPositions [year_box_2023] "horizontal" "before" (Fin 10) = [l]
    /\ ~ strictlyInside (YearLegend.x l) (YearLegend.y l) (Year.bbox (YearLegend.year l)).
Proof.
  eexists. split; [reflexivity|].
  assert (H : 0 <= 10) by (intros K; discriminate K).
  apply (proj1 (legend_anchors_stay_out_of_the_box "horizontal" "before" 10 H)
           [year_box_2023] _ (or_introl eq_refl)).
  do 4 eexists. reflexivity.
Defined.

Lemma newDate_two_digit_year (y m d : Z) :
  (0 <= y <= 99)%Z -> newDate y m d = newDate (1900 + y) m d.
Proof.
  intros H. unfold newDate.
  replace ((0 <=? y) && (y <=? 99))%Z with true
    by (symmetry; apply andb_true_iff; split; apply Z.leb_le; lia).
  replace ((0 <=? 1900 + y) && (1900 + y <=? 99))%Z with false
    by (symmetry; apply andb_false_iff; right; apply Z.leb_gt; lia).
  reflexivity.
Qed.

Lemma yearChain_two_digit_years (a b bp : Z) :
  (1 <= bp)%Z -> (0 <= a <= b)%Z -> (b <= 99)%Z ->
  yearChain a b bp = yearChain (1900 + a) (1900 + b) bp.
Proof.
  intros Hbp Ha Hb. unfold yearChain.
  replace (1900 + b - (1900 + a))%Z with (b - a)%Z by lia.
  apply map_ext_in. intros j Hj. apply in_zrange in Hj. destruct Hj as [J0 J1].
  apply cdiv_lt_gen in J1; [|lia].
  rewrite (newDate_two_digit_year (a + j * bp)) by nia.
  rewrite (newDate_two_digit_year (Z.min (a + (j + 1) * bp) b)) by nia.
  f_equal; f_equal; lia.
Qed.

(** X27.  Years 0 to 99 are not laid out: [new Date(year, 0, 1)] reads a
    year below 100 as 1900 + year, so with year granularity a range within
    the years 0..98 gets the blocks of the years 1900 + year. *)
Theorem two_digit_years_are_laid_out_as_1900s cfg :
  granularity cfg = "year" ->
  (1 <= breakpoint cfg)%Z ->
  (0 <= getUTCFullYear (from cfg) <= getUTCFullYear (to cfg))%Z ->
  (getUTCFullYear (to cfg) <= 98)%Z ->
  exists m,
    partitionDateRange cfg
    = Ok (yearChain (1900 + getUTCFullYear (from cfg)) (1900 + getUTCFullYear (to cfg) + 1)
            (breakpoint cfg), m).
Proof.
  intros Hg Hbp Hy H98. rewrite (partition_year_blocks cfg Hg Hbp ltac:(lia)).
  eexists. f_equal. f_equal.
  rewrite yearChain_two_digit_years by lia. f_equal. lia.
Qed.

Lemma two_digit_years_are_laid_out_as_1900s_witness :
  getUTCFullYear (from year_50) = 50%Z
  /\ exists m, partitionDateRange year_50 = Ok ([yearBlock 1950], m).
Proof.
  split; [vm_compute; reflexivity|].
  destruct (two_digit_years_are_laid_out_as_1900s year_50) as [m E].
  - reflexivity.
  - intros K. discriminate K.
  - vm_compute. split; intros K; discriminate K.
  - vm_compute. intros K. discriminate K.
  - exists m. rewrite E. vm_compute. reflexivity.
Defined.

(** ** bindDaysData, once more *)

Lemma scan_lastMatch colorScale data : forall day,
  fold_left (bindStep colorScale) data day
  = overwrite colorScale day (lastMatch (DayCell.day day) data).
Proof.
  induction data as [|r data IH]; intros day; [reflexivity|].
  rewrite fold_left_step, IH, bindStep_key. cbn [lastMatch].
  destruct (lastMatch (DayCell.day day) data) as [r'|].
  - unfold bindStep. destruct (Datum.day r =? DayCell.day day); reflexivity.
  - unfold bindStep. destruct (Datum.day r =? DayCell.day day); reflexivity.
Qed.

Lemma bindDay_lastMatch data colorScale emptyColor day :
  bindDay data colorScale emptyColor day
  = overwrite colorScale
      (DayCell.mk (DayCell.date day) (DayCell.day day) (DayCell.size day)
         (DayCell.x day) (DayCell.y day)
         (Some emptyColor) (DayCell.value day) (DayCell.data day))
      (lastMatch (DayCell.day day) data).
Proof. unfold bindDay. now rewrite scan_lastMatch. Qed.

Lemma bindDay_idempotent data colorScale emptyColor day :
  bindDay data colorScale emptyColor (bindDay data colorScale emptyColor day)
  = bindDay data colorScale emptyColor day.
Proof.
  rewrite (bindDay_lastMatch data colorScale emptyColor day).
  cbn [DayCell.day].
  destruct (lastMatch (DayCell.day day) data) as [r|] eqn:E; cbn [overwrite];
    rewrite bindDay_lastMatch; cbn [DayCell.day DayCell.date DayCell.size DayCell.x
      DayCell.y DayCell.value DayCell.data]; rewrite E; reflexivity.
Qed.

(** X22.  Binding the same data again changes nothing: [bindDaysData] is
    idempotent. *)
Theorem bindDaysData_idempotent days data colorScale emptyColor :
  bindDaysData (bindDaysData days data colorScale emptyColor) data colorScale emptyColor
  = bindDaysData days data colorScale emptyColor.
Proof.
  unfold bindDaysData. rewrite map_map. apply map_ext. intros day.
  apply bindDay_idempotent.
Qed.

Lemma lastMatch_some key data r :
  lastMatch key data = Some r -> In r data /\ Datum.day r = key.
Proof.
  induction data as [|a data IH]; cbn [lastMatch]; [intros H; discriminate H|].
  destruct (lastMatch key data) as [r'|].
  - intros [= <-]. destruct (IH eq_refl) as [A B]. split; [right; exact A | exact B].
  - destruct (Datum.day a =? key) eqn:E; [|intros H; discriminate H].
    intros [= <-]. split; [left; reflexivity | now apply String.eqb_eq].
Qed.

Lemma lastMatch_none key data :
  lastMatch key data = None -> forall r, In r data -> Datum.day r <> key.
Proof.
  induction data as [|a data IH]; cbn [lastMatch]; [intros _ r []|].
  destruct (lastMatch key data) as [r'|]; [intros H; discriminate H|].
  destruct (Datum.day a =? key) eqn:E; [intros H; discriminate H|].
  intros _ r [<- | Hin]; [now apply String.eqb_neq | now apply IH].
Qed.

Lemma lastMatch_unique key data r :
  NoDup (map Datum.day data) -> In r data -> Datum.day r = key ->
  lastMatch key data = Some r.
Proof.
  intros Hnd Hin Hk.
  destruct (lastMatch key data) as [r'|] eqn:E.
  - destruct (lastMatch_some key data r' E) as [Hin' Hk'].
    f_equal. clear E. revert Hnd Hin Hin'. subst key.
    induction data as [|a data IH]; [intros _ []|].
    cbn [map]. intros Hnd. inversion Hnd as [|? ? Hna Hnd']; subst.
    intros [-> | H1] [-> | H2].
    + reflexivity.
    + exfalso. apply Hna. rewrite <- Hk'. now apply in_map.
    + exfalso. apply Hna. rewrite Hk'. now apply in_map.
    + now apply IH.
  - exfalso. exact (lastMatch_none key data E r Hin Hk).
Qed.

(** X23.  When no two records share a day, the order of the records does not
    matter: any rearrangement of the data binds every cell alike. *)
Theorem bindDaysData_order_irrelevant days data data' colorScale emptyColor :
  NoDup (map Datum.day data) ->
  Permutation data data' ->
  bindDaysData days data' colorScale emptyColor
  = bindDaysData days data colorScale emptyColor.
Proof.
  intros Hnd Hp. unfold bindDaysData. apply map_ext. intros day.
  rewrite !bindDay_lastMatch. f_equal.
  assert (Hnd' : NoDup (map Datum.day data')).
  { apply (Permutation_NoDup (l := map Datum.day data)); [|exact Hnd].
    now apply Permutation_map. }
  destruct (lastMatch (DayCell.day day) data) as [r|] eqn:E.
  - destruct (lastMatch_some _ _ _ E) as [Hin Hk].
    apply lastMatch_unique; [exact Hnd' | | exact Hk].
    now apply (Permutation_in _ Hp).
  - destruct (lastMatch (DayCell.day day) data') as [r'|] eqn:E'; [|reflexivity].
    destruct (lastMatch_some _ _ _ E') as [Hin Hk]. exfalso.
    apply (lastMatch_none _ _ E r'); [|exact Hk].
    apply (Permutation_in _ (Permutation_sym Hp)). exact Hin.
Qed.

Lemma bindDaysData_order_irrelevant_witness :
  bindDaysData [cell_jan_1] [jan_2; jan_1] (fun _ => "red") "white"
  = bindDaysData [cell_jan_1] [jan_1; jan_2] (fun _ => "red") "white".
Proof.
  apply (bindDaysData_order_irrelevant [cell_jan_1] [jan_1; jan_2] [jan_2; jan_1]).
  - cbn [map jan_1 jan_2 Datum.day]. repeat constructor.
    + intros [H | []]. discriminate H.
    + intros [].
  - apply perm_swap.
Defined.

(** ** The key of a day *)

Section Keys.

Local Open Scope Z_scope.

Lemma pad4_of_years : all_from (pad_ok 4) (Z.to_nat 10000) 0 = true.
Proof. vm_compute. reflexivity. Qed.

Lemma pad2_of_days : all_from (pad_ok 2) (Z.to_nat 100) 0 = true.
Proof. vm_compute. reflexivity. Qed.

Lemma pad4_spec (n : Z) :
  0 <= n <= 9999 ->
  String.length (pad n "0" 4) = 4%nat /\ undigits (pad n "0" 4) 0 = n.
Proof.
  intros H. pose proof (all_from_spec (pad_ok 4) (Z.to_nat 10000) 0 n pad4_of_years ltac:(lia)) as K.
  unfold pad_ok in K. apply andb_true_iff in K. destruct K as [A B].
  split; [now apply Nat.eqb_eq | now apply Z.eqb_eq].
Qed.

Lemma pad2_spec (n : Z) :
  0 <= n <= 99 ->
  String.length (pad n "0" 2) = 2%nat /\ undigits (pad n "0" 2) 0 = n.
Proof.
  intros H. pose proof (all_from_spec (pad_ok 2) (Z.to_nat 100) 0 n pad2_of_days ltac:(lia)) as K.
  unfold pad_ok in K. apply andb_true_iff in K. destruct K as [A B].
  split; [now apply Nat.eqb_eq | now apply Z.eqb_eq].
Qed.

Lemma append_inj (a : string) : forall a' b b',
  String.length a = String.length a' -> (a ++ b = a' ++ b')%string -> a = a' /\ b = b'.
Proof.
  induction a as [|c a IH]; intros [|c' a'] b b' L E; cbn in L; try discriminate L.
  - split; [reflexivity | exact E].
  - cbn in E. injection E as -> E. injection L as L.
    destruct (IH a' b b' L E) as [-> ->]. split; reflexivity.
Qed.

Lemma length_append (a b : string) :
  String.length (a ++ b) = (String.length a + String.length b)%nat.
Proof. induction a as [|c a IH]; cbn; [reflexivity | now rewrite IH]. Qed.

Lemma civil_inj (m n : Z) : civil m = civil n -> m = n.
Proof.
  intros E. pose proof (civil_spec m) as A. pose proof (civil_spec n) as B.
  rewrite E in A. destruct (civil n) as [[y mo] d]. lia.
Qed.

(** X24.  The key of a day: for dates of the years 0..9999, [dayFormat]
    gives a string of ten characters, and two dates have the same key
    exactly when they are the same calendar day. *)
Theorem dayFormat_identifies_the_day (s t : Date) :
  0 <= getFullYear s <= 9999 -> 0 <= getFullYear t <= 9999 ->
  String.length (dayFormat s) = 10%nat
  /\ (dayFormat s = dayFormat t <-> Day s = Day t).
Proof.
  intros Hs Ht.
  pose proof (getMonth_range s) as Ms. pose proof (getMonth_range t) as Mt.
  pose proof (getDate_range s) as Ds. pose proof (getDate_range t) as Dt.
  unfold dayFormat, timeFormat_Y_m_d.
  rewrite !Z.rem_small by lia.
  destruct (pad4_spec (getFullYear s) Hs) as [Ls Us].
  destruct (pad4_spec (getFullYear t) Ht) as [Lt Ut].
  destruct (pad2_spec (getMonth s + 1) ltac:(lia)) as [Lms Ums].
  destruct (pad2_spec (getMonth t + 1) ltac:(lia)) as [Lmt Umt].
  destruct (pad2_spec (getDate s) ltac:(lia)) as [Lds Uds].
  destruct (pad2_spec (getDate t) ltac:(lia)) as [Ldt Udt].
  split.
  - rewrite !length_append, Ls, Lms, Lds. reflexivity.
  - split.
    + intros E.
      apply append_inj in E; [|congruence]. destruct E as [Ey E].
      apply (append_inj "-" "-") in E; [|reflexivity]. destruct E as [_ E].
      apply append_inj in E; [|congruence]. destruct E as [Em E].
      apply (append_inj "-" "-") in E; [|reflexivity]. destruct E as [_ Ed].
      apply civil_inj. rewrite !civil_Day.
      assert (getFullYear s = getFullYear t) by congruence.
      assert (getMonth s + 1 = getMonth t + 1) by congruence.
      assert (getDate s = getDate t) by congruence.
      f_equal; [f_equal|]; lia.
    + intros E. unfold getFullYear, getMonth, getDate, getUTCFullYear, getUTCMonth,
        getUTCDate. rewrite E. reflexivity.
Qed.

Lemma dayFormat_identifies_the_day_witness :
  dayFormat (newDate 2023 0 1) = "2023-01-01"
  /\ (dayFormat (newDate 2023 0 1) = dayFormat (newDate 2023 0 1 + 3600000)
      <-> Day (newDate 2023 0 1) = Day (newDate 2023 0 1 + 3600000)).
Proof.
  split; [vm_compute; reflexivity|].
  apply (dayFormat_identifies_the_day (newDate 2023 0 1) (newDate 2023 0 1 + 3600000));
    vm_compute; split; intros H; discriminate H.
Defined.

End Keys.

(** ** computeDomain *)

Lemma Qmin_cases (x y : Q) : Qmin x y = x \/ Qmin x y = y.
Proof. unfold Qmin, GenericMinMax.gmin. destruct (x ?= y)%Q; auto. Qed.

Lemma Qmax_cases (x y : Q) : Qmax x y = x \/ Qmax x y = y.
Proof. unfold Qmax, GenericMinMax.gmax. destruct (x ?= y)%Q; auto. Qed.

Lemma fold_min_finite (xs : list number) : forall q,
  (forall x, In x xs -> exists v, x = Fin v) ->
  exists lo, fold_left JS.min xs (Fin q) = Fin lo
    /\ lo <= q
    /\ (forall v, In (Fin v) xs -> lo <= v)
    /\ (lo = q \/ In (Fin lo) xs).
Proof.
  induction xs as [|x xs IH]; intros q H.
  - exists q. split; [reflexivity|]. split; [lra|]. split; [intros v []|left; reflexivity].
  - destruct (H x (or_introl eq_refl)) as [v ->].
    rewrite fold_left_step. cbn [JS.min lift2].
    destruct (IH (Qmin q v) (fun x Hx => H x (or_intror Hx))) as (lo & E & L & A & B).
    exists lo. split; [exact E|].
    pose proof (Q.le_min_l q v). pose proof (Q.le_min_r q v).
    split; [lra|]. split.
    + intros w [[= <-] | Hw]; [lra | now apply A].
    + destruct B as [-> | B]; [|right; right; exact B].
      destruct (Qmin_cases q v) as [-> | ->]; [left; reflexivity | right; left; reflexivity].
Qed.

Lemma fold_max_finite (xs : list number) : forall q,
  (forall x, In x xs -> exists v, x = Fin v) ->
  exists hi, fold_left JS.max xs (Fin q) = Fin hi
    /\ q <= hi
    /\ (forall v, In (Fin v) xs -> v <= hi)
    /\ (hi = q \/ In (Fin hi) xs).
Proof.
  induction xs as [|x xs IH]; intros q H.
  - exists q. split; [reflexivity|]. split; [lra|]. split; [intros v []|left; reflexivity].
  - destruct (H x (or_introl eq_refl)) as [v ->].
    rewrite fold_left_step. cbn [JS.max lift2].
    destruct (IH (Qmax q v) (fun x Hx => H x (or_intror Hx))) as (hi & E & L & A & B).
    exists hi. split; [exact E|].
    pose proof (Q.le_max_l q v). pose proof (Q.le_max_r q v).
    split; [lra|]. split.
    + intros w [[= <-] | Hw]; [lra | now apply A].
    + destruct B as [-> | B]; [|right; right; exact B].
      destruct (Qmax_cases q v) as [-> | ->]; [left; reflexivity | right; left; reflexivity].
Qed.

(** X25.  For a data set that is not empty and whose values are all finite
    numbers, [computeDomain] with 'auto' for both ends returns two values
    of the data set that enclose every value. *)
Theorem computeDomain_auto_encloses_the_data (data : list Datum.t) :
  data <> [] ->
  (forall d, In d data -> exists v, Datum.value d = Fin v) ->
  exists lo hi,
    computeDomain data Auto Auto = (Fin lo, Fin hi)
    /\ (exists d, In d data /\ Datum.value d = Fin lo)
    /\ (exists d, In d data /\ Datum.value d = Fin hi)
    /\ forall d v, In d data -> Datum.value d = Fin v -> lo <= v <= hi.
Proof.
  intros Hne Hfin. destruct data as [|d0 data]; [contradiction|].
  unfold computeDomain. cbn [map min_list max_list].
  destruct (Hfin d0 (or_introl eq_refl)) as [q E0]. rewrite E0.
  assert (Hf : forall x, In x (map Datum.value data) -> exists v, x = Fin v).
  { intros x Hx. apply in_map_iff in Hx. destruct Hx as (d & <- & Hd).
    apply Hfin. right. exact Hd. }
  destruct (fold_min_finite _ q Hf) as (lo & El & Ll & Al & Bl).
  destruct (fold_max_finite _ q Hf) as (hi & Eh & Lh & Ah & Bh).
  exists lo, hi. rewrite El, Eh. split; [reflexivity|]. split; [|split].
  - destruct Bl as [-> | Bl]; [exists d0; split; [left; reflexivity | exact E0]|].
    apply in_map_iff in Bl. destruct Bl as (d & Ed & Hd).
    exists d. split; [right; exact Hd | exact Ed].
  - destruct Bh as [-> | Bh]; [exists d0; split; [left; reflexivity | exact E0]|].
    apply in_map_iff in Bh. destruct Bh as (d & Ed & Hd).
    exists d. split; [right; exact Hd | exact Ed].
  - intros d v [<- | Hd] Ev.
    + rewrite E0 in Ev. injection Ev as <-. split; assumption.
    + assert (In (Fin v) (map Datum.value data)).
      { rewrite <- Ev. now apply in_map. }
      split; [now apply Al | now apply Ah].
Qed.

Lemma computeDomain_auto_encloses_the_data_witness :
  computeDomain [Datum.mk "2023-01-01" (Fin 3); Datum.mk "2023-01-02" (Fin 5);
                 Datum.mk "2023-01-03" (Fin 1)] Auto Auto
  = (Fin 1, Fin 5).
Proof.
  destruct (computeDomain_auto_encloses_the_data
              [Datum.mk "2023-01-01" (Fin 3); Datum.mk "2023-01-02" (Fin 5);
               Datum.mk "2023-01-03" (Fin 1)]) as (lo & hi & E & _).
  - intros H. discriminate H.
  - intros d [<- | [<- | [<- | []]]]; eexists; reflexivity.
  - reflexivity.
Defined.

(** ** Dates that stay valid

    The time values of ECMAScript end 8.64e15 milliseconds from the epoch,
    in the years -271821 and 275760.  Between the first of January -271820
    and the first of September 275760 every date the block loops build is
    a time value, so the blocks of the model are the blocks of the code. *)











Section Bounded.

Variable alignBox : BBox.t -> BBox.t -> string -> number * number.


End Bounded.


Section Masked.

Variable alignBox : BBox.t -> BBox.t -> string -> number * number.


End Masked.


